(** * Calibration tables of the EVTC387 inverter control unit

    The repository is a set of generated C files: headers whose
    [#if / #elif / #else / #error] chains pick one branch of literal macros per
    build switch, and source files whose initialisers bind those macros (or
    short arithmetic over them) to named calibration constants.

    The development embeds
    - the constant expressions of C that the initialisers use (integers,
      [float] and [double] arithmetic, conversion on initialisation),
    - every selection chain of [SpInvCal.h], [BswCfgPwm.h], [CcCalPrjCfg.h]
      and [CcCalBase.c], and the macros of [BswCfgRdc.h] and [CcCalBase.h],
    - every declaration of [BswCfgPwm.c], [BswCfgRdc.c] and [CcCalBase.c],
    and proves the properties of the table a context resolves to. *)

From Stdlib Require Import ZArith QArith Qabs List String Bool Lia Permutation.
From Stdlib Require Import Floats.SpecFloat.
Import ListNotations.

Open Scope string_scope.
Open Scope list_scope.
Open Scope Z_scope.

(** ** Diagnostics of a build *)

(** The build switches (the macros tested by the selection chains). *)
Inductive Axis :=
| PROJECT_NAME
| PERFORMANCE_TYPE
| DEVELOPMENT_PHASE
| MARKET_VERSION
| GATE_IC_TYPE
| POWER_MODULE_TYPE
| MOT_CUR_SENSOR_TYPE
| ETPU_CALCULATION_TIME_OPTION
| PWM_UPDATETIME_AUTO_MODE
| SA_2STAGE_PWM_MODE
| SA_SQPWM_REGEN_DIS
| PWM_BURST_MODE
| VAR_DTGS_OPTION.

(** What stops a build.  [UndefinedAxis] is a reached [#error undefined ...
    MACRO]; the other two are the constraint violations an initialiser can
    commit: more initialisers than the array has elements, and an initialiser
    that is no constant expression (an integer division by zero). *)
Inductive ConfigError :=
| UndefinedAxis (a : Axis)
| ExcessInitializers (name : string)
| NotConstant (name : string).

(** A build either produces its artefact or fails with every diagnostic that
    was reached; there is no partial artefact. *)
Inductive result (A : Type) :=
| Ok (a : A)
| Failed (errs : list ConfigError).

Arguments Ok {A} a.
Arguments Failed {A} errs.

Definition errors {A} (r : result A) : list ConfigError :=
  match r with
  | Ok _ => []
  | Failed es => es
  end.

(** Two independent parts of a build: both are examined, and the diagnostics
    of both are reported. *)
Definition both {A B} (ra : result A) (rb : result B) : result (A * B) :=
  match ra, rb with
  | Ok a, Ok b => Ok (a, b)
  | _, _ => Failed (errors ra ++ errors rb)
  end.

Definition rmap {A B} (f : A -> B) (r : result A) : result B :=
  match r with
  | Ok a => Ok (f a)
  | Failed es => Failed es
  end.

(** A part that is only examined once an earlier one went through (a chain
    nested in the taken branch of another, or the initialisers, which are only
    translated when preprocessing raised no [#error]). *)
Definition rbind {A B} (r : result A) (k : A -> result B) : result B :=
  match r with
  | Ok a => k a
  | Failed es => Failed es
  end.

Notation "r1 <&> r2" := (both r1 r2) (at level 61, left associativity).
Notation "x <- r ;; k" := (rbind r (fun x => k))
  (at level 200, r at level 100, k at level 200, right associativity).

(** ** Constant expressions of C *)

Module C.

(** [FLOAT32] is IEEE-754 binary32 and [double] binary64, both rounding to
    nearest even; an operation is carried out in the type its operands are
    converted to (no excess precision). *)
Definition f32_of_Z (z : Z) : spec_float := binary_normalize 24 128 z 0 false.
Definition f64_of_Z (z : Z) : spec_float := binary_normalize 53 1024 z 0 false.

Definition f64_of_f32 (x : spec_float) : spec_float :=
  match x with
  | S754_finite s m e => binary_round 53 1024 s m e
  | _ => x
  end.

Definition f32_of_f64 (x : spec_float) : spec_float :=
  match x with
  | S754_finite s m e => binary_round 24 128 s m e
  | _ => x
  end.

(** Conversion of a floating value to an integer discards the fraction. *)
Definition SFtrunc (x : spec_float) : Z :=
  match x with
  | S754_finite s m e =>
      cond_Zopp s (if 0 <=? e then Z.pos m * 2 ^ e else Z.quot (Z.pos m) (2 ^ (- e)))
  | _ => 0
  end.

(** The rational a finite floating value stands for. *)
Definition SF2Q (x : spec_float) : Q :=
  match x with
  | S754_finite s m e =>
      let n := cond_Zopp s (Z.pos m) in
      if 0 <=? e then inject_Z (n * 2 ^ e) else Qmake n (Z.to_pos (2 ^ (- e)))
  | _ => 0%Q
  end.

(** The value of a constant expression, with its type. *)
Inductive cval :=
| CInt (z : Z)
| CFloat (f : spec_float)
| CDouble (d : spec_float)
| CNotConst.

Definition as_float (c : cval) : spec_float :=
  match c with
  | CInt z => f32_of_Z z
  | CFloat f => f
  | CDouble d => f32_of_f64 d
  | CNotConst => S754_nan
  end.

Definition as_double (c : cval) : spec_float :=
  match c with
  | CInt z => f64_of_Z z
  | CFloat f => f64_of_f32 f
  | CDouble d => d
  | CNotConst => S754_nan
  end.

(** The usual arithmetic conversions: two integers stay integers, a [double]
    operand makes the operation a [double] one, otherwise it is a [float]
    one. *)
Definition arith (iop : Z -> Z -> cval)
  (fop dop : spec_float -> spec_float -> spec_float) (a b : cval) : cval :=
  match a, b with
  | CNotConst, _ | _, CNotConst => CNotConst
  | CInt x, CInt y => iop x y
  | CDouble _, _ | _, CDouble _ => CDouble (dop (as_double a) (as_double b))
  | _, _ => CFloat (fop (as_float a) (as_float b))
  end.

Definition mul : cval -> cval -> cval :=
  arith (fun x y => CInt (x * y)) (SFmul 24 128) (SFmul 53 1024).

Definition sub : cval -> cval -> cval :=
  arith (fun x y => CInt (x - y)) (SFsub 24 128) (SFsub 53 1024).

Definition div : cval -> cval -> cval :=
  arith (fun x y => if y =? 0 then CNotConst else CInt (Z.quot x y))
        (SFdiv 24 128) (SFdiv 53 1024).

Definition neg (a : cval) : cval :=
  match a with
  | CInt x => CInt (- x)
  | CFloat f => CFloat (SFopp f)
  | CDouble d => CDouble (SFopp d)
  | CNotConst => CNotConst
  end.

(** Decimal floating constants [m * 10^-k]: [dbl] without suffix, [flt] with
    the suffix [f].  Numerator and power of ten of every constant of the
    tables are exact in their format, so the quotient is the correctly rounded
    constant. *)
Definition dbl (m : Z) (k : Z) : cval :=
  CDouble (SFdiv 53 1024 (f64_of_Z m) (f64_of_Z (10 ^ k))).

Definition flt (m : Z) (k : Z) : cval :=
  CFloat (SFdiv 24 128 (f32_of_Z m) (f32_of_Z (10 ^ k))).

(** The types of the calibration constants. *)
Inductive ctype := BOOL | UINT8 | UINT16 | UINT32 | INT16 | INT32 | SLONG | FLOAT32.

(** A stored value: an integer or a binary32 number. *)
Inductive value :=
| VInt (z : Z)
| VFloat (f : spec_float).

Definition wrap_unsigned (w : Z) (z : Z) : Z := z mod 2 ^ w.
Definition wrap_signed (w : Z) (z : Z) : Z := (z + 2 ^ (w - 1)) mod 2 ^ w - 2 ^ (w - 1).

(** Conversion to an integer type keeps the value modulo the width ([BOOL] is
    an 8-bit and [signed long] a 32-bit type on the TC387). *)
Definition wrap (ty : ctype) (z : Z) : Z :=
  match ty with
  | BOOL | UINT8 => wrap_unsigned 8 z
  | UINT16 => wrap_unsigned 16 z
  | UINT32 => wrap_unsigned 32 z
  | INT16 => wrap_signed 16 z
  | INT32 | SLONG => wrap_signed 32 z
  | FLOAT32 => z
  end.

(** Initialisation converts the initialiser to the type of the object. *)
Definition convert (ty : ctype) (c : cval) : value :=
  match ty with
  | FLOAT32 => VFloat (as_float c)
  | _ =>
      match c with
      | CInt z => VInt (wrap ty z)
      | CFloat f | CDouble f => VInt (wrap ty (SFtrunc f))
      | CNotConst => VInt 0
      end
  end.

Definition is_const (c : cval) : bool :=
  match c with
  | CNotConst => false
  | _ => true
  end.

End C.

Import C.

(** ** What the absent headers supply

    [common.h] and the platform headers are not part of the generated output.
    Their macros are parameters of the development: the enumerators the
    selection chains compare against, and the constants the initialisers
    mention.  Each is taken to expand to one constant. *)

(** The enumerators of the build switches. *)
Class OptionCodes := {
  _UNDEFINED_OPTION : Z;
  (* _GATE_IC_TYPE *)
  _GATE_IC_TYPE_1 : Z;
  _GATE_IC_TYPE_2 : Z;
  _GATE_IC_TYPE_3 : Z;
  _GATE_IC_TYPE_4 : Z;
  _GATE_IC_TYPE_5 : Z;
  _GATE_IC_TYPE_6 : Z;
  _GATE_IC_TYPE_7 : Z;
  _GATE_IC_TYPE_8_NV74_TCAR : Z;
  (* _POWER_MODULE_TYPE *)
  _PM_CASE_TYPE : Z;
  _PM_DSC_TYPE_1 : Z;
  _PM_DSC_TYPE_2 : Z;
  _PM_HP_DRIVE_TYPE : Z;
  _PM_CVeGT_TYPE : Z;
  _PM_NV74_TYPE : Z;
  _PM_MV_TYPE : Z;
  (* _MOT_CUR_SENSOR_TYPE *)
  _MOT_400A_SCALE_HALL : Z;
  _MOT_400A_SCALE_SHUNT_TYPE1 : Z;
  _MOT_500A_SCALE_SHUNT_TYPE1 : Z;
  _MOT_600A_SCALE_SHUNT_TYPE1 : Z;
  _MOT_400A_SCALE_SHUNT_TYPE2 : Z;
  _MOT_500A_SCALE_HALL : Z;
  _MOT_700A_SCALE_HALL : Z;
  _MOT_700A_SCALE_SHUNT_0 : Z;
  _MOT_850A_SCALE_HALL : Z;
  _MOT_850A_SCALE_HALL_FOR_HPV : Z;
  _MOT_1000A_SCALE_HALL : Z;
  _MOT_1300A_SCALE_HALL : Z;
  _MOT_1100A_SCALE_HALL : Z;
  _MOT_1500A_SCALE_HALL : Z;
  _MOT_700A_SCALE_CORELESS : Z;
  _MOT_700A_SCALE_CORELESS_TYPE2 : Z;
  _MOT_650A_SCALE_CORELESS_TYPE : Z;
  (* _ETPU_CALCULATION_TIME_OPTION *)
  _SINGLE_STAGE_SYSTEM : Z;
  _TWO_STAGE_SYSTEM : Z;
  (* _PWM_UPDATETIME_AUTO_MODE *)
  _UPDATETIME_AUTO : Z;
  _UPDATETIME_MANUAL : Z;
  (* _SA_2STAGE_PWM_MODE *)
  _2STG_SVPWM : Z;
  _2STG_RSPWM : Z;
  (* _SA_SQPWM_REGEN_DIS *)
  _SQPWM_REGEN_ENB : Z;
  _SQPWM_REGEN_DIS : Z;
  (* _PWM_BURST_MODE *)
  _BURST_MODE_ENABLE : Z;
  _BURST_MODE_DISABLE : Z;
  (* _VAR_DTGS_OPTION *)
  _VAR_DTGS_OPTION_INCLUDED : Z;
  _VAR_DTGS_OPTION_NOT_INCLUDED : Z;
  (* _PROJECT_NAME *)
  _MV_RWD_PROJ : Z;
  _ME_RWD_PROJ : Z;
  (* _PERFORMANCE_TYPE *)
  _STANDARD_VERSION : Z;
  _PERFORMANCE_VERSION : Z;
  _LONG_RANGE_VERSION : Z;
  _eM_160kW_VERSION : Z;
  _eM_200kW_VERSION : Z;
  _eM_250kW_VERSION : Z;
  (* _DEVELOPMENT_PHASE *)
  _TCAR_VERSION : Z;
  _PROTO_VERSION : Z;
  _MASTER_VERSION : Z;
  _PILOT_1_VERSION : Z;
  _PILOT_2_VERSION : Z;
  _M_VERSION : Z;
  _SOP_VERSION : Z;
  _RC_VERSION : Z;
  (* _MARKET_VERSION *)
  _NORTH_AMERICA_VERSION : Z;
  _DOMESTIC_VERSION : Z;
  _EUROPE_VERSION : Z;
  _CHINA_VERSION : Z;
  _COMMON_COUNTRY_VERSION : Z;
  _JAPAN_VERSION : Z
}.

(** The constants the initialisers mention and no generated file defines. *)
Class ExternMacros := {
  TOTAL_TARGET : nat;
  VARIABLE_HOVM_TAB_ROW_SIZE : nat;
  VARIABLE_HOVM_TAB_COL_SIZE : nat;
  SET_FLAG : cval;
  CLR_FLAG : cval;
  PI : cval;
  ITRCPX_SAMPLMODE_DOUBLE : cval;
  DEFAULT_OFFSET_MOT : cval;
  DEFAULT_OFFSET_HSG : cval;
  RESOLVER_DIRECTION_MOT : cval;
  RESOLVER_DIRECTION_HSG : cval;
  CUR_SENSOR_RANGE_HSG : cval;
  HVBATT_SENSOR_RANGE : cval;
  HVBATT_SENSOR_RANGE_TYP : cval;
  LVBATT_SENSOR_RANGE : cval;
  LVBATT_SENSOR_RANGE_OFFSET : cval;
  LVBATT_SENSOR_RANGE_TYP : cval;
  BSWCFGRDC_MOT_UNITRIG_DELAY : cval;
  BSWCFGRDC_HSG_UNITRIG_DELAY : cval
}.

(** ** The resolution context

    One macro per build switch, set by the build system.  A switch that was
    never set is an identifier the preprocessor does not know: in an [#if] it
    evaluates to 0. *)
Record ResolutionContext := {
  _PROJECT_NAME : option Z;
  _PERFORMANCE_TYPE : option Z;
  _DEVELOPMENT_PHASE : option Z;
  _MARKET_VERSION : option Z;
  _GATE_IC_TYPE : option Z;
  _POWER_MODULE_TYPE : option Z;
  _MOT_CUR_SENSOR_TYPE : option Z;
  _ETPU_CALCULATION_TIME_OPTION : option Z;
  _PWM_UPDATETIME_AUTO_MODE : option Z;
  _SA_2STAGE_PWM_MODE : option Z;
  _SA_SQPWM_REGEN_DIS : option Z;
  _PWM_BURST_MODE : option Z;
  _VAR_DTGS_OPTION : option Z
}.

Definition pp (macro : option Z) : Z :=
  match macro with
  | Some v => v
  | None => 0
  end.

(** The targets that index the per-target arrays, and the position of each. *)
Inductive Target := MOT | HSG.

Definition targets : list Target := [MOT; HSG].

Definition target_index (t : Target) : nat :=
  match t with
  | MOT => 0%nat
  | HSG => 1%nat
  end.

(** ** SpInvCal.h *)

Record GateIcCfg := mkGateIc {
  BSWCFGPWM_MOT_INV1_MIN_WIDTH : Z;
  BSWCFGPWM_MOT_INV2_MIN_WIDTH : Z;
  BSWCFGPWM_MOT_ASAC_EDGE_OFFSET : Z;
  BSWCFGPWM_HSG_INV1_MIN_WIDTH : Z;
  BSWCFGPWM_HSG_INV2_MIN_WIDTH : Z;
  BSWCFGPWM_HSG_ASAC_EDGE_OFFSET : Z
}.

Record PowerModuleCfg := mkPowerModule {
  BSWCFGPWM_MOT_INV1_DEADTIME : Z;
  BSWCFGPWM_MOT_INV2_DEADTIME : Z;
  BSWCFGPWM_MOT_DEADTIME_MULTI : Z;
  BSWCFGPWM_HSG_INV1_DEADTIME : Z;
  BSWCFGPWM_HSG_INV2_DEADTIME : Z
}.

Record CurSensorCfg := mkCurSensor {
  CUR_SENSOR_RANGE_MOT : cval
}.

Section Headers.

Context {codes : OptionCodes} {ext : ExternMacros}.

Definition sel_GATE_IC_TYPE (ctx : ResolutionContext) : result GateIcCfg :=
  let v := pp (_GATE_IC_TYPE ctx) in
  if v =? _UNDEFINED_OPTION then Failed [UndefinedAxis GATE_IC_TYPE]
  else if v =? _GATE_IC_TYPE_1 then Ok (mkGateIc 1 1 0 1 1 0)
  else if v =? _GATE_IC_TYPE_2 then Ok (mkGateIc 3000 3000 3000 3000 3000 3000)
  else if v =? _GATE_IC_TYPE_3 then Ok (mkGateIc 3000 3000 0 3000 3000 0)
  else if v =? _GATE_IC_TYPE_4 then Ok (mkGateIc 3000 3000 3000 3000 3000 3000)
  else if v =? _GATE_IC_TYPE_5 then Ok (mkGateIc 4000 4000 0 3000 3000 0)
  else if v =? _GATE_IC_TYPE_6 then Ok (mkGateIc 3000 3000 2600 3000 3000 0)
  else if v =? _GATE_IC_TYPE_7 then Ok (mkGateIc 300 300 390 300 300 390)
  else if v =? _GATE_IC_TYPE_8_NV74_TCAR then Ok (mkGateIc 3000 3000 390 300 300 390)
  else Failed [UndefinedAxis GATE_IC_TYPE].

Definition sel_POWER_MODULE_TYPE (ctx : ResolutionContext) : result PowerModuleCfg :=
  let v := pp (_POWER_MODULE_TYPE ctx) in
  if v =? _UNDEFINED_OPTION then Failed [UndefinedAxis POWER_MODULE_TYPE]
  else if v =? _PM_CASE_TYPE then Ok (mkPowerModule 2200 2200 2200 2200 2200)
  else if v =? _PM_DSC_TYPE_1 then Ok (mkPowerModule 2500 2500 2500 2500 2500)
  else if v =? _PM_DSC_TYPE_2 then Ok (mkPowerModule 4000 4000 4000 4000 4000)
  else if v =? _PM_HP_DRIVE_TYPE then Ok (mkPowerModule 2000 2000 4000 2000 2000)
  else if v =? _PM_CVeGT_TYPE then Ok (mkPowerModule 2000 4000 4000 2000 2000)
  else if v =? _PM_NV74_TYPE then Ok (mkPowerModule 2000 4000 4000 2000 2000)
  else if v =? _PM_MV_TYPE then Ok (mkPowerModule 2000 4000 2000 2000 2000)
  else Failed [UndefinedAxis POWER_MODULE_TYPE].

Definition sel_MOT_CUR_SENSOR_TYPE (ctx : ResolutionContext) : result CurSensorCfg :=
  let v := pp (_MOT_CUR_SENSOR_TYPE ctx) in
  if v =? _UNDEFINED_OPTION then Failed [UndefinedAxis MOT_CUR_SENSOR_TYPE]
  else if v =? _MOT_400A_SCALE_HALL then Ok (mkCurSensor (CInt 400))
  else if v =? _MOT_400A_SCALE_SHUNT_TYPE1 then Ok (mkCurSensor (CInt 400))
  else if v =? _MOT_500A_SCALE_SHUNT_TYPE1 then Ok (mkCurSensor (CInt 500))
  else if v =? _MOT_600A_SCALE_SHUNT_TYPE1 then Ok (mkCurSensor (dbl 5882353 4))
  else if v =? _MOT_400A_SCALE_SHUNT_TYPE2 then Ok (mkCurSensor (dbl 3942829 4))
  else if v =? _MOT_500A_SCALE_HALL then Ok (mkCurSensor (CInt 500))
  else if v =? _MOT_700A_SCALE_HALL then Ok (mkCurSensor (CInt 700))
  else if v =? _MOT_700A_SCALE_SHUNT_0 then Ok (mkCurSensor (CInt 700))
  else if v =? _MOT_850A_SCALE_HALL then Ok (mkCurSensor (CInt 850))
  else if v =? _MOT_850A_SCALE_HALL_FOR_HPV then Ok (mkCurSensor (CInt 850))
  else if v =? _MOT_1000A_SCALE_HALL then Ok (mkCurSensor (CInt 1000))
  else if v =? _MOT_1300A_SCALE_HALL then Ok (mkCurSensor (CInt 1300))
  else if v =? _MOT_1100A_SCALE_HALL then Ok (mkCurSensor (CInt 1100))
  else if v =? _MOT_1500A_SCALE_HALL then Ok (mkCurSensor (CInt 1500))
  else if v =? _MOT_700A_SCALE_CORELESS then Ok (mkCurSensor (dbl 8333333 4))
  else if v =? _MOT_700A_SCALE_CORELESS_TYPE2 then Ok (mkCurSensor (dbl 9095043 4))
  else if v =? _MOT_650A_SCALE_CORELESS_TYPE then Ok (mkCurSensor (dbl 6820567 4))
  else Failed [UndefinedAxis MOT_CUR_SENSOR_TYPE].

(** ** BswCfgPwm.h *)

Definition BSWCFGPWM_MOT_START : Z := 125000.
Definition BSWCFGPWM_MOT_PERIOD : Z := 250000.
Definition BSWCFGPWM_MOT_PWMMAC_MODE : cval := ITRCPX_SAMPLMODE_DOUBLE.
Definition BSWCFGPWM_HSG_START : Z := 125000.
Definition BSWCFGPWM_HSG_PERIOD : Z := 250000.
Definition BSWCFGPWM_HSG_PWMMAC_MODE : cval := ITRCPX_SAMPLMODE_DOUBLE.

Record EtpuCfg := mkEtpu {
  BSWCFGPWM_MOT_INV1_UPDATE_TIME : Z;
  BSWCFGPWM_MOT_INV2_UPDATE_TIME : Z;
  BSWCFGPWM_MOT_eTPULoad_SYNC : Z;
  BSWCFGPWM_MOT_eTPULoad_RSLV : Z;
  BSWCFGPWM_MOT_eTPULoad_PWM : Z;
  BSWCFGPWM_HSG_INV1_UPDATE_TIME : Z;
  BSWCFGPWM_HSG_INV2_UPDATE_TIME : Z;
  BSWCFGPWM_HSG_eTPULoad_SYNC : Z;
  BSWCFGPWM_HSG_eTPULoad_RSLV : Z;
  BSWCFGPWM_HSG_eTPULoad_PWM : Z
}.

Record AutoModeCfg := mkAutoMode {
  BSWCFGPWM_MOT_UPDATETIME_AUTO_MODE : cval;
  BSWCFGPWM_HSG_UPDATETIME_AUTO_MODE : cval
}.

Definition sel_ETPU_CALCULATION_TIME_OPTION (ctx : ResolutionContext) : result EtpuCfg :=
  let v := pp (_ETPU_CALCULATION_TIME_OPTION ctx) in
  if v =? _UNDEFINED_OPTION then Failed [UndefinedAxis ETPU_CALCULATION_TIME_OPTION]
  else if v =? _SINGLE_STAGE_SYSTEM
  then Ok (mkEtpu 3800 3000 500 3500 9500 3800 3000 0 3500 9500)
  else if v =? _TWO_STAGE_SYSTEM
  then Ok (mkEtpu 3800 3000 500 3500 9500 3800 3000 0 3500 9500)
  else Failed [UndefinedAxis ETPU_CALCULATION_TIME_OPTION].

Definition sel_PWM_UPDATETIME_AUTO_MODE (ctx : ResolutionContext) : result AutoModeCfg :=
  let v := pp (_PWM_UPDATETIME_AUTO_MODE ctx) in
  if v =? _UNDEFINED_OPTION then Failed [UndefinedAxis PWM_UPDATETIME_AUTO_MODE]
  else if v =? _UPDATETIME_AUTO then Ok (mkAutoMode SET_FLAG SET_FLAG)
  else if v =? _UPDATETIME_MANUAL then Ok (mkAutoMode CLR_FLAG CLR_FLAG)
  else Failed [UndefinedAxis PWM_UPDATETIME_AUTO_MODE].

End Headers.

(** ** Declarations and the bindings they produce *)

(** The initialiser of a declaration: of a scalar, of an array over the
    targets, of a table with one row per target, or of a table of given
    size. *)
Inductive Initializer :=
| Single (e : cval)
| PerTargetInit (es : list cval)
| PerTargetRows (cols : nat) (rows : list (list cval))
| Rows (nrows ncols : nat) (rows : list (list cval)).

Record Decl := mkDecl {
  d_const : bool;
  d_type : ctype;
  d_name : string;
  d_init : Initializer
}.

(** [const T name = e;], [const T name[TOTAL_TARGET] = { ... };] and their
    counterparts without [const]. *)
Definition cst (ty : ctype) (name : string) (e : cval) : Decl :=
  mkDecl true ty name (Single e).

Definition cst_t (ty : ctype) (name : string) (es : list cval) : Decl :=
  mkDecl true ty name (PerTargetInit es).

Definition var (ty : ctype) (name : string) (e : cval) : Decl :=
  mkDecl false ty name (Single e).

Definition var_t (ty : ctype) (name : string) (es : list cval) : Decl :=
  mkDecl false ty name (PerTargetInit es).

(** What a name is bound to. *)
Inductive Binding :=
| Scalar (ty : ctype) (v : value)
| PerTarget (ty : ctype) (vs : list value)
| PerTargetTab (ty : ctype) (rows : list (list value))
| Tab (ty : ctype) (rows : list (list value)).

Definition Table := list (string * Binding).

Fixpoint lookup (name : string) (t : Table) : option Binding :=
  match t with
  | [] => None
  | (n, b) :: t' => if String.eqb name n then Some b else lookup name t'
  end.

(** An array of [n] elements initialised by [l]: the elements without an
    initialiser are zero. *)
Definition pad {A} (n : nat) (zero : A) (l : list A) : list A :=
  firstn n l ++ repeat zero (n - List.length l).

Definition excess {A} (n : nat) (l : list A) : bool := (n <? List.length l)%nat.

Section Evaluation.

Context {ext : ExternMacros}.

Definition init_array (ty : ctype) (n : nat) (es : list cval) : list value :=
  pad n (convert ty (CInt 0)) (map (convert ty) es).

Definition init_rows (ty : ctype) (n cols : nat) (rows : list (list cval))
  : list (list value) :=
  pad n (init_array ty cols []) (map (init_array ty cols) rows).

Definition binding_of (d : Decl) : Binding :=
  match d_init d with
  | Single e => Scalar (d_type d) (convert (d_type d) e)
  | PerTargetInit es => PerTarget (d_type d) (init_array (d_type d) TOTAL_TARGET es)
  | PerTargetRows cols rows =>
      PerTargetTab (d_type d) (init_rows (d_type d) TOTAL_TARGET cols rows)
  | Rows nrows ncols rows => Tab (d_type d) (init_rows (d_type d) nrows ncols rows)
  end.

Definition constants_of (i : Initializer) : list cval :=
  match i with
  | Single e => [e]
  | PerTargetInit es => es
  | PerTargetRows _ rows | Rows _ _ rows => List.concat rows
  end.

Definition too_many (i : Initializer) : bool :=
  match i with
  | Single _ => false
  | PerTargetInit es => excess TOTAL_TARGET es
  | PerTargetRows cols rows => excess TOTAL_TARGET rows || existsb (excess cols) rows
  | Rows nrows ncols rows => excess nrows rows || existsb (excess ncols) rows
  end.

(** The constraints of C on an initialiser (ISO C 6.7.9p2 and p4): it gives
    no value to an element the array does not have, and its expressions are
    constant.  The model stops the build at a violation, so that the tables
    of [resolve] are those of the builds without a diagnostic.  A compiler
    is only held to a diagnostic there and may go on, keeping the leading
    initialisers of an array that is too short: such a build has no table
    here. *)
Definition check_decl (d : Decl) : list ConfigError :=
  (if forallb is_const (constants_of (d_init d)) then [] else [NotConstant (d_name d)])
  ++ (if too_many (d_init d) then [ExcessInitializers (d_name d)] else []).

Definition eval_decl (d : Decl) : result (string * Binding) :=
  match check_decl d with
  | [] => Ok (d_name d, binding_of d)
  | es => Failed es
  end.

Fixpoint eval_decls (ds : list Decl) : result Table :=
  match ds with
  | [] => Ok []
  | d :: ds' => rmap (fun bt => fst bt :: snd bt) (eval_decl d <&> eval_decls ds')
  end.

End Evaluation.

Section Sources.

Context {codes : OptionCodes} {ext : ExternMacros}.

(** ** BswCfgPwm.c *)

Definition BswCfgPwm_c (g : GateIcCfg) (pm : PowerModuleCfg) (e : EtpuCfg)
  (a : AutoModeCfg) : list Decl :=
  [ cst UINT32 "BswCfgCal_Pwm_MotStartTime" (CInt BSWCFGPWM_MOT_START);
    cst UINT32 "BswCfgCal_Pwm_MotPeriod" (CInt BSWCFGPWM_MOT_PERIOD);
    cst UINT32 "BswCfgCal_Pwm_MotDeadTime_INV1" (CInt (BSWCFGPWM_MOT_INV1_DEADTIME pm));
    cst UINT32 "BswCfgCal_Pwm_MotDeadTime_INV2" (CInt (BSWCFGPWM_MOT_INV2_DEADTIME pm));
    cst UINT32 "BswCfgCal_Pwm_MotDeadTime_Multi" (CInt (BSWCFGPWM_MOT_DEADTIME_MULTI pm));
    cst UINT32 "BswCfgCal_Pwm_MotMinPulseWidth_INV1" (CInt (BSWCFGPWM_MOT_INV1_MIN_WIDTH g));
    cst UINT32 "BswCfgCal_Pwm_MotMinPulseWidth_INV2" (CInt (BSWCFGPWM_MOT_INV2_MIN_WIDTH g));
    cst UINT32 "BswCfgCal_Pwm_MotUpdateTime_INV1" (CInt (BSWCFGPWM_MOT_INV1_UPDATE_TIME e));
    cst UINT32 "BswCfgCal_Pwm_MotUpdateTime_INV2" (CInt (BSWCFGPWM_MOT_INV2_UPDATE_TIME e));
    cst UINT8 "BswCfgCal_Pwm_MotPwmMode" BSWCFGPWM_MOT_PWMMAC_MODE;
    cst UINT32 "BswCfgCal_Pwm_MotAsacEdgeOffset" (CInt (BSWCFGPWM_MOT_ASAC_EDGE_OFFSET g));
    cst UINT8 "BswCfgCal_Pwm_MotUpdatetime_AutoMode" (BSWCFGPWM_MOT_UPDATETIME_AUTO_MODE a);
    cst UINT32 "BswCfgCal_Pwm_MoteTPULoad_SYNC" (CInt (BSWCFGPWM_MOT_eTPULoad_SYNC e));
    cst UINT32 "BswCfgCal_Pwm_MoteTPULoad_RSLV" (CInt (BSWCFGPWM_MOT_eTPULoad_RSLV e));
    cst UINT32 "BswCfgCal_Pwm_MoteTPULoad_PWM" (CInt (BSWCFGPWM_MOT_eTPULoad_PWM e));
    cst UINT32 "BswCfgCal_Pwm_HsgStartTime" (CInt BSWCFGPWM_HSG_START);
    cst UINT32 "BswCfgCal_Pwm_HsgPeriod" (CInt BSWCFGPWM_HSG_PERIOD);
    cst UINT32 "BswCfgCal_Pwm_HsgDeadTime_INV1" (CInt (BSWCFGPWM_HSG_INV1_DEADTIME pm));
    cst UINT32 "BswCfgCal_Pwm_HsgDeadTime_INV2" (CInt (BSWCFGPWM_HSG_INV2_DEADTIME pm));
    cst UINT32 "BswCfgCal_Pwm_HsgMinPulseWidth_INV1" (CInt (BSWCFGPWM_HSG_INV1_MIN_WIDTH g));
    cst UINT32 "BswCfgCal_Pwm_HsgMinPulseWidth_INV2" (CInt (BSWCFGPWM_HSG_INV2_MIN_WIDTH g));
    cst UINT32 "BswCfgCal_Pwm_HsgUpdateTime_INV1" (CInt (BSWCFGPWM_HSG_INV1_UPDATE_TIME e));
    cst UINT32 "BswCfgCal_Pwm_HsgUpdateTime_INV2" (CInt (BSWCFGPWM_HSG_INV2_UPDATE_TIME e));
    cst UINT8 "BswCfgCal_Pwm_HsgPwmMode" BSWCFGPWM_HSG_PWMMAC_MODE;
    cst UINT32 "BswCfgCal_Pwm_HsgAsacEdgeOffset" (CInt (BSWCFGPWM_HSG_ASAC_EDGE_OFFSET g));
    cst UINT8 "BswCfgCal_Pwm_HsgUpdatetime_AutoMode" (BSWCFGPWM_HSG_UPDATETIME_AUTO_MODE a);
    cst UINT32 "BswCfgCal_Pwm_HsgeTPULoad_SYNC" (CInt (BSWCFGPWM_HSG_eTPULoad_SYNC e));
    cst UINT32 "BswCfgCal_Pwm_HsgeTPULoad_RSLV" (CInt (BSWCFGPWM_HSG_eTPULoad_RSLV e));
    cst UINT32 "BswCfgCal_Pwm_HsgeTPULoad_PWM" (CInt (BSWCFGPWM_HSG_eTPULoad_PWM e));
    var UINT32 "BswCfgVal_Pwm_MotUpdateTime_INV1" (CInt (BSWCFGPWM_MOT_INV1_UPDATE_TIME e));
    var UINT32 "BswCfgVal_Pwm_MotUpdateTime_INV2" (CInt (BSWCFGPWM_MOT_INV2_UPDATE_TIME e));
    var UINT32 "BswCfgVal_Pwm_HsgUpdateTime_INV1" (CInt (BSWCFGPWM_HSG_INV1_UPDATE_TIME e));
    var UINT32 "BswCfgVal_Pwm_HsgUpdateTime_INV2" (CInt (BSWCFGPWM_HSG_INV2_UPDATE_TIME e)) ].

(** ** BswCfgRdc.h and BswCfgRdc.c *)

Definition BSWCFGRDC_MOT_K1_D : cval := dbl 5605666 7.
Definition BSWCFGRDC_MOT_K2_D : cval := dbl 7535489 7.
Definition BSWCFGRDC_MOT_K1_SCALE : Z := 6.
Definition BSWCFGRDC_MOT_K2_SCALE : Z := 5.
Definition BSWCFGRDC_MOT_SIN_DC_OFFSET : Z := 0.
Definition BSWCFGRDC_MOT_COS_DC_OFFSET : Z := 0.
Definition BSWCFGRDC_MOT_SIN_SCALE : Z := 1200.
Definition BSWCFGRDC_MOT_COS_SCALE : Z := 1200.

Definition BSWCFGRDC_HSG_K1_D : cval := dbl 5605666 7.
Definition BSWCFGRDC_HSG_K2_D : cval := dbl 7535489 7.
Definition BSWCFGRDC_HSG_K1_SCALE : Z := 6.
Definition BSWCFGRDC_HSG_K2_SCALE : Z := 5.
Definition BSWCFGRDC_HSG_SIN_DC_OFFSET : Z := 0.
Definition BSWCFGRDC_HSG_COS_DC_OFFSET : Z := 0.
Definition BSWCFGRDC_HSG_SIN_SCALE : Z := 1200.
Definition BSWCFGRDC_HSG_COS_SCALE : Z := 1200.

Definition BSWCFGRDC_MOT_PERIOD : Z := 66.
Definition BSWCFGRDC_MOT_START_OFFSET : Z := 5.
Definition BSWCFGRDC_MOT_UNITRIG_START_OFFSET : Z := 33005.

Definition BSWCFGRDC_HSG_PERIOD : Z := 66.
Definition BSWCFGRDC_HSG_START_OFFSET : Z := 30.
Definition BSWCFGRDC_HSG_UNITRIG_START_OFFSET : Z := 33030.

Definition BswCfgRdc_c : list Decl :=
  [ cst UINT32 "BswCfgCal_Rdc_MotPeriod" (CInt BSWCFGRDC_MOT_PERIOD);
    cst FLOAT32 "BswCfgCal_Rdc_MotStartOffset" (CInt BSWCFGRDC_MOT_START_OFFSET);
    cst FLOAT32 "BswCfgCal_Rdc_MotK1" BSWCFGRDC_MOT_K1_D;
    cst FLOAT32 "BswCfgCal_Rdc_MotK2" BSWCFGRDC_MOT_K2_D;
    cst INT32 "BswCfgCal_Rdc_MotK1Scale" (CInt BSWCFGRDC_MOT_K1_SCALE);
    cst INT32 "BswCfgCal_Rdc_MotK2Scale" (CInt BSWCFGRDC_MOT_K2_SCALE);
    cst UINT32 "BswCfgCal_Rdc_MotSinDcOffset" (CInt BSWCFGRDC_MOT_SIN_DC_OFFSET);
    cst UINT32 "BswCfgCal_Rdc_MotCosDcOffset" (CInt BSWCFGRDC_MOT_COS_DC_OFFSET);
    cst INT32 "BswCfgCal_Rdc_MotSinScale" (CInt BSWCFGRDC_MOT_SIN_SCALE);
    cst INT32 "BswCfgCal_Rdc_MotCosScale" (CInt BSWCFGRDC_MOT_COS_SCALE);
    cst UINT32 "BswCfgCal_Rdc_MotUnitrigDelay" BSWCFGRDC_MOT_UNITRIG_DELAY;
    cst UINT32 "BswCfgCal_Rdc_MotUnitrigStartOffset" (CInt BSWCFGRDC_MOT_UNITRIG_START_OFFSET);
    cst UINT32 "BswCfgCal_Rdc_HsgPeriod" (CInt BSWCFGRDC_HSG_PERIOD);
    cst FLOAT32 "BswCfgCal_Rdc_HsgStartOffset" (CInt BSWCFGRDC_HSG_START_OFFSET);
    cst FLOAT32 "BswCfgCal_Rdc_HsgK1" BSWCFGRDC_HSG_K1_D;
    cst FLOAT32 "BswCfgCal_Rdc_HsgK2" BSWCFGRDC_HSG_K2_D;
    cst INT32 "BswCfgCal_Rdc_HsgK1Scale" (CInt BSWCFGRDC_HSG_K1_SCALE);
    cst INT32 "BswCfgCal_Rdc_HsgK2Scale" (CInt BSWCFGRDC_HSG_K2_SCALE);
    cst UINT32 "BswCfgCal_Rdc_HsgSinDcOffset" (CInt BSWCFGRDC_HSG_SIN_DC_OFFSET);
    cst UINT32 "BswCfgCal_Rdc_HsgCosDcOffset" (CInt BSWCFGRDC_HSG_COS_DC_OFFSET);
    cst INT32 "BswCfgCal_Rdc_HsgSinScale" (CInt BSWCFGRDC_HSG_SIN_SCALE);
    cst INT32 "BswCfgCal_Rdc_HsgCosScale" (CInt BSWCFGRDC_HSG_COS_SCALE);
    cst UINT32 "BswCfgCal_Rdc_HsgUnitrigDelay" BSWCFGRDC_HSG_UNITRIG_DELAY;
    cst UINT32 "BswCfgCal_Rdc_HsgUnitrigStartOffset" (CInt BSWCFGRDC_HSG_UNITRIG_START_OFFSET) ].

End Sources.

Section CcCalBase.

Context {codes : OptionCodes} {ext : ExternMacros}.

(** ** CcCalBase.h *)

Definition VARIABLE_FSW_TAB_OUT_SIZE : nat := 9.

Definition CUR_SENSOR_OFFSET_MOT : cval := CInt 2048.
Definition CUR_SENSOR_SCALE_MOT (s : CurSensorCfg) : cval :=
  mul (CUR_SENSOR_RANGE_MOT s) (dbl 61035 8).
Definition HVBATT_SENSOR_OFFSET : cval := CInt 0.
Definition HVBATT_SENSOR_SCALE : cval :=
  mul (div HVBATT_SENSOR_RANGE HVBATT_SENSOR_RANGE_TYP) (dbl 12207 7).
Definition CUR_SENSOR_OFFSET_HSG : cval := CInt 2048.
Definition CUR_SENSOR_SCALE_HSG : cval :=
  mul CUR_SENSOR_RANGE_HSG (dbl 61035 8).
Definition LVBATT_SENSOR_OFFSET : cval := LVBATT_SENSOR_RANGE_OFFSET.
Definition LVBATT_SENSOR_SCALE : cval :=
  mul (div (sub LVBATT_SENSOR_RANGE LVBATT_SENSOR_RANGE_OFFSET) LVBATT_SENSOR_RANGE_TYP)
      (dbl 12207 7).

(** ** CcCalBase.c

    The four chains of the file choose between declarations.  (The header
    repeats each chain around the matching [extern] declarations.) *)

Definition sel_SA_2STAGE_PWM_MODE (ctx : ResolutionContext) : result (list Decl) :=
  let v := pp (_SA_2STAGE_PWM_MODE ctx) in
  if v =? _2STG_SVPWM then Ok [ cst BOOL "TestCal_RSPWM_Enb" CLR_FLAG ]
  else if v =? _2STG_RSPWM then Ok [ cst BOOL "TestCal_RSPWM_Enb" SET_FLAG ]
  else Failed [UndefinedAxis SA_2STAGE_PWM_MODE].

Definition sel_SA_SQPWM_REGEN_DIS (ctx : ResolutionContext) : result (list Decl) :=
  let v := pp (_SA_SQPWM_REGEN_DIS ctx) in
  if v =? _SQPWM_REGEN_ENB
  then Ok [ cst_t UINT8 "CcCal_SQPWM_Mode_Regen_Disable" [CLR_FLAG; CLR_FLAG] ]
  else if v =? _SQPWM_REGEN_DIS
  then Ok [ cst_t UINT8 "CcCal_SQPWM_Mode_Regen_Disable" [SET_FLAG; SET_FLAG] ]
  else Failed [UndefinedAxis SA_SQPWM_REGEN_DIS].

Definition sel_PWM_BURST_MODE (ctx : ResolutionContext) : result (list Decl) :=
  let v := pp (_PWM_BURST_MODE ctx) in
  if v =? _UNDEFINED_OPTION then Failed [UndefinedAxis PWM_BURST_MODE]
  else if v =? _BURST_MODE_ENABLE
  then Ok [ cst_t FLOAT32 "CcCal_PwmOff_MotTqLvl_Max" [flt 1 0; flt 0 0];
            cst_t FLOAT32 "CcCal_PwmOff_MotTqLvl_Min" [flt 0 0; flt 0 0];
            cst_t FLOAT32 "CcCal_PwmOn_MotTqLvl_Max" [flt 2 0; flt 0 0];
            cst_t FLOAT32 "CcCal_PwmOn_MotTqLvl_Min" [flt 0 0; flt 0 0];
            cst_t UINT32 "CcCal_PwmOff_WaitTime" [CInt 100; CInt 100] ]
  else if v =? _BURST_MODE_DISABLE
  then Ok [ cst_t FLOAT32 "CcCal_PwmOff_MotTqLvl_Max" [flt 0 0; flt 0 0];
            cst_t FLOAT32 "CcCal_PwmOff_MotTqLvl_Min" [flt 0 0; flt 0 0];
            cst_t FLOAT32 "CcCal_PwmOn_MotTqLvl_Max" [flt 0 0; flt 0 0];
            cst_t FLOAT32 "CcCal_PwmOn_MotTqLvl_Min" [flt 0 0; flt 0 0];
            cst_t UINT32 "CcCal_PwmOff_WaitTime" [CInt 100; CInt 100] ]
  else Failed [UndefinedAxis PWM_BURST_MODE].

Definition sel_VAR_DTGS_OPTION (ctx : ResolutionContext) : result (list Decl) :=
  let v := pp (_VAR_DTGS_OPTION ctx) in
  if v =? _UNDEFINED_OPTION then Failed [UndefinedAxis VAR_DTGS_OPTION]
  else if v =? _VAR_DTGS_OPTION_INCLUDED
  then Ok [ cst_t UINT8 "CcCal_VarDTGS_Enb" [SET_FLAG; SET_FLAG] ]
  else if v =? _VAR_DTGS_OPTION_NOT_INCLUDED
  then Ok [ cst_t UINT8 "CcCal_VarDTGS_Enb" [CLR_FLAG; CLR_FLAG] ]
  else Failed [UndefinedAxis VAR_DTGS_OPTION].

(** [400.f * PI * 0.3f], the factor of [L1], [L2] and [L3]. *)
Definition observer_pole : cval := mul (mul (flt 400 0) PI) (flt 3 1).

(** The rows of [HSG_VAR_HOVMGAIN_TAB]: rows 0 to 8 hold seven times [1.f]
    and four times [1.1f], rows 9 to 18 twice [1.f] and nine times [1.1f]. *)
Definition hovm_row_upper : list cval := repeat (flt 1 0) 7 ++ repeat (flt 11 1) 4.
Definition hovm_row_lower : list cval := repeat (flt 1 0) 2 ++ repeat (flt 11 1) 9.

Definition CcCalBase_c (pm : PowerModuleCfg) (s : CurSensorCfg)
  (stage sqpwm burst dtgs : list Decl) : list Decl :=
  [ cst_t FLOAT32 "BswCfgCal_Rsv_DefaultOffset" [DEFAULT_OFFSET_MOT; DEFAULT_OFFSET_HSG];
    cst_t UINT16 "BswCfgCal_Rsv_RotDir" [RESOLVER_DIRECTION_MOT; RESOLVER_DIRECTION_HSG] ]
  ++ stage ++
  [ cst BOOL "TestCal_VnCtrl_Enb" SET_FLAG ]
  ++ sqpwm ++
  [ cst_t FLOAT32 "CcCal_Motor_frated" [flt 0 0; flt 0 0];
    cst_t UINT8 "CcCal_SWRDC_GainUpdateCal" [CLR_FLAG; CLR_FLAG];
    cst_t SLONG "CcCal_SWRDC_GainUpdate_K1D"
      [mul (dbl 64339817 8) (CInt 0x800000); mul (dbl 64339817 8) (CInt 0x800000)];
    cst_t SLONG "CcCal_SWRDC_GainUpdate_K1SCALE" [CInt 7; CInt 7];
    cst_t SLONG "CcCal_SWRDC_GainUpdate_K2D"
      [mul (dbl 99471843 8) (CInt 0x800000); mul (dbl 99471843 8) (CInt 0x800000)];
    cst_t SLONG "CcCal_SWRDC_GainUpdate_K2SCALE" [CInt 4; CInt 4];
    cst_t INT32 "CcCal_SWRDC_GainUpdate_NaturalFreq" [CInt 200; CInt 200];
    cst_t FLOAT32 "CcCal_SWRDC_GainUpdate_DampFac" [flt 1 0; flt 1 0];
    cst_t UINT16 "CcCal_ToggleEnb" [CLR_FLAG; CLR_FLAG];
    cst_t FLOAT32 "CcCal_Fsamp_High_Limit" [flt 19800 0; flt 19700 0];
    cst_t FLOAT32 "CcCal_Motor_Ld" [flt 16 5; flt 2 4];
    cst_t FLOAT32 "CcCal_Motor_Lq" [flt 27 5; flt 4 4];
    cst_t FLOAT32 "CcCal_Motor_Llk" [flt 3 3; flt 3 4];
    cst_t FLOAT32 "CcCal_DaxisCurCtrlBW" [flt 350 0; flt 350 0];
    cst_t FLOAT32 "CcCal_QaxisCurCtrlBW" [flt 350 0; flt 350 0];
    cst_t FLOAT32 "CcCal_NaxisCurCtrlBW" [flt 350 0; flt 350 0];
    cst_t FLOAT32 "CcCal_PaxisCurCtrlBW" [flt 350 0; flt 350 0];
    cst_t UINT16 "CcCal_SWRDC_Speed_Override" [CLR_FLAG; CLR_FLAG];
    cst FLOAT32 "L1" (mul (flt 3 0) observer_pole);
    cst FLOAT32 "L2" (mul (mul (flt 3 0) observer_pole) observer_pole);
    cst FLOAT32 "L3" (mul (mul observer_pole observer_pole) observer_pole);
    cst_t FLOAT32 "CcCal_Cur_lag" [flt 0 0; flt 0 0];
    mkDecl true FLOAT32 "FSW_TAB"
      (PerTargetRows VARIABLE_FSW_TAB_OUT_SIZE
         [ repeat (flt 4000 0) 9;      (* MOT *)
           repeat (flt 4000 0) 9 ]);   (* HSG *)
    mkDecl true FLOAT32 "HSG_VAR_HOVMGAIN_TAB"
      (Rows VARIABLE_HOVM_TAB_ROW_SIZE VARIABLE_HOVM_TAB_COL_SIZE
         (repeat hovm_row_upper 9 ++ repeat hovm_row_lower 10));
    mkDecl true FLOAT32 "MAGINJ_TAB"
      (PerTargetRows VARIABLE_FSW_TAB_OUT_SIZE
         [ repeat (flt 0 0) 9;         (* MOT *)
           repeat (flt 0 0) 9 ]);      (* HSG *)
    cst_t UINT8 "CcCal_BETC_SetFlag" [CLR_FLAG; CLR_FLAG];
    cst_t FLOAT32 "CcCal_BETC_CoeffLAMpm_Tmp" [flt 1 3; flt 1 3];
    cst_t FLOAT32 "CcCal_BETC_LAMpmAt90MAP" [flt 52 3; flt 52 3];
    cst_t UINT32 "CcCal_BETC_EndCnt" [CInt 3; CInt 3];
    cst_t FLOAT32 "CcCal_BETC_DeltaTmpComp_Lmt" [flt 40 0; flt 40 0];
    cst_t UINT8 "CcCal_DeadTimeCompEnb" [SET_FLAG; SET_FLAG];
    var_t FLOAT32 "CcCal_DeadTimeComp_INVIcompZCC_INV1"
      [ div (flt 1 0) (mul (CUR_SENSOR_RANGE_MOT s) (flt 5 2));
        div (flt 1 0) (mul CUR_SENSOR_RANGE_HSG (flt 5 2)) ];
    var_t FLOAT32 "CcCal_DeadTimeComp_INVIcompZCC_INV2"
      [ div (flt 1 0) (mul (CUR_SENSOR_RANGE_MOT s) (flt 5 2));
        div (flt 1 0) (mul CUR_SENSOR_RANGE_HSG (flt 5 2)) ];
    cst_t FLOAT32 "CcCal_DeadTimeComp_TdeadComp_INV1"
      [ mul (sub (CInt (BSWCFGPWM_MOT_INV1_DEADTIME pm)) (flt 100 0)) (flt 1 9);
        mul (sub (CInt (BSWCFGPWM_HSG_INV1_DEADTIME pm)) (flt 100 0)) (flt 1 9) ];
    cst_t FLOAT32 "CcCal_DeadTimeComp_TdeadComp_INV2"
      [ mul (sub (CInt (BSWCFGPWM_MOT_INV2_DEADTIME pm)) (flt 100 0)) (flt 1 9);
        mul (sub (CInt (BSWCFGPWM_HSG_INV2_DEADTIME pm)) (flt 100 0)) (flt 1 9) ];
    cst_t FLOAT32 "CcCal_DeadTimeComp_IcompZCC_INV1"
      [ mul (CUR_SENSOR_RANGE_MOT s) (flt 5 2); mul CUR_SENSOR_RANGE_HSG (flt 5 2) ];
    cst_t FLOAT32 "CcCal_DeadTimeComp_IcompZCC_INV2"
      [ mul (CUR_SENSOR_RANGE_MOT s) (flt 5 2); mul CUR_SENSOR_RANGE_HSG (flt 5 2) ];
    cst_t INT16 "CcCal_CurA_InitialOffset" [CUR_SENSOR_OFFSET_MOT; CUR_SENSOR_OFFSET_HSG];
    cst_t INT16 "CcCal_CurB_InitialOffset" [CUR_SENSOR_OFFSET_MOT; CUR_SENSOR_OFFSET_HSG];
    cst_t INT16 "CcCal_CurC_InitialOffset" [CUR_SENSOR_OFFSET_MOT; CUR_SENSOR_OFFSET_HSG];
    cst_t FLOAT32 "CcCal_Cur_ScaleFactor" [CUR_SENSOR_SCALE_MOT s; CUR_SENSOR_SCALE_HSG];
    cst_t UINT16 "CcCal_HvBatt_InitialOffset" [HVBATT_SENSOR_OFFSET; HVBATT_SENSOR_OFFSET];
    cst_t FLOAT32 "CcCal_HvBatt_ScaleFactor" [HVBATT_SENSOR_SCALE; HVBATT_SENSOR_SCALE];
    cst_t UINT8 "CcCal_OffsetValidityChk_ZeroCurOverride" [SET_FLAG; SET_FLAG];
    cst_t FLOAT32 "CcCal_LvAdToPhyOffset" [LVBATT_SENSOR_OFFSET; LVBATT_SENSOR_OFFSET];
    cst_t FLOAT32 "CcCal_LvAdToPhySclFct" [LVBATT_SENSOR_SCALE; LVBATT_SENSOR_SCALE] ]
  ++ burst ++ dtgs ++
  [ cst_t FLOAT32 "CcCal_VarDTGS_MotTqLvl1_Max_HysIn" [flt 80 0; flt 0 0];
    cst_t FLOAT32 "CcCal_VarDTGS_MotTqLvl1_Min_HysIn" [neg (flt 45 0); flt 0 0];
    cst_t FLOAT32 "CcCal_VarDTGS_MotSpdLvl1_Max_HysIn" [flt 8200 0; flt 0 0];
    cst_t FLOAT32 "CcCal_VarDTGS_MotSpdLvl1_Min_HysIn" [flt 866 0; flt 0 0];
    cst_t FLOAT32 "CcCal_VarDTGS_MotTqLvl1_Max_HysOut" [flt 88 0; flt 0 0];
    cst_t FLOAT32 "CcCal_VarDTGS_MotTqLvl1_Min_HysOut" [neg (flt 50 0); flt 0 0];
    cst_t FLOAT32 "CcCal_VarDTGS_MotSpdLvl1_Max_HysOut" [flt 8500 0; flt 0 0];
    cst_t FLOAT32 "CcCal_VarDTGS_MotSpdLvl1_Min_HysOut" [flt 709 0; flt 0 0];
    cst_t FLOAT32 "CcCal_VarDTGS_MotTqLvl2_Max_HysIn" [flt 0 0; flt 0 0];
    cst_t FLOAT32 "CcCal_VarDTGS_MotTqLvl2_Min_HysIn" [flt 0 0; flt 0 0];
    cst_t FLOAT32 "CcCal_VarDTGS_MotSpdLvl2_Max_HysIn" [flt 0 0; flt 0 0];
    cst_t FLOAT32 "CcCal_VarDTGS_MotSpdLvl2_Min_HysIn" [flt 0 0; flt 0 0];
    cst_t FLOAT32 "CcCal_VarDTGS_MotTqLvl2_Max_HysOut" [flt 0 0; flt 0 0];
    cst_t FLOAT32 "CcCal_VarDTGS_MotTqLvl2_Min_HysOut" [flt 0 0; flt 0 0];
    cst_t FLOAT32 "CcCal_VarDTGS_MotSpdLvl2_Max_HysOut" [flt 0 0; flt 0 0];
    cst_t FLOAT32 "CcCal_VarDTGS_MotSpdLvl2_Min_HysOut" [flt 0 0; flt 0 0];
    cst_t FLOAT32 "CcCal_VarDTGS_MotTqLvl3_Max_HysIn" [flt 0 0; flt 0 0];
    cst_t FLOAT32 "CcCal_VarDTGS_MotTqLvl3_Min_HysIn" [flt 0 0; flt 0 0];
    cst_t FLOAT32 "CcCal_VarDTGS_MotSpdLvl3_Max_HysIn" [flt 0 0; flt 0 0];
    cst_t FLOAT32 "CcCal_VarDTGS_MotSpdLvl3_Min_HysIn" [flt 0 0; flt 0 0];
    cst_t FLOAT32 "CcCal_VarDTGS_MotTqLvl3_Max_HysOut" [flt 0 0; flt 0 0];
    cst_t FLOAT32 "CcCal_VarDTGS_MotTqLvl3_Min_HysOut" [flt 0 0; flt 0 0];
    cst_t FLOAT32 "CcCal_VarDTGS_MotSpdLvl3_Max_HysOut" [flt 0 0; flt 0 0];
    cst_t FLOAT32 "CcCal_VarDTGS_MotSpdLvl3_Min_HysOut" [flt 0 0; flt 0 0] ].

End CcCalBase.

(** ** CcCalPrjCfg.h

    The header defines macros whose replacements are identifiers of other
    headers; a binding of it is a macro name with its replacement. *)

Definition Defines := list (string * string).

Definition prj_MV_RWD_TCAR : Defines :=
  [ ("_MI_REF_SETTING", "_MI_REF_100");
    ("_12SMP_COND", "_12SMP_OFF");
    ("_RPWM_COND", "_RPWM_OFF");
    ("_NO_LOAD_TQ_COMP_COND", "NO_LOAD_TQ_COMP_OFF");
    ("_SW_RDC_SETTING", "_MV_EV_TCAR_REAR_SW_RDC");
    ("_ROC_RPWM_FUNCTION", "_ROC_RPWM_DISABLE");
    ("_FSW_FSAMP_FREQ", "_7kHz_DOUBLE");
    ("_OEW_FSW_FSAMP_FREQ", "_OEW_6_5kHz_DOUBLE");
    ("_ODC_FSW_FSAMP_FREQ", "_ODC_12kHz_SINGLE_ALL");
    ("_MULTI_DC_METHOD_", "_MULTI_INTEG");
    ("_MULTI_NON_LINEAR_COMP", "_LENEAR_COMP_ON");
    ("_CUR_MAP_VERSION", "_MV_TCAR_REAR_CUR_MAP");
    ("_MOTOR_TYPE", "_MV_TCAR_REAR_MOTOR");
    ("_POWER_CAL_VERSION", "_MV_EV_TCAR_REAR_154KW_POWER_CAL");
    ("_DELTA_TRQREF", "_DELTA_TRQREF_4") ].

Definition prj_MV_RWD_TCAR_NA : Defines :=
  [ ("_TQ_COMP_CAL_VERSION", "_MV_EV_TCAR_REAR_TQ_COMP_CAL") ].

Definition prj_MV_RWD_TCAR_others : Defines :=
  [ ("_TQ_COMP_CAL_VERSION", "_MV_EV_TCAR_REAR_TQ_COMP_CAL") ].

Definition prj_MV_RWD_PROTO : Defines :=
  [ ("_MI_REF_SETTING", "_MI_REF_103");
    ("_12SMP_COND", "_12SMP_OFF");
    ("_RPWM_COND", "_RPWM_01_03_ON");
    ("_NO_LOAD_TQ_COMP_COND", "NO_LOAD_TQ_COMP_OFF");
    ("_SW_RDC_SETTING", "_MV_EV_PROTO_REAR_SW_RDC");
    ("_ROC_RPWM_FUNCTION", "_ROC_RPWM_DISABLE");
    ("_FSW_FSAMP_FREQ", "_12kHz_SINGLE_ALL");
    ("_OEW_FSW_FSAMP_FREQ", "_OEW_6_5kHz_DOUBLE");
    ("_ODC_FSW_FSAMP_FREQ", "_ODC_12kHz_SINGLE_ALL");
    ("_MULTI_DC_METHOD_", "_MULTI_INTEG");
    ("_MULTI_NON_LINEAR_COMP", "_LENEAR_COMP_ON");
    ("_CUR_MAP_VERSION", "_MV_PROTO_REAR_CUR_MAP");
    ("_MOTOR_TYPE", "_MV_PROTO_REAR_MOTOR");
    ("_POWER_CAL_VERSION", "_MV_EV_PROTO_REAR_160KW_POWER_CAL");
    ("_DELTA_TRQREF", "_DELTA_TRQREF_4") ].

Definition prj_MV_RWD_PROTO_NA : Defines :=
  [ ("_TQ_COMP_CAL_VERSION", "_MV_EV_PROTO_REAR_TQ_COMP_CAL") ].

Definition prj_MV_RWD_PROTO_others : Defines :=
  [ ("_TQ_COMP_CAL_VERSION", "_MV_EV_PROTO_REAR_TQ_COMP_CAL") ].

Definition prj_MV_RWD_MASTER : Defines :=
  [ ("_MI_REF_SETTING", "_MI_REF_103");
    ("_12SMP_COND", "_12SMP_OFF");
    ("_RPWM_COND", "_RPWM_01_03_ON");
    ("_NO_LOAD_TQ_COMP_COND", "NO_LOAD_TQ_COMP_OFF");
    ("_SW_RDC_SETTING", "_MV_EV_PROTO_REAR_SW_RDC");
    ("_ROC_RPWM_FUNCTION", "_ROC_RPWM_DISABLE");
    ("_FSW_FSAMP_FREQ", "_12kHz_SINGLE_ALL");
    ("_OEW_FSW_FSAMP_FREQ", "_OEW_12kHz_SINGLE_ALL");
    ("_ODC_FSW_FSAMP_FREQ", "_ODC_12kHz_SINGLE_ALL");
    ("_MULTI_DC_METHOD_", "_MULTI_INTEG");
    ("_MULTI_NON_LINEAR_COMP", "_LENEAR_COMP_ON");
    ("_CUR_MAP_VERSION", "_MV_PROTO_REAR_CUR_MAP");
    ("_MOTOR_TYPE", "_MV_PROTO_REAR_MOTOR");
    ("_POWER_CAL_VERSION", "_MV_EV_PROTO_REAR_160KW_POWER_CAL");
    ("_DELTA_TRQREF", "_DELTA_TRQREF_4") ].

Definition prj_MV_RWD_MASTER_NA : Defines :=
  [ ("_TQ_COMP_CAL_VERSION", "_MV_EV_PROTO_REAR_TQ_COMP_CAL") ].

Definition prj_MV_RWD_MASTER_others : Defines :=
  [ ("_TQ_COMP_CAL_VERSION", "_MV_EV_PROTO_REAR_TQ_COMP_CAL") ].

Definition prj_MV_RWD_PILOT_1 : Defines :=
  [ ("_MI_REF_SETTING", "_MI_REF_103");
    ("_12SMP_COND", "_12SMP_OFF");
    ("_RPWM_COND", "_RPWM_01_03_ON");
    ("_NO_LOAD_TQ_COMP_COND", "NO_LOAD_TQ_COMP_OFF");
    ("_SW_RDC_SETTING", "_MV_EV_P1_REAR_SW_RDC");
    ("_ROC_RPWM_FUNCTION", "_ROC_RPWM_DISABLE");
    ("_FSW_FSAMP_FREQ", "_12kHz_SINGLE_ALL");
    ("_OEW_FSW_FSAMP_FREQ", "_OEW_12kHz_SINGLE_ALL");
    ("_ODC_FSW_FSAMP_FREQ", "_ODC_12kHz_SINGLE_ALL");
    ("_MULTI_DC_METHOD_", "_MULTI_INTEG");
    ("_MULTI_NON_LINEAR_COMP", "_LENEAR_COMP_ON");
    ("_CUR_MAP_VERSION", "_MV_PROTO_REAR_CUR_MAP");
    ("_MOTOR_TYPE", "_MV_P2_REAR_MOTOR");
    ("_POWER_CAL_VERSION", "_MV_EV_PROTO_REAR_160KW_POWER_CAL");
    ("_DELTA_TRQREF", "_DELTA_TRQREF_4") ].

Definition prj_MV_RWD_PILOT_1_NA : Defines :=
  [ ("_TQ_COMP_CAL_VERSION", "_MVa_EV_P1_REAR_TQ_COMP_CAL") ].

Definition prj_MV_RWD_PILOT_1_others : Defines :=
  [ ("_TQ_COMP_CAL_VERSION", "_MV_EV_P1_REAR_TQ_COMP_CAL") ].

Definition prj_MV_RWD_PILOT_2 : Defines :=
  [ ("_MI_REF_SETTING", "_MI_REF_103");
    ("_12SMP_COND", "_12SMP_OFF");
    ("_RPWM_COND", "_RPWM_01_03_ON");
    ("_NO_LOAD_TQ_COMP_COND", "NO_LOAD_TQ_COMP_OFF");
    ("_SW_RDC_SETTING", "_MV_EV_P1_REAR_SW_RDC");
    ("_ROC_RPWM_FUNCTION", "_ROC_RPWM_DISABLE");
    ("_FSW_FSAMP_FREQ", "_12kHz_SINGLE_ALL");
    ("_OEW_FSW_FSAMP_FREQ", "_OEW_12kHz_SINGLE_ALL");
    ("_ODC_FSW_FSAMP_FREQ", "_ODC_12kHz_SINGLE_ALL");
    ("_MULTI_DC_METHOD_", "_MULTI_INTEG");
    ("_MULTI_NON_LINEAR_COMP", "_LENEAR_COMP_ON");
    ("_CUR_MAP_VERSION", "_MV_PROTO_REAR_CUR_MAP");
    ("_MOTOR_TYPE", "_MV_P2_REAR_MOTOR");
    ("_POWER_CAL_VERSION", "_MV_EV_PROTO_REAR_160KW_POWER_CAL");
    ("_DELTA_TRQREF", "_DELTA_TRQREF_4") ].

Definition prj_MV_RWD_PILOT_2_NA : Defines :=
  [ ("_TQ_COMP_CAL_VERSION", "_MVa_EV_P1_REAR_TQ_COMP_CAL") ].

Definition prj_MV_RWD_PILOT_2_others : Defines :=
  [ ("_TQ_COMP_CAL_VERSION", "_MV_EV_P1_REAR_TQ_COMP_CAL") ].

Definition prj_MV_RWD_M : Defines :=
  [ ("_MI_REF_SETTING", "_MI_REF_103");
    ("_12SMP_COND", "_12SMP_OFF");
    ("_RPWM_COND", "_RPWM_01_03_ON");
    ("_NO_LOAD_TQ_COMP_COND", "NO_LOAD_TQ_COMP_OFF");
    ("_SW_RDC_SETTING", "_MV_EV_P1_REAR_SW_RDC");
    ("_ROC_RPWM_FUNCTION", "_ROC_RPWM_DISABLE");
    ("_FSW_FSAMP_FREQ", "_12kHz_SINGLE_ALL");
    ("_OEW_FSW_FSAMP_FREQ", "_OEW_12kHz_SINGLE_ALL");
    ("_ODC_FSW_FSAMP_FREQ", "_ODC_12kHz_SINGLE_ALL");
    ("_MULTI_DC_METHOD_", "_MULTI_INTEG");
    ("_MULTI_NON_LINEAR_COMP", "_LENEAR_COMP_ON");
    ("_CUR_MAP_VERSION", "_MV_PROTO_REAR_CUR_MAP");
    ("_MOTOR_TYPE", "_MV_P2_REAR_MOTOR");
    ("_POWER_CAL_VERSION", "_MV_EV_PROTO_REAR_160KW_POWER_CAL");
    ("_DELTA_TRQREF", "_DELTA_TRQREF_4") ].

Definition prj_MV_RWD_M_NA : Defines :=
  [ ("_TQ_COMP_CAL_VERSION", "_MVa_EV_P1_REAR_TQ_COMP_CAL") ].

Definition prj_MV_RWD_M_others : Defines :=
  [ ("_TQ_COMP_CAL_VERSION", "_MV_EV_P1_REAR_TQ_COMP_CAL") ].

Definition prj_MV_RWD_SOP : Defines :=
  [ ("_MI_REF_SETTING", "_MI_REF_103");
    ("_12SMP_COND", "_12SMP_OFF");
    ("_RPWM_COND", "_RPWM_01_03_ON");
    ("_NO_LOAD_TQ_COMP_COND", "NO_LOAD_TQ_COMP_OFF");
    ("_SW_RDC_SETTING", "_MV_EV_P1_REAR_SW_RDC");
    ("_ROC_RPWM_FUNCTION", "_ROC_RPWM_DISABLE");
    ("_FSW_FSAMP_FREQ", "_12kHz_SINGLE_ALL");
    ("_OEW_FSW_FSAMP_FREQ", "_OEW_12kHz_SINGLE_ALL");
    ("_ODC_FSW_FSAMP_FREQ", "_ODC_12kHz_SINGLE_ALL");
    ("_MULTI_DC_METHOD_", "_MULTI_INTEG");
    ("_MULTI_NON_LINEAR_COMP", "_LENEAR_COMP_ON");
    ("_CUR_MAP_VERSION", "_MV_PROTO_REAR_CUR_MAP");
    ("_MOTOR_TYPE", "_MV_P2_REAR_MOTOR");
    ("_POWER_CAL_VERSION", "_MV_EV_PROTO_REAR_160KW_POWER_CAL");
    ("_DELTA_TRQREF", "_DELTA_TRQREF_4") ].

Definition prj_MV_RWD_SOP_NA : Defines :=
  [ ("_TQ_COMP_CAL_VERSION", "_MVa_EV_P1_REAR_TQ_COMP_CAL") ].

Definition prj_MV_RWD_SOP_others : Defines :=
  [ ("_TQ_COMP_CAL_VERSION", "_MV_EV_P1_REAR_TQ_COMP_CAL") ].

Definition prj_MV_RWD_RC : Defines :=
  [ ("_MI_REF_SETTING", "_MI_REF_103");
    ("_12SMP_COND", "_12SMP_OFF");
    ("_RPWM_COND", "_RPWM_01_03_ON");
    ("_NO_LOAD_TQ_COMP_COND", "NO_LOAD_TQ_COMP_OFF");
    ("_SW_RDC_SETTING", "_MV_EV_P1_REAR_SW_RDC");
    ("_ROC_RPWM_FUNCTION", "_ROC_RPWM_DISABLE");
    ("_FSW_FSAMP_FREQ", "_12kHz_SINGLE_ALL");
    ("_OEW_FSW_FSAMP_FREQ", "_OEW_12kHz_SINGLE_ALL");
    ("_ODC_FSW_FSAMP_FREQ", "_ODC_12kHz_SINGLE_ALL");
    ("_MULTI_DC_METHOD_", "_MULTI_INTEG");
    ("_MULTI_NON_LINEAR_COMP", "_LENEAR_COMP_ON");
    ("_CUR_MAP_VERSION", "_MV_PROTO_REAR_CUR_MAP");
    ("_MOTOR_TYPE", "_MV_P2_REAR_MOTOR");
    ("_POWER_CAL_VERSION", "_MV_EV_PROTO_REAR_160KW_POWER_CAL");
    ("_DELTA_TRQREF", "_DELTA_TRQREF_4") ].

Definition prj_MV_RWD_RC_NA : Defines :=
  [ ("_TQ_COMP_CAL_VERSION", "_MVa_EV_P1_REAR_TQ_COMP_CAL") ].

Definition prj_MV_RWD_RC_others : Defines :=
  [ ("_TQ_COMP_CAL_VERSION", "_MV_EV_P1_REAR_TQ_COMP_CAL") ].

Definition prj_ME_RWD_TCAR : Defines :=
  [ ("_MI_REF_SETTING", "_MI_REF_103");
    ("_12SMP_COND", "_12SMP_OFF");
    ("_RPWM_COND", "_RPWM_01_03_ON");
    ("_NO_LOAD_TQ_COMP_COND", "NO_LOAD_TQ_COMP_OFF");
    ("_SW_RDC_SETTING", "_MV_EV_PROTO_REAR_SW_RDC");
    ("_ROC_RPWM_FUNCTION", "_ROC_RPWM_DISABLE");
    ("_FSW_FSAMP_FREQ", "_12kHz_SINGLE_ALL");
    ("_OEW_FSW_FSAMP_FREQ", "_OEW_6_5kHz_DOUBLE");
    ("_ODC_FSW_FSAMP_FREQ", "_ODC_12kHz_SINGLE_ALL");
    ("_MULTI_DC_METHOD_", "_MULTI_INTEG");
    ("_MULTI_NON_LINEAR_COMP", "_LENEAR_COMP_ON");
    ("_CUR_MAP_VERSION", "_MV_PROTO_REAR_CUR_MAP");
    ("_MOTOR_TYPE", "_MV_PROTO_REAR_MOTOR");
    ("_POWER_CAL_VERSION", "_MV_EV_PROTO_REAR_160KW_POWER_CAL");
    ("_DELTA_TRQREF", "_DELTA_TRQREF_4") ].

Definition prj_ME_RWD_TCAR_NA : Defines :=
  [ ("_TQ_COMP_CAL_VERSION", "_MV_EV_PROTO_REAR_TQ_COMP_CAL") ].

Definition prj_ME_RWD_TCAR_others : Defines :=
  [ ("_TQ_COMP_CAL_VERSION", "_MV_EV_PROTO_REAR_TQ_COMP_CAL") ].

Definition prj_ME_RWD_PROTO : Defines :=
  [ ("_MI_REF_SETTING", "_MI_REF_103");
    ("_12SMP_COND", "_12SMP_OFF");
    ("_RPWM_COND", "_RPWM_01_03_ON");
    ("_NO_LOAD_TQ_COMP_COND", "NO_LOAD_TQ_COMP_OFF");
    ("_SW_RDC_SETTING", "_MV_EV_P1_REAR_SW_RDC");
    ("_ROC_RPWM_FUNCTION", "_ROC_RPWM_DISABLE");
    ("_FSW_FSAMP_FREQ", "_12kHz_SINGLE_ALL");
    ("_OEW_FSW_FSAMP_FREQ", "_OEW_12kHz_SINGLE_ALL");
    ("_ODC_FSW_FSAMP_FREQ", "_ODC_12kHz_SINGLE_ALL");
    ("_MULTI_DC_METHOD_", "_MULTI_INTEG");
    ("_MULTI_NON_LINEAR_COMP", "_LENEAR_COMP_ON");
    ("_CUR_MAP_VERSION", "_MV_PROTO_REAR_CUR_MAP");
    ("_DELTA_TRQREF", "_DELTA_TRQREF_4") ].

Definition prj_ME_RWD_PROTO_NA : Defines :=
  [ ("_TQ_COMP_CAL_VERSION", "_MVa_EV_P1_REAR_TQ_COMP_CAL");
    ("_POWER_CAL_VERSION", "_ME_EV_P2_REAR_160KW_POWER_CAL");
    ("_MOTOR_TYPE", "_ME_P1_REAR_MOTOR") ].

Definition prj_ME_RWD_PROTO_others : Defines :=
  [ ("_TQ_COMP_CAL_VERSION", "_MV_EV_P1_REAR_TQ_COMP_CAL");
    ("_POWER_CAL_VERSION", "_MV_EV_PROTO_REAR_160KW_POWER_CAL");
    ("_MOTOR_TYPE", "_MV_PROTO_REAR_MOTOR") ].

Definition prj_ME_RWD_MASTER : Defines :=
  [ ("_MI_REF_SETTING", "_MI_REF_103");
    ("_12SMP_COND", "_12SMP_OFF");
    ("_RPWM_COND", "_RPWM_01_03_ON");
    ("_NO_LOAD_TQ_COMP_COND", "NO_LOAD_TQ_COMP_OFF");
    ("_SW_RDC_SETTING", "_MV_EV_P1_REAR_SW_RDC");
    ("_ROC_RPWM_FUNCTION", "_ROC_RPWM_DISABLE");
    ("_FSW_FSAMP_FREQ", "_12kHz_SINGLE_ALL");
    ("_OEW_FSW_FSAMP_FREQ", "_OEW_12kHz_SINGLE_ALL");
    ("_ODC_FSW_FSAMP_FREQ", "_ODC_12kHz_SINGLE_ALL");
    ("_MULTI_DC_METHOD_", "_MULTI_INTEG");
    ("_MULTI_NON_LINEAR_COMP", "_LENEAR_COMP_ON");
    ("_CUR_MAP_VERSION", "_MV_PROTO_REAR_CUR_MAP");
    ("_DELTA_TRQREF", "_DELTA_TRQREF_4") ].

Definition prj_ME_RWD_MASTER_NA : Defines :=
  [ ("_TQ_COMP_CAL_VERSION", "_MVa_EV_P1_REAR_TQ_COMP_CAL");
    ("_POWER_CAL_VERSION", "_ME_EV_P2_REAR_160KW_POWER_CAL");
    ("_MOTOR_TYPE", "_ME_P1_REAR_MOTOR") ].

Definition prj_ME_RWD_MASTER_others : Defines :=
  [ ("_TQ_COMP_CAL_VERSION", "_MV_EV_P1_REAR_TQ_COMP_CAL");
    ("_POWER_CAL_VERSION", "_MV_EV_PROTO_REAR_160KW_POWER_CAL");
    ("_MOTOR_TYPE", "_MV_PROTO_REAR_MOTOR") ].

Definition prj_ME_RWD_PILOT_1 : Defines :=
  [ ("_MI_REF_SETTING", "_MI_REF_103");
    ("_12SMP_COND", "_12SMP_OFF");
    ("_RPWM_COND", "_RPWM_01_03_ON");
    ("_NO_LOAD_TQ_COMP_COND", "NO_LOAD_TQ_COMP_OFF");
    ("_SW_RDC_SETTING", "_MV_EV_P1_REAR_SW_RDC");
    ("_ROC_RPWM_FUNCTION", "_ROC_RPWM_DISABLE");
    ("_FSW_FSAMP_FREQ", "_12kHz_SINGLE_ALL");
    ("_OEW_FSW_FSAMP_FREQ", "_OEW_12kHz_SINGLE_ALL");
    ("_ODC_FSW_FSAMP_FREQ", "_ODC_12kHz_SINGLE_ALL");
    ("_MULTI_DC_METHOD_", "_MULTI_INTEG");
    ("_MULTI_NON_LINEAR_COMP", "_LENEAR_COMP_ON");
    ("_CUR_MAP_VERSION", "_MV_PROTO_REAR_CUR_MAP");
    ("_DELTA_TRQREF", "_DELTA_TRQREF_4") ].

Definition prj_ME_RWD_PILOT_1_NA : Defines :=
  [ ("_TQ_COMP_CAL_VERSION", "_MVa_EV_P1_REAR_TQ_COMP_CAL");
    ("_POWER_CAL_VERSION", "_ME_EV_P2_REAR_160KW_POWER_CAL");
    ("_MOTOR_TYPE", "_ME_P1_REAR_MOTOR") ].

Definition prj_ME_RWD_PILOT_1_others : Defines :=
  [ ("_TQ_COMP_CAL_VERSION", "_MV_EV_P1_REAR_TQ_COMP_CAL");
    ("_POWER_CAL_VERSION", "_MV_EV_PROTO_REAR_160KW_POWER_CAL");
    ("_MOTOR_TYPE", "_ME_P1_REAR_MOTOR") ].

Definition prj_ME_RWD_PILOT_2 : Defines :=
  [ ("_MI_REF_SETTING", "_MI_REF_103");
    ("_12SMP_COND", "_12SMP_OFF");
    ("_RPWM_COND", "_RPWM_01_03_ON");
    ("_NO_LOAD_TQ_COMP_COND", "NO_LOAD_TQ_COMP_OFF");
    ("_SW_RDC_SETTING", "_MV_EV_P1_REAR_SW_RDC");
    ("_ROC_RPWM_FUNCTION", "_ROC_RPWM_DISABLE");
    ("_FSW_FSAMP_FREQ", "_12kHz_SINGLE_ALL");
    ("_OEW_FSW_FSAMP_FREQ", "_OEW_12kHz_SINGLE_ALL");
    ("_ODC_FSW_FSAMP_FREQ", "_ODC_12kHz_SINGLE_ALL");
    ("_MULTI_DC_METHOD_", "_MULTI_INTEG");
    ("_MULTI_NON_LINEAR_COMP", "_LENEAR_COMP_ON");
    ("_CUR_MAP_VERSION", "_MV_PROTO_REAR_CUR_MAP");
    ("_DELTA_TRQREF", "_DELTA_TRQREF_4") ].

Definition prj_ME_RWD_PILOT_2_NA : Defines :=
  [ ("_TQ_COMP_CAL_VERSION", "_MVa_EV_P1_REAR_TQ_COMP_CAL");
    ("_POWER_CAL_VERSION", "_ME_EV_P2_REAR_160KW_POWER_CAL");
    ("_MOTOR_TYPE", "_ME_P1_REAR_MOTOR") ].

Definition prj_ME_RWD_PILOT_2_others : Defines :=
  [ ("_TQ_COMP_CAL_VERSION", "_ME_EV_P2_REAR_TQ_COMP_CAL");
    ("_POWER_CAL_VERSION", "_ME_EV_P2_REAR_160KW_POWER_CAL");
    ("_MOTOR_TYPE", "_ME_P1_REAR_MOTOR") ].

Definition prj_ME_RWD_M : Defines :=
  [ ("_MI_REF_SETTING", "_MI_REF_103");
    ("_12SMP_COND", "_12SMP_OFF");
    ("_RPWM_COND", "_RPWM_01_03_ON");
    ("_NO_LOAD_TQ_COMP_COND", "NO_LOAD_TQ_COMP_OFF");
    ("_SW_RDC_SETTING", "_MV_EV_P1_REAR_SW_RDC");
    ("_ROC_RPWM_FUNCTION", "_ROC_RPWM_DISABLE");
    ("_FSW_FSAMP_FREQ", "_12kHz_SINGLE_ALL");
    ("_OEW_FSW_FSAMP_FREQ", "_OEW_12kHz_SINGLE_ALL");
    ("_ODC_FSW_FSAMP_FREQ", "_ODC_12kHz_SINGLE_ALL");
    ("_MULTI_DC_METHOD_", "_MULTI_INTEG");
    ("_MULTI_NON_LINEAR_COMP", "_LENEAR_COMP_ON");
    ("_CUR_MAP_VERSION", "_MV_PROTO_REAR_CUR_MAP");
    ("_DELTA_TRQREF", "_DELTA_TRQREF_4") ].

Definition prj_ME_RWD_M_NA : Defines :=
  [ ("_TQ_COMP_CAL_VERSION", "_MVa_EV_P1_REAR_TQ_COMP_CAL");
    ("_POWER_CAL_VERSION", "_ME_EV_P2_REAR_160KW_POWER_CAL");
    ("_MOTOR_TYPE", "_ME_P1_REAR_MOTOR") ].

Definition prj_ME_RWD_M_others : Defines :=
  [ ("_TQ_COMP_CAL_VERSION", "_ME_EV_P2_REAR_TQ_COMP_CAL");
    ("_POWER_CAL_VERSION", "_ME_EV_P2_REAR_160KW_POWER_CAL");
    ("_MOTOR_TYPE", "_ME_P1_REAR_MOTOR") ].

Definition prj_ME_RWD_SOP : Defines :=
  [ ("_MI_REF_SETTING", "_MI_REF_103");
    ("_12SMP_COND", "_12SMP_OFF");
    ("_RPWM_COND", "_RPWM_01_03_ON");
    ("_NO_LOAD_TQ_COMP_COND", "NO_LOAD_TQ_COMP_OFF");
    ("_SW_RDC_SETTING", "_MV_EV_P1_REAR_SW_RDC");
    ("_ROC_RPWM_FUNCTION", "_ROC_RPWM_DISABLE");
    ("_FSW_FSAMP_FREQ", "_12kHz_SINGLE_ALL");
    ("_OEW_FSW_FSAMP_FREQ", "_OEW_12kHz_SINGLE_ALL");
    ("_ODC_FSW_FSAMP_FREQ", "_ODC_12kHz_SINGLE_ALL");
    ("_MULTI_DC_METHOD_", "_MULTI_INTEG");
    ("_MULTI_NON_LINEAR_COMP", "_LENEAR_COMP_ON");
    ("_CUR_MAP_VERSION", "_MV_PROTO_REAR_CUR_MAP");
    ("_DELTA_TRQREF", "_DELTA_TRQREF_4") ].

Definition prj_ME_RWD_SOP_NA : Defines :=
  [ ("_TQ_COMP_CAL_VERSION", "_MVa_EV_P1_REAR_TQ_COMP_CAL");
    ("_POWER_CAL_VERSION", "_ME_EV_P2_REAR_160KW_POWER_CAL");
    ("_MOTOR_TYPE", "_ME_P1_REAR_MOTOR") ].

Definition prj_ME_RWD_SOP_others : Defines :=
  [ ("_TQ_COMP_CAL_VERSION", "_ME_EV_P2_REAR_TQ_COMP_CAL");
    ("_POWER_CAL_VERSION", "_ME_EV_P2_REAR_160KW_POWER_CAL");
    ("_MOTOR_TYPE", "_ME_P1_REAR_MOTOR") ].

Definition prj_ME_RWD_RC : Defines :=
  [ ("_MI_REF_SETTING", "_MI_REF_103");
    ("_12SMP_COND", "_12SMP_OFF");
    ("_RPWM_COND", "_RPWM_01_03_ON");
    ("_NO_LOAD_TQ_COMP_COND", "NO_LOAD_TQ_COMP_OFF");
    ("_SW_RDC_SETTING", "_MV_EV_P1_REAR_SW_RDC");
    ("_ROC_RPWM_FUNCTION", "_ROC_RPWM_DISABLE");
    ("_FSW_FSAMP_FREQ", "_12kHz_SINGLE_ALL");
    ("_OEW_FSW_FSAMP_FREQ", "_OEW_12kHz_SINGLE_ALL");
    ("_ODC_FSW_FSAMP_FREQ", "_ODC_12kHz_SINGLE_ALL");
    ("_MULTI_DC_METHOD_", "_MULTI_INTEG");
    ("_MULTI_NON_LINEAR_COMP", "_LENEAR_COMP_ON");
    ("_CUR_MAP_VERSION", "_MV_PROTO_REAR_CUR_MAP");
    ("_DELTA_TRQREF", "_DELTA_TRQREF_4") ].

Definition prj_ME_RWD_RC_NA : Defines :=
  [ ("_TQ_COMP_CAL_VERSION", "_MVa_EV_P1_REAR_TQ_COMP_CAL");
    ("_POWER_CAL_VERSION", "_ME_EV_P2_REAR_160KW_POWER_CAL");
    ("_MOTOR_TYPE", "_ME_P1_REAR_MOTOR") ].

Definition prj_ME_RWD_RC_others : Defines :=
  [ ("_TQ_COMP_CAL_VERSION", "_ME_EV_P2_REAR_TQ_COMP_CAL");
    ("_POWER_CAL_VERSION", "_ME_EV_P2_REAR_160KW_POWER_CAL");
    ("_MOTOR_TYPE", "_ME_P1_REAR_MOTOR") ].

Section CcCalPrjCfg.

Context {codes : OptionCodes}.

(** The innermost chain: the market splits the calibration set. *)
Definition sel_MARKET_VERSION (ctx : ResolutionContext) (na others : Defines)
  : result Defines :=
  let v := pp (_MARKET_VERSION ctx) in
  if v =? _NORTH_AMERICA_VERSION then Ok na
  else if (v =? _DOMESTIC_VERSION) || (v =? _EUROPE_VERSION) || (v =? _CHINA_VERSION)
          || (v =? _COMMON_COUNTRY_VERSION) || (v =? _JAPAN_VERSION)
  then Ok others
  else Failed [UndefinedAxis MARKET_VERSION].

(** The body of one phase: its own definitions, then the market chain. *)
Definition in_phase (ctx : ResolutionContext) (base na others : Defines)
  : result Defines :=
  rmap (app base) (sel_MARKET_VERSION ctx na others).

Definition sel_DEVELOPMENT_PHASE (ctx : ResolutionContext)
  (tcar proto master pilot_1 pilot_2 m sop rc : result Defines) : result Defines :=
  let v := pp (_DEVELOPMENT_PHASE ctx) in
  if v =? _TCAR_VERSION then tcar
  else if v =? _PROTO_VERSION then proto
  else if v =? _MASTER_VERSION then master
  else if v =? _PILOT_1_VERSION then pilot_1
  else if v =? _PILOT_2_VERSION then pilot_2
  else if v =? _M_VERSION then m
  else if v =? _SOP_VERSION then sop
  else if v =? _RC_VERSION then rc
  else Failed [UndefinedAxis DEVELOPMENT_PHASE].

Definition sel_PERFORMANCE_TYPE (ctx : ResolutionContext) (inner : result Defines)
  : result Defines :=
  let v := pp (_PERFORMANCE_TYPE ctx) in
  if (v =? _STANDARD_VERSION) || (v =? _PERFORMANCE_VERSION) || (v =? _LONG_RANGE_VERSION)
     || (v =? _eM_160kW_VERSION) || (v =? _eM_200kW_VERSION) || (v =? _eM_250kW_VERSION)
  then inner
  else Failed [UndefinedAxis PERFORMANCE_TYPE].

(** The outermost chain.  Its [#else] holds no [#error] (the header notes that
    the error for an undeclared project was removed) and no definition: a
    project name that matches neither guard leaves the header empty. *)
Definition sel_PROJECT_NAME (ctx : ResolutionContext) : result Defines :=
  let v := pp (_PROJECT_NAME ctx) in
  if v =? _MV_RWD_PROJ then
    sel_PERFORMANCE_TYPE ctx
      (sel_DEVELOPMENT_PHASE ctx
       (in_phase ctx prj_MV_RWD_TCAR prj_MV_RWD_TCAR_NA prj_MV_RWD_TCAR_others)
       (in_phase ctx prj_MV_RWD_PROTO prj_MV_RWD_PROTO_NA prj_MV_RWD_PROTO_others)
       (in_phase ctx prj_MV_RWD_MASTER prj_MV_RWD_MASTER_NA prj_MV_RWD_MASTER_others)
       (in_phase ctx prj_MV_RWD_PILOT_1 prj_MV_RWD_PILOT_1_NA prj_MV_RWD_PILOT_1_others)
       (in_phase ctx prj_MV_RWD_PILOT_2 prj_MV_RWD_PILOT_2_NA prj_MV_RWD_PILOT_2_others)
       (in_phase ctx prj_MV_RWD_M prj_MV_RWD_M_NA prj_MV_RWD_M_others)
       (in_phase ctx prj_MV_RWD_SOP prj_MV_RWD_SOP_NA prj_MV_RWD_SOP_others)
       (in_phase ctx prj_MV_RWD_RC prj_MV_RWD_RC_NA prj_MV_RWD_RC_others))
  else if v =? _ME_RWD_PROJ then
    sel_PERFORMANCE_TYPE ctx
      (sel_DEVELOPMENT_PHASE ctx
       (in_phase ctx prj_ME_RWD_TCAR prj_ME_RWD_TCAR_NA prj_ME_RWD_TCAR_others)
       (in_phase ctx prj_ME_RWD_PROTO prj_ME_RWD_PROTO_NA prj_ME_RWD_PROTO_others)
       (in_phase ctx prj_ME_RWD_MASTER prj_ME_RWD_MASTER_NA prj_ME_RWD_MASTER_others)
       (in_phase ctx prj_ME_RWD_PILOT_1 prj_ME_RWD_PILOT_1_NA prj_ME_RWD_PILOT_1_others)
       (in_phase ctx prj_ME_RWD_PILOT_2 prj_ME_RWD_PILOT_2_NA prj_ME_RWD_PILOT_2_others)
       (in_phase ctx prj_ME_RWD_M prj_ME_RWD_M_NA prj_ME_RWD_M_others)
       (in_phase ctx prj_ME_RWD_SOP prj_ME_RWD_SOP_NA prj_ME_RWD_SOP_others)
       (in_phase ctx prj_ME_RWD_RC prj_ME_RWD_RC_NA prj_ME_RWD_RC_others))
  else Ok [].

End CcCalPrjCfg.

(** ** Resolution *)

(** What the headers select for one context. *)
Record Selected := mkSelected {
  s_project : Defines;
  s_gate : GateIcCfg;
  s_power : PowerModuleCfg;
  s_sensor : CurSensorCfg;
  s_etpu : EtpuCfg;
  s_auto : AutoModeCfg;
  s_stage : list Decl;
  s_sqpwm : list Decl;
  s_burst : list Decl;
  s_dtgs : list Decl
}.

(** The artefact of a build: the macros of the project header and the table
    of calibration constants. *)
Record Resolved := mkResolved {
  project : Defines;
  calibration : Table
}.

Section Resolution.

Context {codes : OptionCodes} {ext : ExternMacros}.

(** Preprocessing examines every chain and reports every [#error] reached. *)
Definition preprocess (ctx : ResolutionContext) : result Selected :=
  rmap (fun p =>
          let '(prj, g, pm, s, e, a, st, sq, bu, dt) := p in
          mkSelected prj g pm s e a st sq bu dt)
       (sel_PROJECT_NAME ctx
        <&> sel_GATE_IC_TYPE ctx
        <&> sel_POWER_MODULE_TYPE ctx
        <&> sel_MOT_CUR_SENSOR_TYPE ctx
        <&> sel_ETPU_CALCULATION_TIME_OPTION ctx
        <&> sel_PWM_UPDATETIME_AUTO_MODE ctx
        <&> sel_SA_2STAGE_PWM_MODE ctx
        <&> sel_SA_SQPWM_REGEN_DIS ctx
        <&> sel_PWM_BURST_MODE ctx
        <&> sel_VAR_DTGS_OPTION ctx).

(** The declarations of the three source files under a selection. *)
Definition declarations (sel : Selected) : list Decl :=
  BswCfgPwm_c (s_gate sel) (s_power sel) (s_etpu sel) (s_auto sel)
  ++ BswCfgRdc_c
  ++ CcCalBase_c (s_power sel) (s_sensor sel)
       (s_stage sel) (s_sqpwm sel) (s_burst sel) (s_dtgs sel).

(** Resolution: the initialisers are only translated when preprocessing went
    through; the result is the whole table or the diagnostics. *)
Definition resolve (ctx : ResolutionContext) : result Resolved :=
  sel <- preprocess ctx ;;
  rmap (mkResolved (s_project sel)) (eval_decls (declarations sel)).

End Resolution.

(** ** The declarations of the headers

    [BswCfgPwm.h], [BswCfgRdc.h] and [CcCalBase.h] declare every constant of
    the source files [extern]: with or without [const], with its type, and
    with its dimensions. *)
Record Extern := mkExtern {
  x_const : bool;
  x_type : ctype;
  x_name : string;
  x_dims : list nat
}.

Definition extern_const (ty : ctype) (name : string) (dims : list nat) : Extern :=
  mkExtern true ty name dims.

Definition extern_var (ty : ctype) (name : string) (dims : list nat) : Extern :=
  mkExtern false ty name dims.

Section Interfaces.

Context {codes : OptionCodes} {ext : ExternMacros}.

Definition BswCfgPwm_h : list Extern :=
  [ extern_const UINT32 "BswCfgCal_Pwm_MotStartTime" [];
    extern_const UINT32 "BswCfgCal_Pwm_MotPeriod" [];
    extern_const UINT32 "BswCfgCal_Pwm_MotDeadTime_INV1" [];
    extern_const UINT32 "BswCfgCal_Pwm_MotDeadTime_INV2" [];
    extern_const UINT32 "BswCfgCal_Pwm_MotDeadTime_Multi" [];
    extern_const UINT32 "BswCfgCal_Pwm_MotMinPulseWidth_INV1" [];
    extern_const UINT32 "BswCfgCal_Pwm_MotMinPulseWidth_INV2" [];
    extern_const UINT32 "BswCfgCal_Pwm_MotUpdateTime_INV1" [];
    extern_const UINT32 "BswCfgCal_Pwm_MotUpdateTime_INV2" [];
    extern_const UINT8 "BswCfgCal_Pwm_MotPwmMode" [];
    extern_const UINT32 "BswCfgCal_Pwm_MotAsacEdgeOffset" [];
    extern_const UINT8 "BswCfgCal_Pwm_MotUpdatetime_AutoMode" [];
    extern_const UINT32 "BswCfgCal_Pwm_MoteTPULoad_SYNC" [];
    extern_const UINT32 "BswCfgCal_Pwm_MoteTPULoad_RSLV" [];
    extern_const UINT32 "BswCfgCal_Pwm_MoteTPULoad_PWM" [];
    extern_const UINT32 "BswCfgCal_Pwm_HsgStartTime" [];
    extern_const UINT32 "BswCfgCal_Pwm_HsgPeriod" [];
    extern_const UINT32 "BswCfgCal_Pwm_HsgDeadTime_INV1" [];
    extern_const UINT32 "BswCfgCal_Pwm_HsgDeadTime_INV2" [];
    extern_const UINT32 "BswCfgCal_Pwm_HsgMinPulseWidth_INV1" [];
    extern_const UINT32 "BswCfgCal_Pwm_HsgMinPulseWidth_INV2" [];
    extern_const UINT32 "BswCfgCal_Pwm_HsgUpdateTime_INV1" [];
    extern_const UINT32 "BswCfgCal_Pwm_HsgUpdateTime_INV2" [];
    extern_const UINT8 "BswCfgCal_Pwm_HsgPwmMode" [];
    extern_const UINT32 "BswCfgCal_Pwm_HsgAsacEdgeOffset" [];
    extern_const UINT8 "BswCfgCal_Pwm_HsgUpdatetime_AutoMode" [];
    extern_const UINT32 "BswCfgCal_Pwm_HsgeTPULoad_SYNC" [];
    extern_const UINT32 "BswCfgCal_Pwm_HsgeTPULoad_RSLV" [];
    extern_const UINT32 "BswCfgCal_Pwm_HsgeTPULoad_PWM" [];
    extern_var UINT32 "BswCfgVal_Pwm_MotUpdateTime_INV1" [];
    extern_var UINT32 "BswCfgVal_Pwm_MotUpdateTime_INV2" [];
    extern_var UINT32 "BswCfgVal_Pwm_HsgUpdateTime_INV1" [];
    extern_var UINT32 "BswCfgVal_Pwm_HsgUpdateTime_INV2" [] ].

Definition BswCfgRdc_h : list Extern :=
  [ extern_const UINT32 "BswCfgCal_Rdc_MotPeriod" [];
    extern_const FLOAT32 "BswCfgCal_Rdc_MotStartOffset" [];
    extern_const FLOAT32 "BswCfgCal_Rdc_MotK1" [];
    extern_const FLOAT32 "BswCfgCal_Rdc_MotK2" [];
    extern_const INT32 "BswCfgCal_Rdc_MotK1Scale" [];
    extern_const INT32 "BswCfgCal_Rdc_MotK2Scale" [];
    extern_const UINT32 "BswCfgCal_Rdc_MotSinDcOffset" [];
    extern_const UINT32 "BswCfgCal_Rdc_MotCosDcOffset" [];
    extern_const INT32 "BswCfgCal_Rdc_MotSinScale" [];
    extern_const INT32 "BswCfgCal_Rdc_MotCosScale" [];
    extern_const UINT32 "BswCfgCal_Rdc_MotUnitrigDelay" [];
    extern_const UINT32 "BswCfgCal_Rdc_MotUnitrigStartOffset" [];
    extern_const UINT32 "BswCfgCal_Rdc_HsgPeriod" [];
    extern_const FLOAT32 "BswCfgCal_Rdc_HsgStartOffset" [];
    extern_const FLOAT32 "BswCfgCal_Rdc_HsgK1" [];
    extern_const FLOAT32 "BswCfgCal_Rdc_HsgK2" [];
    extern_const INT32 "BswCfgCal_Rdc_HsgK1Scale" [];
    extern_const INT32 "BswCfgCal_Rdc_HsgK2Scale" [];
    extern_const UINT32 "BswCfgCal_Rdc_HsgSinDcOffset" [];
    extern_const UINT32 "BswCfgCal_Rdc_HsgCosDcOffset" [];
    extern_const INT32 "BswCfgCal_Rdc_HsgSinScale" [];
    extern_const INT32 "BswCfgCal_Rdc_HsgCosScale" [];
    extern_const UINT32 "BswCfgCal_Rdc_HsgUnitrigDelay" [];
    extern_const UINT32 "BswCfgCal_Rdc_HsgUnitrigStartOffset" [] ].

Definition extern_SA_2STAGE_PWM_MODE (ctx : ResolutionContext) : result (list Extern) :=
  let v := pp (_SA_2STAGE_PWM_MODE ctx) in
  if v =? _2STG_SVPWM then Ok
       [ extern_const BOOL "TestCal_RSPWM_Enb" [] ]
  else if v =? _2STG_RSPWM then Ok
       [ extern_const BOOL "TestCal_RSPWM_Enb" [] ]
  else Failed [UndefinedAxis SA_2STAGE_PWM_MODE].

Definition extern_SA_SQPWM_REGEN_DIS (ctx : ResolutionContext) : result (list Extern) :=
  let v := pp (_SA_SQPWM_REGEN_DIS ctx) in
  if v =? _SQPWM_REGEN_ENB then Ok
       [ extern_const UINT8 "CcCal_SQPWM_Mode_Regen_Disable" [TOTAL_TARGET] ]
  else if v =? _SQPWM_REGEN_DIS then Ok
       [ extern_const UINT8 "CcCal_SQPWM_Mode_Regen_Disable" [TOTAL_TARGET] ]
  else Failed [UndefinedAxis SA_SQPWM_REGEN_DIS].

Definition extern_PWM_BURST_MODE (ctx : ResolutionContext) : result (list Extern) :=
  let v := pp (_PWM_BURST_MODE ctx) in
  if v =? _UNDEFINED_OPTION then Failed [UndefinedAxis PWM_BURST_MODE]
  else if v =? _BURST_MODE_ENABLE then Ok
       [ extern_const FLOAT32 "CcCal_PwmOff_MotTqLvl_Max" [TOTAL_TARGET];
         extern_const FLOAT32 "CcCal_PwmOff_MotTqLvl_Min" [TOTAL_TARGET];
         extern_const FLOAT32 "CcCal_PwmOn_MotTqLvl_Max" [TOTAL_TARGET];
         extern_const FLOAT32 "CcCal_PwmOn_MotTqLvl_Min" [TOTAL_TARGET];
         extern_const UINT32 "CcCal_PwmOff_WaitTime" [TOTAL_TARGET] ]
  else if v =? _BURST_MODE_DISABLE then Ok
       [ extern_const FLOAT32 "CcCal_PwmOff_MotTqLvl_Max" [TOTAL_TARGET];
         extern_const FLOAT32 "CcCal_PwmOff_MotTqLvl_Min" [TOTAL_TARGET];
         extern_const FLOAT32 "CcCal_PwmOn_MotTqLvl_Max" [TOTAL_TARGET];
         extern_const FLOAT32 "CcCal_PwmOn_MotTqLvl_Min" [TOTAL_TARGET];
         extern_const UINT32 "CcCal_PwmOff_WaitTime" [TOTAL_TARGET] ]
  else Failed [UndefinedAxis PWM_BURST_MODE].

Definition extern_VAR_DTGS_OPTION (ctx : ResolutionContext) : result (list Extern) :=
  let v := pp (_VAR_DTGS_OPTION ctx) in
  if v =? _UNDEFINED_OPTION then Failed [UndefinedAxis VAR_DTGS_OPTION]
  else if v =? _VAR_DTGS_OPTION_INCLUDED then Ok
       [ extern_const UINT8 "CcCal_VarDTGS_Enb" [TOTAL_TARGET] ]
  else if v =? _VAR_DTGS_OPTION_NOT_INCLUDED then Ok
       [ extern_const UINT8 "CcCal_VarDTGS_Enb" [TOTAL_TARGET] ]
  else Failed [UndefinedAxis VAR_DTGS_OPTION].

Definition CcCalBase_h (stage sqpwm burst dtgs : list Extern) : list Extern :=
  [ extern_const FLOAT32 "BswCfgCal_Rsv_DefaultOffset" [TOTAL_TARGET];
    extern_const UINT16 "BswCfgCal_Rsv_RotDir" [TOTAL_TARGET] ]
  ++ stage
  ++ [ extern_const BOOL "TestCal_VnCtrl_Enb" [] ]
  ++ sqpwm
  ++ [ extern_const FLOAT32 "CcCal_Motor_frated" [TOTAL_TARGET];
    extern_const UINT8 "CcCal_SWRDC_GainUpdateCal" [TOTAL_TARGET];
    extern_const SLONG "CcCal_SWRDC_GainUpdate_K1D" [TOTAL_TARGET];
    extern_const SLONG "CcCal_SWRDC_GainUpdate_K1SCALE" [TOTAL_TARGET];
    extern_const SLONG "CcCal_SWRDC_GainUpdate_K2D" [TOTAL_TARGET];
    extern_const SLONG "CcCal_SWRDC_GainUpdate_K2SCALE" [TOTAL_TARGET];
    extern_const INT32 "CcCal_SWRDC_GainUpdate_NaturalFreq" [TOTAL_TARGET];
    extern_const FLOAT32 "CcCal_SWRDC_GainUpdate_DampFac" [TOTAL_TARGET];
    extern_const UINT16 "CcCal_ToggleEnb" [TOTAL_TARGET];
    extern_const FLOAT32 "CcCal_Fsamp_High_Limit" [TOTAL_TARGET];
    extern_const FLOAT32 "CcCal_Motor_Ld" [TOTAL_TARGET];
    extern_const FLOAT32 "CcCal_Motor_Lq" [TOTAL_TARGET];
    extern_const FLOAT32 "CcCal_Motor_Llk" [TOTAL_TARGET];
    extern_const FLOAT32 "CcCal_DaxisCurCtrlBW" [TOTAL_TARGET];
    extern_const FLOAT32 "CcCal_QaxisCurCtrlBW" [TOTAL_TARGET];
    extern_const FLOAT32 "CcCal_NaxisCurCtrlBW" [TOTAL_TARGET];
    extern_const FLOAT32 "CcCal_PaxisCurCtrlBW" [TOTAL_TARGET];
    extern_const UINT16 "CcCal_SWRDC_Speed_Override" [TOTAL_TARGET];
    extern_const FLOAT32 "L1" [];
    extern_const FLOAT32 "L2" [];
    extern_const FLOAT32 "L3" [];
    extern_const FLOAT32 "CcCal_Cur_lag" [TOTAL_TARGET];
    extern_const FLOAT32 "FSW_TAB" [TOTAL_TARGET; VARIABLE_FSW_TAB_OUT_SIZE];
    extern_const FLOAT32 "HSG_VAR_HOVMGAIN_TAB" [VARIABLE_HOVM_TAB_ROW_SIZE; VARIABLE_HOVM_TAB_COL_SIZE];
    extern_const FLOAT32 "MAGINJ_TAB" [TOTAL_TARGET; VARIABLE_FSW_TAB_OUT_SIZE];
    extern_const UINT8 "CcCal_BETC_SetFlag" [TOTAL_TARGET];
    extern_const FLOAT32 "CcCal_BETC_CoeffLAMpm_Tmp" [TOTAL_TARGET];
    extern_const FLOAT32 "CcCal_BETC_LAMpmAt90MAP" [TOTAL_TARGET];
    extern_const UINT32 "CcCal_BETC_EndCnt" [TOTAL_TARGET];
    extern_const FLOAT32 "CcCal_BETC_DeltaTmpComp_Lmt" [TOTAL_TARGET];
    extern_const UINT8 "CcCal_DeadTimeCompEnb" [TOTAL_TARGET];
    extern_var FLOAT32 "CcCal_DeadTimeComp_INVIcompZCC_INV1" [TOTAL_TARGET];
    extern_var FLOAT32 "CcCal_DeadTimeComp_INVIcompZCC_INV2" [TOTAL_TARGET];
    extern_const FLOAT32 "CcCal_DeadTimeComp_TdeadComp_INV1" [TOTAL_TARGET];
    extern_const FLOAT32 "CcCal_DeadTimeComp_TdeadComp_INV2" [TOTAL_TARGET];
    extern_const FLOAT32 "CcCal_DeadTimeComp_IcompZCC_INV1" [TOTAL_TARGET];
    extern_const FLOAT32 "CcCal_DeadTimeComp_IcompZCC_INV2" [TOTAL_TARGET];
    extern_const INT16 "CcCal_CurA_InitialOffset" [TOTAL_TARGET];
    extern_const INT16 "CcCal_CurB_InitialOffset" [TOTAL_TARGET];
    extern_const INT16 "CcCal_CurC_InitialOffset" [TOTAL_TARGET];
    extern_const FLOAT32 "CcCal_Cur_ScaleFactor" [TOTAL_TARGET];
    extern_const UINT16 "CcCal_HvBatt_InitialOffset" [TOTAL_TARGET];
    extern_const FLOAT32 "CcCal_HvBatt_ScaleFactor" [TOTAL_TARGET];
    extern_const UINT8 "CcCal_OffsetValidityChk_ZeroCurOverride" [TOTAL_TARGET];
    extern_const FLOAT32 "CcCal_LvAdToPhyOffset" [TOTAL_TARGET];
    extern_const FLOAT32 "CcCal_LvAdToPhySclFct" [TOTAL_TARGET] ]
  ++ burst
  ++ dtgs
  ++ [ extern_const FLOAT32 "CcCal_VarDTGS_MotTqLvl1_Max_HysIn" [TOTAL_TARGET];
    extern_const FLOAT32 "CcCal_VarDTGS_MotTqLvl1_Min_HysIn" [TOTAL_TARGET];
    extern_const FLOAT32 "CcCal_VarDTGS_MotSpdLvl1_Max_HysIn" [TOTAL_TARGET];
    extern_const FLOAT32 "CcCal_VarDTGS_MotSpdLvl1_Min_HysIn" [TOTAL_TARGET];
    extern_const FLOAT32 "CcCal_VarDTGS_MotTqLvl1_Max_HysOut" [TOTAL_TARGET];
    extern_const FLOAT32 "CcCal_VarDTGS_MotTqLvl1_Min_HysOut" [TOTAL_TARGET];
    extern_const FLOAT32 "CcCal_VarDTGS_MotSpdLvl1_Max_HysOut" [TOTAL_TARGET];
    extern_const FLOAT32 "CcCal_VarDTGS_MotSpdLvl1_Min_HysOut" [TOTAL_TARGET];
    extern_const FLOAT32 "CcCal_VarDTGS_MotTqLvl2_Max_HysIn" [TOTAL_TARGET];
    extern_const FLOAT32 "CcCal_VarDTGS_MotTqLvl2_Min_HysIn" [TOTAL_TARGET];
    extern_const FLOAT32 "CcCal_VarDTGS_MotSpdLvl2_Max_HysIn" [TOTAL_TARGET];
    extern_const FLOAT32 "CcCal_VarDTGS_MotSpdLvl2_Min_HysIn" [TOTAL_TARGET];
    extern_const FLOAT32 "CcCal_VarDTGS_MotTqLvl2_Max_HysOut" [TOTAL_TARGET];
    extern_const FLOAT32 "CcCal_VarDTGS_MotTqLvl2_Min_HysOut" [TOTAL_TARGET];
    extern_const FLOAT32 "CcCal_VarDTGS_MotSpdLvl2_Max_HysOut" [TOTAL_TARGET];
    extern_const FLOAT32 "CcCal_VarDTGS_MotSpdLvl2_Min_HysOut" [TOTAL_TARGET];
    extern_const FLOAT32 "CcCal_VarDTGS_MotTqLvl3_Max_HysIn" [TOTAL_TARGET];
    extern_const FLOAT32 "CcCal_VarDTGS_MotTqLvl3_Min_HysIn" [TOTAL_TARGET];
    extern_const FLOAT32 "CcCal_VarDTGS_MotSpdLvl3_Max_HysIn" [TOTAL_TARGET];
    extern_const FLOAT32 "CcCal_VarDTGS_MotSpdLvl3_Min_HysIn" [TOTAL_TARGET];
    extern_const FLOAT32 "CcCal_VarDTGS_MotTqLvl3_Max_HysOut" [TOTAL_TARGET];
    extern_const FLOAT32 "CcCal_VarDTGS_MotTqLvl3_Min_HysOut" [TOTAL_TARGET];
    extern_const FLOAT32 "CcCal_VarDTGS_MotSpdLvl3_Max_HysOut" [TOTAL_TARGET];
    extern_const FLOAT32 "CcCal_VarDTGS_MotSpdLvl3_Min_HysOut" [TOTAL_TARGET] ].

(** What a file that includes [CcCalBase.h] (and through it [BswCfgPwm.h] and
    [BswCfgRdc.h]) sees declared: the chains of the three headers are
    examined, the declarations follow in the order of inclusion. *)
Definition interface (ctx : ResolutionContext) : result (list Extern) :=
  rmap (fun p =>
          let '(_, _, st, sq, bu, dt) := p in
          BswCfgPwm_h ++ BswCfgRdc_h ++ CcCalBase_h st sq bu dt)
       (sel_ETPU_CALCULATION_TIME_OPTION ctx
        <&> sel_PWM_UPDATETIME_AUTO_MODE ctx
        <&> extern_SA_2STAGE_PWM_MODE ctx
        <&> extern_SA_SQPWM_REGEN_DIS ctx
        <&> extern_PWM_BURST_MODE ctx
        <&> extern_VAR_DTGS_OPTION ctx).

End Interfaces.

(** * The vocabulary of the properties *)

Section Vocabulary.

Context {codes : OptionCodes} {ext : ExternMacros}.

(** ** Reading a table *)

(** The binding a declaration produces, and the declaration of a name. *)
Definition bind (d : Decl) : string * Binding := (d_name d, binding_of d).

Definition find_decl (name : string) (ds : list Decl) : option Decl :=
  find (fun d => String.eqb name (d_name d)) ds.

(** The value a scalar is bound to, and the entry of a per-target array that
    belongs to a target. *)
Definition scalar (name : string) (tbl : Table) : option value :=
  match lookup name tbl with
  | Some (Scalar _ v) => Some v
  | _ => None
  end.

Definition entry (name : string) (t : Target) (tbl : Table) : option value :=
  match lookup name tbl with
  | Some (PerTarget _ vs) => nth_error vs (target_index t)
  | _ => None
  end.

(** A pair of macros named after the targets, as a function of the target. *)
Definition per_target {A} (mot hsg : A) (t : Target) : A :=
  match t with
  | MOT => mot
  | HSG => hsg
  end.

(** The row of a table over the targets that belongs to a target. *)
Definition row (name : string) (t : Target) (tbl : Table) : option (list value) :=
  match lookup name tbl with
  | Some (PerTargetTab _ rows) => nth_error rows (target_index t)
  | _ => None
  end.

(** The bindings of the arrays [name[TOTAL_TARGET]] and of the tables
    [name[TOTAL_TARGET][cols]]. *)
Definition over_targets (nb : string * Binding) : bool :=
  match snd nb with
  | PerTarget _ _ => true
  | _ => false
  end.

Definition table_over_targets (nb : string * Binding) : bool :=
  match snd nb with
  | PerTargetTab _ _ => true
  | _ => false
  end.

(** ** The guards of the chains, read as sets *)

(** The value of a switch as the preprocessor sees it. *)
Definition selected (a : Axis) (ctx : ResolutionContext) : Z :=
  pp match a with
     | PROJECT_NAME => _PROJECT_NAME ctx
     | PERFORMANCE_TYPE => _PERFORMANCE_TYPE ctx
     | DEVELOPMENT_PHASE => _DEVELOPMENT_PHASE ctx
     | MARKET_VERSION => _MARKET_VERSION ctx
     | GATE_IC_TYPE => _GATE_IC_TYPE ctx
     | POWER_MODULE_TYPE => _POWER_MODULE_TYPE ctx
     | MOT_CUR_SENSOR_TYPE => _MOT_CUR_SENSOR_TYPE ctx
     | ETPU_CALCULATION_TIME_OPTION => _ETPU_CALCULATION_TIME_OPTION ctx
     | PWM_UPDATETIME_AUTO_MODE => _PWM_UPDATETIME_AUTO_MODE ctx
     | SA_2STAGE_PWM_MODE => _SA_2STAGE_PWM_MODE ctx
     | SA_SQPWM_REGEN_DIS => _SA_SQPWM_REGEN_DIS ctx
     | PWM_BURST_MODE => _PWM_BURST_MODE ctx
     | VAR_DTGS_OPTION => _VAR_DTGS_OPTION ctx
     end.

(** The enumerators the branches of a chain are guarded by (the sentinel
    guards an [#error], not a branch). *)
Definition enumerated (a : Axis) : list Z :=
  match a with
  | PROJECT_NAME => [_MV_RWD_PROJ; _ME_RWD_PROJ]
  | PERFORMANCE_TYPE =>
      [_STANDARD_VERSION; _PERFORMANCE_VERSION; _LONG_RANGE_VERSION;
       _eM_160kW_VERSION; _eM_200kW_VERSION; _eM_250kW_VERSION]
  | DEVELOPMENT_PHASE =>
      [_TCAR_VERSION; _PROTO_VERSION; _MASTER_VERSION; _PILOT_1_VERSION;
       _PILOT_2_VERSION; _M_VERSION; _SOP_VERSION; _RC_VERSION]
  | MARKET_VERSION =>
      [_NORTH_AMERICA_VERSION; _DOMESTIC_VERSION; _EUROPE_VERSION; _CHINA_VERSION;
       _COMMON_COUNTRY_VERSION; _JAPAN_VERSION]
  | GATE_IC_TYPE =>
      [_GATE_IC_TYPE_1; _GATE_IC_TYPE_2; _GATE_IC_TYPE_3; _GATE_IC_TYPE_4;
       _GATE_IC_TYPE_5; _GATE_IC_TYPE_6; _GATE_IC_TYPE_7; _GATE_IC_TYPE_8_NV74_TCAR]
  | POWER_MODULE_TYPE =>
      [_PM_CASE_TYPE; _PM_DSC_TYPE_1; _PM_DSC_TYPE_2; _PM_HP_DRIVE_TYPE;
       _PM_CVeGT_TYPE; _PM_NV74_TYPE; _PM_MV_TYPE]
  | MOT_CUR_SENSOR_TYPE =>
      [_MOT_400A_SCALE_HALL; _MOT_400A_SCALE_SHUNT_TYPE1; _MOT_500A_SCALE_SHUNT_TYPE1;
       _MOT_600A_SCALE_SHUNT_TYPE1; _MOT_400A_SCALE_SHUNT_TYPE2; _MOT_500A_SCALE_HALL;
       _MOT_700A_SCALE_HALL; _MOT_700A_SCALE_SHUNT_0; _MOT_850A_SCALE_HALL;
       _MOT_850A_SCALE_HALL_FOR_HPV; _MOT_1000A_SCALE_HALL; _MOT_1300A_SCALE_HALL;
       _MOT_1100A_SCALE_HALL; _MOT_1500A_SCALE_HALL; _MOT_700A_SCALE_CORELESS;
       _MOT_700A_SCALE_CORELESS_TYPE2; _MOT_650A_SCALE_CORELESS_TYPE]
  | ETPU_CALCULATION_TIME_OPTION => [_SINGLE_STAGE_SYSTEM; _TWO_STAGE_SYSTEM]
  | PWM_UPDATETIME_AUTO_MODE => [_UPDATETIME_AUTO; _UPDATETIME_MANUAL]
  | SA_2STAGE_PWM_MODE => [_2STG_SVPWM; _2STG_RSPWM]
  | SA_SQPWM_REGEN_DIS => [_SQPWM_REGEN_ENB; _SQPWM_REGEN_DIS]
  | PWM_BURST_MODE => [_BURST_MODE_ENABLE; _BURST_MODE_DISABLE]
  | VAR_DTGS_OPTION => [_VAR_DTGS_OPTION_INCLUDED; _VAR_DTGS_OPTION_NOT_INCLUDED]
  end.

(** The value of the switch is one of the enumerators of its chain. *)
Definition matched (a : Axis) (ctx : ResolutionContext) : Prop :=
  In (selected a ctx) (enumerated a).

(** A chain nested in another is examined when the branch around it is
    taken. *)
Definition examined (a : Axis) (ctx : ResolutionContext) : Prop :=
  match a with
  | PERFORMANCE_TYPE => matched PROJECT_NAME ctx
  | DEVELOPMENT_PHASE => matched PROJECT_NAME ctx /\ matched PERFORMANCE_TYPE ctx
  | MARKET_VERSION =>
      matched PROJECT_NAME ctx /\ matched PERFORMANCE_TYPE ctx
      /\ matched DEVELOPMENT_PHASE ctx
  | _ => True
  end.

(** ** The table of a successful resolution

    The bindings of the declarations under the selection of the headers; the
    two chains of [CcCalBase.c] that stand before the arrays choose the
    initialiser of one declaration each. *)
Record TableOf (ctx : ResolutionContext) (r : Resolved) (sel : Selected) : Prop := {
  t_power : sel_POWER_MODULE_TYPE ctx = Ok (s_power sel);
  t_sensor : sel_MOT_CUR_SENSOR_TYPE ctx = Ok (s_sensor sel);
  t_gate : sel_GATE_IC_TYPE ctx = Ok (s_gate sel);
  t_table : calibration r = map bind (declarations sel);
  t_fit : (2 <= TOTAL_TARGET)%nat;
  t_stage : exists flag, s_stage sel = [ cst BOOL "TestCal_RSPWM_Enb" flag ];
  t_sqpwm : exists flag,
      s_sqpwm sel = [ cst_t UINT8 "CcCal_SQPWM_Mode_Regen_Disable" [flag; flag] ]
}.

(** ** Macros by target *)

Definition DEFAULT_OFFSET : Target -> cval :=
  per_target DEFAULT_OFFSET_MOT DEFAULT_OFFSET_HSG.
Definition RESOLVER_DIRECTION : Target -> cval :=
  per_target RESOLVER_DIRECTION_MOT RESOLVER_DIRECTION_HSG.
Definition CUR_SENSOR_RANGE (s : CurSensorCfg) : Target -> cval :=
  per_target (CUR_SENSOR_RANGE_MOT s) CUR_SENSOR_RANGE_HSG.
Definition CUR_SENSOR_OFFSET : Target -> cval :=
  per_target CUR_SENSOR_OFFSET_MOT CUR_SENSOR_OFFSET_HSG.
Definition CUR_SENSOR_SCALE (s : CurSensorCfg) : Target -> cval :=
  per_target (CUR_SENSOR_SCALE_MOT s) CUR_SENSOR_SCALE_HSG.
Definition BSWCFGPWM_INV1_DEADTIME (pm : PowerModuleCfg) : Target -> Z :=
  per_target (BSWCFGPWM_MOT_INV1_DEADTIME pm) (BSWCFGPWM_HSG_INV1_DEADTIME pm).
Definition BSWCFGPWM_INV2_DEADTIME (pm : PowerModuleCfg) : Target -> Z :=
  per_target (BSWCFGPWM_MOT_INV2_DEADTIME pm) (BSWCFGPWM_HSG_INV2_DEADTIME pm).

(** The per-target arrays whose initialisers are named after the target they
    belong to, each with the initialiser of a target. *)
Definition target_named (pm : PowerModuleCfg) (s : CurSensorCfg)
  : list (string * ctype * (Target -> cval)) :=
  [ ("BswCfgCal_Rsv_DefaultOffset", FLOAT32, DEFAULT_OFFSET);
    ("BswCfgCal_Rsv_RotDir", UINT16, RESOLVER_DIRECTION);
    ("CcCal_DeadTimeComp_INVIcompZCC_INV1", FLOAT32,
      fun t => div (flt 1 0) (mul (CUR_SENSOR_RANGE s t) (flt 5 2)));
    ("CcCal_DeadTimeComp_INVIcompZCC_INV2", FLOAT32,
      fun t => div (flt 1 0) (mul (CUR_SENSOR_RANGE s t) (flt 5 2)));
    ("CcCal_DeadTimeComp_TdeadComp_INV1", FLOAT32,
      fun t => mul (sub (CInt (BSWCFGPWM_INV1_DEADTIME pm t)) (flt 100 0)) (flt 1 9));
    ("CcCal_DeadTimeComp_TdeadComp_INV2", FLOAT32,
      fun t => mul (sub (CInt (BSWCFGPWM_INV2_DEADTIME pm t)) (flt 100 0)) (flt 1 9));
    ("CcCal_DeadTimeComp_IcompZCC_INV1", FLOAT32,
      fun t => mul (CUR_SENSOR_RANGE s t) (flt 5 2));
    ("CcCal_DeadTimeComp_IcompZCC_INV2", FLOAT32,
      fun t => mul (CUR_SENSOR_RANGE s t) (flt 5 2));
    ("CcCal_CurA_InitialOffset", INT16, CUR_SENSOR_OFFSET);
    ("CcCal_CurB_InitialOffset", INT16, CUR_SENSOR_OFFSET);
    ("CcCal_CurC_InitialOffset", INT16, CUR_SENSOR_OFFSET);
    ("CcCal_Cur_ScaleFactor", FLOAT32, CUR_SENSOR_SCALE s) ].

(** ** Bindings by inverter and target *)

Inductive Inverter := INV1 | INV2.

Definition BSWCFGPWM_DEADTIME (pm : PowerModuleCfg) (inv : Inverter) : Target -> Z :=
  match inv with
  | INV1 => BSWCFGPWM_INV1_DEADTIME pm
  | INV2 => BSWCFGPWM_INV2_DEADTIME pm
  end.

Definition dead_time_binding (inv : Inverter) (t : Target) : string :=
  match inv, t with
  | INV1, MOT => "BswCfgCal_Pwm_MotDeadTime_INV1"
  | INV2, MOT => "BswCfgCal_Pwm_MotDeadTime_INV2"
  | INV1, HSG => "BswCfgCal_Pwm_HsgDeadTime_INV1"
  | INV2, HSG => "BswCfgCal_Pwm_HsgDeadTime_INV2"
  end.

Definition TdeadComp_binding (inv : Inverter) : string :=
  match inv with
  | INV1 => "CcCal_DeadTimeComp_TdeadComp_INV1"
  | INV2 => "CcCal_DeadTimeComp_TdeadComp_INV2"
  end.

Definition IcompZCC_binding (inv : Inverter) : string :=
  match inv with
  | INV1 => "CcCal_DeadTimeComp_IcompZCC_INV1"
  | INV2 => "CcCal_DeadTimeComp_IcompZCC_INV2"
  end.

Definition INVIcompZCC_binding (inv : Inverter) : string :=
  match inv with
  | INV1 => "CcCal_DeadTimeComp_INVIcompZCC_INV1"
  | INV2 => "CcCal_DeadTimeComp_INVIcompZCC_INV2"
  end.

(** ** Formulas

    The formulas in the words of the specification, evaluated in binary32:
    dead-time compensation is the dead time less the fixed offset of 100 ns,
    in seconds; the scale of a current sensor is its range times 0.00061035. *)
Definition FIXED_OFFSET : Z := 100.

Definition dead_time_compensation (deadtime : Z) : spec_float :=
  SFmul 24 128 (SFsub 24 128 (f32_of_Z deadtime) (f32_of_Z FIXED_OFFSET))
        (as_float (flt 1 9)).


(** Nanoseconds as seconds, exactly. *)
Definition ns (n : Z) : Q := n # 1000000000.

(** The gain literals of the SWRDC gain update, exactly. *)
Definition SWRDC_K1 : Q := 64339817 # 100000000.
Definition SWRDC_K2 : Q := 99471843 # 100000000.

(** A mantissa read back at a scale. *)
Definition fixed_point_decode (mantissa scale : Z) : Q :=
  (inject_Z mantissa / inject_Z (2 ^ scale))%Q.

(** The uni-trigger macros of the resolver and the names they are bound to. *)
Definition BSWCFGRDC_PERIOD : Target -> Z :=
  per_target BSWCFGRDC_MOT_PERIOD BSWCFGRDC_HSG_PERIOD.
Definition BSWCFGRDC_START_OFFSET : Target -> Z :=
  per_target BSWCFGRDC_MOT_START_OFFSET BSWCFGRDC_HSG_START_OFFSET.
Definition BSWCFGRDC_UNITRIG_START_OFFSET : Target -> Z :=
  per_target BSWCFGRDC_MOT_UNITRIG_START_OFFSET BSWCFGRDC_HSG_UNITRIG_START_OFFSET.

Definition Rdc_Period_binding : Target -> string :=
  per_target "BswCfgCal_Rdc_MotPeriod" "BswCfgCal_Rdc_HsgPeriod".
Definition Rdc_StartOffset_binding : Target -> string :=
  per_target "BswCfgCal_Rdc_MotStartOffset" "BswCfgCal_Rdc_HsgStartOffset".
Definition Rdc_UnitrigStartOffset_binding : Target -> string :=
  per_target "BswCfgCal_Rdc_MotUnitrigStartOffset" "BswCfgCal_Rdc_HsgUnitrigStartOffset".

(** The expression [IcompZCC] and [INVIcompZCC] are initialised from: 5 % of
    the range of the current sensor. *)
Definition zcc_current (s : CurSensorCfg) (t : Target) : cval :=
  mul (CUR_SENSOR_RANGE s t) (flt 5 2).

(** ** Builds that go through *)

(** The chains whose first guard compares the switch with the sentinel
    [_UNDEFINED_OPTION] and raises [#error]. *)
Definition guarded_by_sentinel (a : Axis) : bool :=
  match a with
  | GATE_IC_TYPE | POWER_MODULE_TYPE | MOT_CUR_SENSOR_TYPE
  | ETPU_CALCULATION_TIME_OPTION | PWM_UPDATETIME_AUTO_MODE
  | PWM_BURST_MODE | VAR_DTGS_OPTION => true
  | _ => false
  end.

(** A chain takes a branch: the switch is one of its enumerators and, where
    the chain tests the sentinel first, is not the sentinel. *)
Definition accepted (a : Axis) (ctx : ResolutionContext) : Prop :=
  matched a ctx /\ (guarded_by_sentinel a = true -> selected a ctx <> _UNDEFINED_OPTION).

(** The switches of the chains outside the project header. *)
Definition file_axes : list Axis :=
  [ GATE_IC_TYPE; POWER_MODULE_TYPE; MOT_CUR_SENSOR_TYPE; ETPU_CALCULATION_TIME_OPTION;
    PWM_UPDATETIME_AUTO_MODE; SA_2STAGE_PWM_MODE; SA_SQPWM_REGEN_DIS; PWM_BURST_MODE;
    VAR_DTGS_OPTION ].

Definition valid_context (ctx : ResolutionContext) : Prop :=
  (matched PROJECT_NAME ctx ->
   matched PERFORMANCE_TYPE ctx /\ matched DEVELOPMENT_PHASE ctx
   /\ matched MARKET_VERSION ctx)
  /\ forall a, In a file_axes -> accepted a ctx.

(** The expressions of the initialisers that are made of macros of the absent
    headers. *)
Definition extern_constants : list cval :=
  [ DEFAULT_OFFSET_MOT; DEFAULT_OFFSET_HSG; RESOLVER_DIRECTION_MOT; RESOLVER_DIRECTION_HSG;
    SET_FLAG; CLR_FLAG; PI; ITRCPX_SAMPLMODE_DOUBLE; CUR_SENSOR_RANGE_HSG;
    HVBATT_SENSOR_SCALE; LVBATT_SENSOR_OFFSET; LVBATT_SENSOR_SCALE;
    BSWCFGRDC_MOT_UNITRIG_DELAY; BSWCFGRDC_HSG_UNITRIG_DELAY ].

(** The absent headers leave room for the initialisers (two targets, the 19
    rows of 11 gains of [HSG_VAR_HOVMGAIN_TAB]) and their macros are constant
    expressions. *)
Definition headers_fit : Prop :=
  (2 <= TOTAL_TARGET)%nat
  /\ (19 <= VARIABLE_HOVM_TAB_ROW_SIZE)%nat
  /\ (11 <= VARIABLE_HOVM_TAB_COL_SIZE)%nat
  /\ Forall (fun c => is_const c = true) extern_constants.

(** The bodies of the phases of the project header: what a phase defines
    itself, and what its market chain adds for North America and for the
    other markets. *)
Definition project_bodies : list (Defines * Defines * Defines) :=
  [ (prj_MV_RWD_TCAR, prj_MV_RWD_TCAR_NA, prj_MV_RWD_TCAR_others);
    (prj_MV_RWD_PROTO, prj_MV_RWD_PROTO_NA, prj_MV_RWD_PROTO_others);
    (prj_MV_RWD_MASTER, prj_MV_RWD_MASTER_NA, prj_MV_RWD_MASTER_others);
    (prj_MV_RWD_PILOT_1, prj_MV_RWD_PILOT_1_NA, prj_MV_RWD_PILOT_1_others);
    (prj_MV_RWD_PILOT_2, prj_MV_RWD_PILOT_2_NA, prj_MV_RWD_PILOT_2_others);
    (prj_MV_RWD_M, prj_MV_RWD_M_NA, prj_MV_RWD_M_others);
    (prj_MV_RWD_SOP, prj_MV_RWD_SOP_NA, prj_MV_RWD_SOP_others);
    (prj_MV_RWD_RC, prj_MV_RWD_RC_NA, prj_MV_RWD_RC_others);
    (prj_ME_RWD_TCAR, prj_ME_RWD_TCAR_NA, prj_ME_RWD_TCAR_others);
    (prj_ME_RWD_PROTO, prj_ME_RWD_PROTO_NA, prj_ME_RWD_PROTO_others);
    (prj_ME_RWD_MASTER, prj_ME_RWD_MASTER_NA, prj_ME_RWD_MASTER_others);
    (prj_ME_RWD_PILOT_1, prj_ME_RWD_PILOT_1_NA, prj_ME_RWD_PILOT_1_others);
    (prj_ME_RWD_PILOT_2, prj_ME_RWD_PILOT_2_NA, prj_ME_RWD_PILOT_2_others);
    (prj_ME_RWD_M, prj_ME_RWD_M_NA, prj_ME_RWD_M_others);
    (prj_ME_RWD_SOP, prj_ME_RWD_SOP_NA, prj_ME_RWD_SOP_others);
    (prj_ME_RWD_RC, prj_ME_RWD_RC_NA, prj_ME_RWD_RC_others) ].

(** ** The branches of the chains

    What a selection that went through the chains is made of: each component
    is the content of one branch of its chain. *)
Definition PwmBurst_decls (off on : cval) : list Decl :=
  [ cst_t FLOAT32 "CcCal_PwmOff_MotTqLvl_Max" [off; flt 0 0];
    cst_t FLOAT32 "CcCal_PwmOff_MotTqLvl_Min" [flt 0 0; flt 0 0];
    cst_t FLOAT32 "CcCal_PwmOn_MotTqLvl_Max" [on; flt 0 0];
    cst_t FLOAT32 "CcCal_PwmOn_MotTqLvl_Min" [flt 0 0; flt 0 0];
    cst_t UINT32 "CcCal_PwmOff_WaitTime" [CInt 100; CInt 100] ].

Record Branches (sel : Selected) : Prop := {
  b_gate : In (s_gate sel)
             [ mkGateIc 1 1 0 1 1 0; mkGateIc 3000 3000 3000 3000 3000 3000;
               mkGateIc 3000 3000 0 3000 3000 0; mkGateIc 4000 4000 0 3000 3000 0;
               mkGateIc 3000 3000 2600 3000 3000 0; mkGateIc 300 300 390 300 300 390;
               mkGateIc 3000 3000 390 300 300 390 ];
  b_power : In (s_power sel)
              [ mkPowerModule 2200 2200 2200 2200 2200;
                mkPowerModule 2500 2500 2500 2500 2500;
                mkPowerModule 4000 4000 4000 4000 4000;
                mkPowerModule 2000 2000 4000 2000 2000;
                mkPowerModule 2000 4000 4000 2000 2000;
                mkPowerModule 2000 4000 2000 2000 2000 ];
  b_sensor : In (s_sensor sel)
               [ mkCurSensor (CInt 400); mkCurSensor (CInt 500);
                 mkCurSensor (dbl 5882353 4); mkCurSensor (dbl 3942829 4);
                 mkCurSensor (CInt 700); mkCurSensor (CInt 850); mkCurSensor (CInt 1000);
                 mkCurSensor (CInt 1300); mkCurSensor (CInt 1100); mkCurSensor (CInt 1500);
                 mkCurSensor (dbl 8333333 4); mkCurSensor (dbl 9095043 4);
                 mkCurSensor (dbl 6820567 4) ];
  b_etpu : s_etpu sel = mkEtpu 3800 3000 500 3500 9500 3800 3000 0 3500 9500;
  b_auto : exists flag, In flag [SET_FLAG; CLR_FLAG] /\ s_auto sel = mkAutoMode flag flag;
  b_stage : exists flag, In flag [CLR_FLAG; SET_FLAG]
              /\ s_stage sel = [ cst BOOL "TestCal_RSPWM_Enb" flag ];
  b_sqpwm : exists flag, In flag [CLR_FLAG; SET_FLAG]
              /\ s_sqpwm sel = [ cst_t UINT8 "CcCal_SQPWM_Mode_Regen_Disable" [flag; flag] ];
  b_burst : exists off on, In (off, on) [ (flt 1 0, flt 2 0); (flt 0 0, flt 0 0) ]
              /\ s_burst sel = PwmBurst_decls off on;
  b_dtgs : exists flag, In flag [SET_FLAG; CLR_FLAG]
             /\ s_dtgs sel = [ cst_t UINT8 "CcCal_VarDTGS_Enb" [flag; flag] ]
}.

(** ** Definitions against declarations *)

(** The declaration a definition stands for: the dimensions are those its
    declarator is written with. *)
Definition dimensions (i : Initializer) : list nat :=
  match i with
  | Single _ => []
  | PerTargetInit _ => [TOTAL_TARGET]
  | PerTargetRows cols _ => [TOTAL_TARGET; cols]
  | Rows nrows ncols _ => [nrows; ncols]
  end.

Definition signature (d : Decl) : Extern :=
  mkExtern (d_const d) (d_type d) (d_name d) (dimensions (d_init d)).

(** A binding has the type and the dimensions of a declaration. *)
Definition conforms (x : Extern) (b : Binding) : Prop :=
  match b, x_dims x with
  | Scalar ty _, [] => ty = x_type x
  | PerTarget ty vs, [n] => ty = x_type x /\ List.length vs = n
  | PerTargetTab ty rows, [n; m] | Tab ty rows, [n; m] =>
      ty = x_type x /\ List.length rows = n
      /\ Forall (fun row => List.length row = m) rows
  | _, _ => False
  end.

(** ** Names *)

(** The macros the project header defines under a known project. *)
Definition project_macros : list string :=
  [ "_MI_REF_SETTING"; "_12SMP_COND"; "_RPWM_COND"; "_NO_LOAD_TQ_COMP_COND";
    "_SW_RDC_SETTING"; "_ROC_RPWM_FUNCTION"; "_FSW_FSAMP_FREQ"; "_OEW_FSW_FSAMP_FREQ";
    "_ODC_FSW_FSAMP_FREQ"; "_MULTI_DC_METHOD_"; "_MULTI_NON_LINEAR_COMP";
    "_CUR_MAP_VERSION"; "_MOTOR_TYPE"; "_POWER_CAL_VERSION"; "_DELTA_TRQREF";
    "_TQ_COMP_CAL_VERSION" ].

Definition mentions (l : list string) (n : string) : bool := existsb (String.eqb n) l.

Fixpoint distinct (l : list string) : bool :=
  match l with
  | [] => true
  | n :: l' => negb (mentions l' n) && distinct l'
  end.

(** [l] lists each of the names of [names] once and nothing else. *)
Definition lists_once (names l : list string) : bool :=
  distinct l && forallb (mentions names) l && forallb (mentions l) names.

(** The constants the three source files define, in the order of the
    files. *)
Definition calibration_names : list string :=
  [ "BswCfgCal_Pwm_MotStartTime";
    "BswCfgCal_Pwm_MotPeriod";
    "BswCfgCal_Pwm_MotDeadTime_INV1";
    "BswCfgCal_Pwm_MotDeadTime_INV2";
    "BswCfgCal_Pwm_MotDeadTime_Multi";
    "BswCfgCal_Pwm_MotMinPulseWidth_INV1";
    "BswCfgCal_Pwm_MotMinPulseWidth_INV2";
    "BswCfgCal_Pwm_MotUpdateTime_INV1";
    "BswCfgCal_Pwm_MotUpdateTime_INV2";
    "BswCfgCal_Pwm_MotPwmMode";
    "BswCfgCal_Pwm_MotAsacEdgeOffset";
    "BswCfgCal_Pwm_MotUpdatetime_AutoMode";
    "BswCfgCal_Pwm_MoteTPULoad_SYNC";
    "BswCfgCal_Pwm_MoteTPULoad_RSLV";
    "BswCfgCal_Pwm_MoteTPULoad_PWM";
    "BswCfgCal_Pwm_HsgStartTime";
    "BswCfgCal_Pwm_HsgPeriod";
    "BswCfgCal_Pwm_HsgDeadTime_INV1";
    "BswCfgCal_Pwm_HsgDeadTime_INV2";
    "BswCfgCal_Pwm_HsgMinPulseWidth_INV1";
    "BswCfgCal_Pwm_HsgMinPulseWidth_INV2";
    "BswCfgCal_Pwm_HsgUpdateTime_INV1";
    "BswCfgCal_Pwm_HsgUpdateTime_INV2";
    "BswCfgCal_Pwm_HsgPwmMode";
    "BswCfgCal_Pwm_HsgAsacEdgeOffset";
    "BswCfgCal_Pwm_HsgUpdatetime_AutoMode";
    "BswCfgCal_Pwm_HsgeTPULoad_SYNC";
    "BswCfgCal_Pwm_HsgeTPULoad_RSLV";
    "BswCfgCal_Pwm_HsgeTPULoad_PWM";
    "BswCfgVal_Pwm_MotUpdateTime_INV1";
    "BswCfgVal_Pwm_MotUpdateTime_INV2";
    "BswCfgVal_Pwm_HsgUpdateTime_INV1";
    "BswCfgVal_Pwm_HsgUpdateTime_INV2";
    "BswCfgCal_Rdc_MotPeriod";
    "BswCfgCal_Rdc_MotStartOffset";
    "BswCfgCal_Rdc_MotK1";
    "BswCfgCal_Rdc_MotK2";
    "BswCfgCal_Rdc_MotK1Scale";
    "BswCfgCal_Rdc_MotK2Scale";
    "BswCfgCal_Rdc_MotSinDcOffset";
    "BswCfgCal_Rdc_MotCosDcOffset";
    "BswCfgCal_Rdc_MotSinScale";
    "BswCfgCal_Rdc_MotCosScale";
    "BswCfgCal_Rdc_MotUnitrigDelay";
    "BswCfgCal_Rdc_MotUnitrigStartOffset";
    "BswCfgCal_Rdc_HsgPeriod";
    "BswCfgCal_Rdc_HsgStartOffset";
    "BswCfgCal_Rdc_HsgK1";
    "BswCfgCal_Rdc_HsgK2";
    "BswCfgCal_Rdc_HsgK1Scale";
    "BswCfgCal_Rdc_HsgK2Scale";
    "BswCfgCal_Rdc_HsgSinDcOffset";
    "BswCfgCal_Rdc_HsgCosDcOffset";
    "BswCfgCal_Rdc_HsgSinScale";
    "BswCfgCal_Rdc_HsgCosScale";
    "BswCfgCal_Rdc_HsgUnitrigDelay";
    "BswCfgCal_Rdc_HsgUnitrigStartOffset";
    "BswCfgCal_Rsv_DefaultOffset";
    "BswCfgCal_Rsv_RotDir";
    "TestCal_RSPWM_Enb";
    "TestCal_VnCtrl_Enb";
    "CcCal_SQPWM_Mode_Regen_Disable";
    "CcCal_Motor_frated";
    "CcCal_SWRDC_GainUpdateCal";
    "CcCal_SWRDC_GainUpdate_K1D";
    "CcCal_SWRDC_GainUpdate_K1SCALE";
    "CcCal_SWRDC_GainUpdate_K2D";
    "CcCal_SWRDC_GainUpdate_K2SCALE";
    "CcCal_SWRDC_GainUpdate_NaturalFreq";
    "CcCal_SWRDC_GainUpdate_DampFac";
    "CcCal_ToggleEnb";
    "CcCal_Fsamp_High_Limit";
    "CcCal_Motor_Ld";
    "CcCal_Motor_Lq";
    "CcCal_Motor_Llk";
    "CcCal_DaxisCurCtrlBW";
    "CcCal_QaxisCurCtrlBW";
    "CcCal_NaxisCurCtrlBW";
    "CcCal_PaxisCurCtrlBW";
    "CcCal_SWRDC_Speed_Override";
    "L1";
    "L2";
    "L3";
    "CcCal_Cur_lag";
    "FSW_TAB";
    "HSG_VAR_HOVMGAIN_TAB";
    "MAGINJ_TAB";
    "CcCal_BETC_SetFlag";
    "CcCal_BETC_CoeffLAMpm_Tmp";
    "CcCal_BETC_LAMpmAt90MAP";
    "CcCal_BETC_EndCnt";
    "CcCal_BETC_DeltaTmpComp_Lmt";
    "CcCal_DeadTimeCompEnb";
    "CcCal_DeadTimeComp_INVIcompZCC_INV1";
    "CcCal_DeadTimeComp_INVIcompZCC_INV2";
    "CcCal_DeadTimeComp_TdeadComp_INV1";
    "CcCal_DeadTimeComp_TdeadComp_INV2";
    "CcCal_DeadTimeComp_IcompZCC_INV1";
    "CcCal_DeadTimeComp_IcompZCC_INV2";
    "CcCal_CurA_InitialOffset";
    "CcCal_CurB_InitialOffset";
    "CcCal_CurC_InitialOffset";
    "CcCal_Cur_ScaleFactor";
    "CcCal_HvBatt_InitialOffset";
    "CcCal_HvBatt_ScaleFactor";
    "CcCal_OffsetValidityChk_ZeroCurOverride";
    "CcCal_LvAdToPhyOffset";
    "CcCal_LvAdToPhySclFct";
    "CcCal_PwmOff_MotTqLvl_Max";
    "CcCal_PwmOff_MotTqLvl_Min";
    "CcCal_PwmOn_MotTqLvl_Max";
    "CcCal_PwmOn_MotTqLvl_Min";
    "CcCal_PwmOff_WaitTime";
    "CcCal_VarDTGS_Enb";
    "CcCal_VarDTGS_MotTqLvl1_Max_HysIn";
    "CcCal_VarDTGS_MotTqLvl1_Min_HysIn";
    "CcCal_VarDTGS_MotSpdLvl1_Max_HysIn";
    "CcCal_VarDTGS_MotSpdLvl1_Min_HysIn";
    "CcCal_VarDTGS_MotTqLvl1_Max_HysOut";
    "CcCal_VarDTGS_MotTqLvl1_Min_HysOut";
    "CcCal_VarDTGS_MotSpdLvl1_Max_HysOut";
    "CcCal_VarDTGS_MotSpdLvl1_Min_HysOut";
    "CcCal_VarDTGS_MotTqLvl2_Max_HysIn";
    "CcCal_VarDTGS_MotTqLvl2_Min_HysIn";
    "CcCal_VarDTGS_MotSpdLvl2_Max_HysIn";
    "CcCal_VarDTGS_MotSpdLvl2_Min_HysIn";
    "CcCal_VarDTGS_MotTqLvl2_Max_HysOut";
    "CcCal_VarDTGS_MotTqLvl2_Min_HysOut";
    "CcCal_VarDTGS_MotSpdLvl2_Max_HysOut";
    "CcCal_VarDTGS_MotSpdLvl2_Min_HysOut";
    "CcCal_VarDTGS_MotTqLvl3_Max_HysIn";
    "CcCal_VarDTGS_MotTqLvl3_Min_HysIn";
    "CcCal_VarDTGS_MotSpdLvl3_Max_HysIn";
    "CcCal_VarDTGS_MotSpdLvl3_Min_HysIn";
    "CcCal_VarDTGS_MotTqLvl3_Max_HysOut";
    "CcCal_VarDTGS_MotTqLvl3_Min_HysOut";
    "CcCal_VarDTGS_MotSpdLvl3_Max_HysOut";
    "CcCal_VarDTGS_MotSpdLvl3_Min_HysOut" ].

(** ** What a switch selects *)

(** The constants whose initialisers differ between the branches of the chain
    of a switch.  (The branches of the eTPU chain are the same, and the
    project header defines macros, not constants.) *)
Definition bindings_of_switch (a : Axis) : list string :=
  match a with
  | GATE_IC_TYPE =>
      [ "BswCfgCal_Pwm_MotMinPulseWidth_INV1"; "BswCfgCal_Pwm_MotMinPulseWidth_INV2";
        "BswCfgCal_Pwm_MotAsacEdgeOffset";
        "BswCfgCal_Pwm_HsgMinPulseWidth_INV1"; "BswCfgCal_Pwm_HsgMinPulseWidth_INV2";
        "BswCfgCal_Pwm_HsgAsacEdgeOffset" ]
  | POWER_MODULE_TYPE =>
      [ "BswCfgCal_Pwm_MotDeadTime_INV1"; "BswCfgCal_Pwm_MotDeadTime_INV2";
        "BswCfgCal_Pwm_MotDeadTime_Multi";
        "BswCfgCal_Pwm_HsgDeadTime_INV1"; "BswCfgCal_Pwm_HsgDeadTime_INV2";
        "CcCal_DeadTimeComp_TdeadComp_INV1"; "CcCal_DeadTimeComp_TdeadComp_INV2" ]
  | MOT_CUR_SENSOR_TYPE =>
      [ "CcCal_DeadTimeComp_INVIcompZCC_INV1"; "CcCal_DeadTimeComp_INVIcompZCC_INV2";
        "CcCal_DeadTimeComp_IcompZCC_INV1"; "CcCal_DeadTimeComp_IcompZCC_INV2";
        "CcCal_Cur_ScaleFactor" ]
  | PWM_UPDATETIME_AUTO_MODE =>
      [ "BswCfgCal_Pwm_MotUpdatetime_AutoMode"; "BswCfgCal_Pwm_HsgUpdatetime_AutoMode" ]
  | SA_2STAGE_PWM_MODE => [ "TestCal_RSPWM_Enb" ]
  | SA_SQPWM_REGEN_DIS => [ "CcCal_SQPWM_Mode_Regen_Disable" ]
  | PWM_BURST_MODE => [ "CcCal_PwmOff_MotTqLvl_Max"; "CcCal_PwmOn_MotTqLvl_Max" ]
  | VAR_DTGS_OPTION => [ "CcCal_VarDTGS_Enb" ]
  | _ => []
  end.

(** Two declarations of one name that are the same unless the name is
    among [names]. *)
Definition same_outside (names : list string) (d1 d2 : Decl) : Prop :=
  d_name d1 = d_name d2 /\ (~ In (d_name d1) names -> d1 = d2).

(** ** The constants of the PWM by inverter and target *)

Definition update_time_binding (inv : Inverter) (t : Target) : string :=
  match inv, t with
  | INV1, MOT => "BswCfgCal_Pwm_MotUpdateTime_INV1"
  | INV2, MOT => "BswCfgCal_Pwm_MotUpdateTime_INV2"
  | INV1, HSG => "BswCfgCal_Pwm_HsgUpdateTime_INV1"
  | INV2, HSG => "BswCfgCal_Pwm_HsgUpdateTime_INV2"
  end.

(** The variables beside them, declared without [const]. *)
Definition update_time_variable (inv : Inverter) (t : Target) : string :=
  match inv, t with
  | INV1, MOT => "BswCfgVal_Pwm_MotUpdateTime_INV1"
  | INV2, MOT => "BswCfgVal_Pwm_MotUpdateTime_INV2"
  | INV1, HSG => "BswCfgVal_Pwm_HsgUpdateTime_INV1"
  | INV2, HSG => "BswCfgVal_Pwm_HsgUpdateTime_INV2"
  end.

Definition BSWCFGPWM_UPDATE_TIME (e : EtpuCfg) (inv : Inverter) : Target -> Z :=
  match inv with
  | INV1 => per_target (BSWCFGPWM_MOT_INV1_UPDATE_TIME e) (BSWCFGPWM_HSG_INV1_UPDATE_TIME e)
  | INV2 => per_target (BSWCFGPWM_MOT_INV2_UPDATE_TIME e) (BSWCFGPWM_HSG_INV2_UPDATE_TIME e)
  end.

Definition min_width_binding (inv : Inverter) (t : Target) : string :=
  match inv, t with
  | INV1, MOT => "BswCfgCal_Pwm_MotMinPulseWidth_INV1"
  | INV2, MOT => "BswCfgCal_Pwm_MotMinPulseWidth_INV2"
  | INV1, HSG => "BswCfgCal_Pwm_HsgMinPulseWidth_INV1"
  | INV2, HSG => "BswCfgCal_Pwm_HsgMinPulseWidth_INV2"
  end.

Definition BSWCFGPWM_MIN_WIDTH (g : GateIcCfg) (inv : Inverter) : Target -> Z :=
  match inv with
  | INV1 => per_target (BSWCFGPWM_MOT_INV1_MIN_WIDTH g) (BSWCFGPWM_HSG_INV1_MIN_WIDTH g)
  | INV2 => per_target (BSWCFGPWM_MOT_INV2_MIN_WIDTH g) (BSWCFGPWM_HSG_INV2_MIN_WIDTH g)
  end.

Definition edge_offset_binding : Target -> string :=
  per_target "BswCfgCal_Pwm_MotAsacEdgeOffset" "BswCfgCal_Pwm_HsgAsacEdgeOffset".

Definition BSWCFGPWM_ASAC_EDGE_OFFSET (g : GateIcCfg) : Target -> Z :=
  per_target (BSWCFGPWM_MOT_ASAC_EDGE_OFFSET g) (BSWCFGPWM_HSG_ASAC_EDGE_OFFSET g).

Definition start_time_binding : Target -> string :=
  per_target "BswCfgCal_Pwm_MotStartTime" "BswCfgCal_Pwm_HsgStartTime".

Definition period_binding : Target -> string :=
  per_target "BswCfgCal_Pwm_MotPeriod" "BswCfgCal_Pwm_HsgPeriod".

Definition BSWCFGPWM_START : Target -> Z :=
  per_target BSWCFGPWM_MOT_START BSWCFGPWM_HSG_START.

Definition BSWCFGPWM_PERIOD : Target -> Z :=
  per_target BSWCFGPWM_MOT_PERIOD BSWCFGPWM_HSG_PERIOD.

(** ** The thresholds of the variable dead-time gain scheduling

    [CcCal_VarDTGS_Mot<quantity>Lvl<level>_<bound>_Hys<side>]: for a torque
    or a speed, at one of three levels, the upper or the lower bound of the
    band that is entered ([HysIn]) or left ([HysOut]). *)
Inductive Quantity := Tq | Spd.
Inductive Level := Lvl1 | Lvl2 | Lvl3.
Inductive Bound := Max | Min.
Inductive Side := HysIn | HysOut.

Definition VarDTGS_binding (q : Quantity) (l : Level) (b : Bound) (s : Side) : string :=
  String.append "CcCal_VarDTGS_Mot"
    (String.append (match q with Tq => "Tq" | Spd => "Spd" end)
       (String.append (match l with Lvl1 => "Lvl1" | Lvl2 => "Lvl2" | Lvl3 => "Lvl3" end)
          (String.append (match b with Max => "_Max" | Min => "_Min" end)
             (match s with HysIn => "_HysIn" | HysOut => "_HysOut" end)))).

(** The initialisers of the thresholds: only the first level of the motor
    is set. *)
Definition VarDTGS_threshold (q : Quantity) (l : Level) (b : Bound) (s : Side)
  (t : Target) : cval :=
  match t, l with
  | MOT, Lvl1 =>
      match q, b, s with
      | Tq, Max, HysIn => flt 80 0
      | Tq, Min, HysIn => neg (flt 45 0)
      | Spd, Max, HysIn => flt 8200 0
      | Spd, Min, HysIn => flt 866 0
      | Tq, Max, HysOut => flt 88 0
      | Tq, Min, HysOut => neg (flt 50 0)
      | Spd, Max, HysOut => flt 8500 0
      | Spd, Min, HysOut => flt 709 0
      end
  | _, _ => flt 0 0
  end.

(** The torque thresholds of the PWM burst mode: PWM is switched off below
    [CcCal_PwmOff_MotTqLvl_*] and on again above [CcCal_PwmOn_MotTqLvl_*]. *)
Inductive Switching := PwmOff | PwmOn.

Definition burst_binding (w : Switching) (b : Bound) : string :=
  match w, b with
  | PwmOff, Max => "CcCal_PwmOff_MotTqLvl_Max"
  | PwmOff, Min => "CcCal_PwmOff_MotTqLvl_Min"
  | PwmOn, Max => "CcCal_PwmOn_MotTqLvl_Max"
  | PwmOn, Min => "CcCal_PwmOn_MotTqLvl_Min"
  end.

(** The thresholds under the initialisers [off] and [on] a branch of the
    burst chain gives the upper thresholds of the motor. *)
Definition burst_threshold (off on : cval) (w : Switching) (b : Bound) (t : Target) : cval :=
  match t, b, w with
  | MOT, Max, PwmOff => off
  | MOT, Max, PwmOn => on
  | _, _, _ => flt 0 0
  end.

End Vocabulary.

(** ** A reference configuration

    One assignment of the absent macros, used to run the model: the sentinel
    is 0 and the enumerators of each switch count from 1.  The theorems below
    hold for every assignment; this one instantiates them. *)

Module Reference.

#[export] Instance codes : OptionCodes := {|
  _UNDEFINED_OPTION := 0;
  _GATE_IC_TYPE_1 := 1;
  _GATE_IC_TYPE_2 := 2;
  _GATE_IC_TYPE_3 := 3;
  _GATE_IC_TYPE_4 := 4;
  _GATE_IC_TYPE_5 := 5;
  _GATE_IC_TYPE_6 := 6;
  _GATE_IC_TYPE_7 := 7;
  _GATE_IC_TYPE_8_NV74_TCAR := 8;
  _PM_CASE_TYPE := 1;
  _PM_DSC_TYPE_1 := 2;
  _PM_DSC_TYPE_2 := 3;
  _PM_HP_DRIVE_TYPE := 4;
  _PM_CVeGT_TYPE := 5;
  _PM_NV74_TYPE := 6;
  _PM_MV_TYPE := 7;
  _MOT_400A_SCALE_HALL := 1;
  _MOT_400A_SCALE_SHUNT_TYPE1 := 2;
  _MOT_500A_SCALE_SHUNT_TYPE1 := 3;
  _MOT_600A_SCALE_SHUNT_TYPE1 := 4;
  _MOT_400A_SCALE_SHUNT_TYPE2 := 5;
  _MOT_500A_SCALE_HALL := 6;
  _MOT_700A_SCALE_HALL := 7;
  _MOT_700A_SCALE_SHUNT_0 := 8;
  _MOT_850A_SCALE_HALL := 9;
  _MOT_850A_SCALE_HALL_FOR_HPV := 10;
  _MOT_1000A_SCALE_HALL := 11;
  _MOT_1300A_SCALE_HALL := 12;
  _MOT_1100A_SCALE_HALL := 13;
  _MOT_1500A_SCALE_HALL := 14;
  _MOT_700A_SCALE_CORELESS := 15;
  _MOT_700A_SCALE_CORELESS_TYPE2 := 16;
  _MOT_650A_SCALE_CORELESS_TYPE := 17;
  _SINGLE_STAGE_SYSTEM := 1;
  _TWO_STAGE_SYSTEM := 2;
  _UPDATETIME_AUTO := 1;
  _UPDATETIME_MANUAL := 2;
  _2STG_SVPWM := 1;
  _2STG_RSPWM := 2;
  _SQPWM_REGEN_ENB := 1;
  _SQPWM_REGEN_DIS := 2;
  _BURST_MODE_ENABLE := 1;
  _BURST_MODE_DISABLE := 2;
  _VAR_DTGS_OPTION_INCLUDED := 1;
  _VAR_DTGS_OPTION_NOT_INCLUDED := 2;
  _MV_RWD_PROJ := 1;
  _ME_RWD_PROJ := 2;
  _STANDARD_VERSION := 1;
  _PERFORMANCE_VERSION := 2;
  _LONG_RANGE_VERSION := 3;
  _eM_160kW_VERSION := 4;
  _eM_200kW_VERSION := 5;
  _eM_250kW_VERSION := 6;
  _TCAR_VERSION := 1;
  _PROTO_VERSION := 2;
  _MASTER_VERSION := 3;
  _PILOT_1_VERSION := 4;
  _PILOT_2_VERSION := 5;
  _M_VERSION := 6;
  _SOP_VERSION := 7;
  _RC_VERSION := 8;
  _NORTH_AMERICA_VERSION := 1;
  _DOMESTIC_VERSION := 2;
  _EUROPE_VERSION := 3;
  _CHINA_VERSION := 4;
  _COMMON_COUNTRY_VERSION := 5;
  _JAPAN_VERSION := 6
|}.

#[export] Instance ext : ExternMacros := {|
  TOTAL_TARGET := 2;
  VARIABLE_HOVM_TAB_ROW_SIZE := 19;
  VARIABLE_HOVM_TAB_COL_SIZE := 11;
  SET_FLAG := CInt 1;
  CLR_FLAG := CInt 0;
  PI := flt 3141593 6;
  ITRCPX_SAMPLMODE_DOUBLE := CInt 1;
  DEFAULT_OFFSET_MOT := flt 0 0;
  DEFAULT_OFFSET_HSG := flt 0 0;
  RESOLVER_DIRECTION_MOT := CInt 1;
  RESOLVER_DIRECTION_HSG := CInt 2;
  CUR_SENSOR_RANGE_HSG := CInt 400;
  HVBATT_SENSOR_RANGE := dbl 1000 0;
  HVBATT_SENSOR_RANGE_TYP := dbl 1000 0;
  LVBATT_SENSOR_RANGE := dbl 20 0;
  LVBATT_SENSOR_RANGE_OFFSET := dbl 0 0;
  LVBATT_SENSOR_RANGE_TYP := dbl 20 0;
  BSWCFGRDC_MOT_UNITRIG_DELAY := CInt 0;
  BSWCFGRDC_HSG_UNITRIG_DELAY := CInt 0
|}.

(** A context by its project name, gate IC, power module and current sensor:
    standard performance, T-car phase, domestic market, and the first option
    of every other switch. *)
Definition context (prj gate pm sensor : option Z) : ResolutionContext := {|
  _PROJECT_NAME := prj;
  _PERFORMANCE_TYPE := Some 1;
  _DEVELOPMENT_PHASE := Some 1;
  _MARKET_VERSION := Some 2;
  _GATE_IC_TYPE := gate;
  _POWER_MODULE_TYPE := pm;
  _MOT_CUR_SENSOR_TYPE := sensor;
  _ETPU_CALCULATION_TIME_OPTION := Some 1;
  _PWM_UPDATETIME_AUTO_MODE := Some 1;
  _SA_2STAGE_PWM_MODE := Some 1;
  _SA_SQPWM_REGEN_DIS := Some 1;
  _PWM_BURST_MODE := Some 1;
  _VAR_DTGS_OPTION := Some 1
|}.

(** The MV rear-wheel-drive project with gate IC 7, the case-type power
    module and the 400 A Hall sensor. *)
Definition ctx : ResolutionContext := context (Some 1) (Some 7) (Some 1) (Some 1).

(** The same build for a project name no guard knows, with the performance
    type, the phase and the market left unset. *)
Definition ctx_unknown_project : ResolutionContext := {|
  _PROJECT_NAME := Some 99;
  _PERFORMANCE_TYPE := None;
  _DEVELOPMENT_PHASE := None;
  _MARKET_VERSION := None;
  _GATE_IC_TYPE := Some 7;
  _POWER_MODULE_TYPE := Some 1;
  _MOT_CUR_SENSOR_TYPE := Some 1;
  _ETPU_CALCULATION_TIME_OPTION := Some 1;
  _PWM_UPDATETIME_AUTO_MODE := Some 1;
  _SA_2STAGE_PWM_MODE := Some 1;
  _SA_SQPWM_REGEN_DIS := Some 1;
  _PWM_BURST_MODE := Some 1;
  _VAR_DTGS_OPTION := Some 1
|}.

(** The reference build without a project name and with the project name 0,
    with an unknown gate IC, without a power module, and with the 1100 A Hall
    sensor. *)
Definition ctx_no_project : ResolutionContext :=
  context None (Some 7) (Some 1) (Some 1).
Definition ctx_project_0 : ResolutionContext :=
  context (Some 0) (Some 7) (Some 1) (Some 1).
Definition ctx_unknown_gate : ResolutionContext :=
  context (Some 1) (Some 99) (Some 1) (Some 1).
Definition ctx_no_power_module : ResolutionContext :=
  context (Some 1) (Some 7) None (Some 1).
Definition ctx_1100A : ResolutionContext :=
  context (Some 1) (Some 7) (Some 1) (Some 13).

(** The table the reference context resolves to. *)
Definition resolved : Resolved :=
  Eval vm_compute in
    match resolve ctx with
    | Ok r => r
    | Failed _ => mkResolved [] []
    end.

(** The reference build with gate IC 1, for the North American market, and
    for the ME project in its prototype phase for North America. *)
Definition ctx_gate_1 : ResolutionContext :=
  context (Some 1) (Some 1) (Some 1) (Some 1).

Definition ctx_north_america : ResolutionContext := {|
  _PROJECT_NAME := Some 1;
  _PERFORMANCE_TYPE := Some 1;
  _DEVELOPMENT_PHASE := Some 1;
  _MARKET_VERSION := Some 1;
  _GATE_IC_TYPE := Some 7;
  _POWER_MODULE_TYPE := Some 1;
  _MOT_CUR_SENSOR_TYPE := Some 1;
  _ETPU_CALCULATION_TIME_OPTION := Some 1;
  _PWM_UPDATETIME_AUTO_MODE := Some 1;
  _SA_2STAGE_PWM_MODE := Some 1;
  _SA_SQPWM_REGEN_DIS := Some 1;
  _PWM_BURST_MODE := Some 1;
  _VAR_DTGS_OPTION := Some 1
|}.

Definition ctx_ME_PROTO : ResolutionContext := {|
  _PROJECT_NAME := Some 2;
  _PERFORMANCE_TYPE := Some 1;
  _DEVELOPMENT_PHASE := Some 2;
  _MARKET_VERSION := Some 1;
  _GATE_IC_TYPE := Some 7;
  _POWER_MODULE_TYPE := Some 1;
  _MOT_CUR_SENSOR_TYPE := Some 1;
  _ETPU_CALCULATION_TIME_OPTION := Some 1;
  _PWM_UPDATETIME_AUTO_MODE := Some 1;
  _SA_2STAGE_PWM_MODE := Some 1;
  _SA_SQPWM_REGEN_DIS := Some 1;
  _PWM_BURST_MODE := Some 1;
  _VAR_DTGS_OPTION := Some 1
|}.

Definition resolved_gate_1 : Resolved :=
  Eval vm_compute in
    match resolve ctx_gate_1 with
    | Ok r => r
    | Failed _ => mkResolved [] []
    end.

Definition resolved_north_america : Resolved :=
  Eval vm_compute in
    match resolve ctx_north_america with
    | Ok r => r
    | Failed _ => mkResolved [] []
    end.

Definition resolved_ME_PROTO : Resolved :=
  Eval vm_compute in
    match resolve ctx_ME_PROTO with
    | Ok r => r
    | Failed _ => mkResolved [] []
    end.

(** The macros of the reference configuration with a third target. *)
Definition three_targets : ExternMacros := {|
  TOTAL_TARGET := 3;
  VARIABLE_HOVM_TAB_ROW_SIZE := 19;
  VARIABLE_HOVM_TAB_COL_SIZE := 11;
  SET_FLAG := CInt 1;
  CLR_FLAG := CInt 0;
  PI := flt 3141593 6;
  ITRCPX_SAMPLMODE_DOUBLE := CInt 1;
  DEFAULT_OFFSET_MOT := flt 0 0;
  DEFAULT_OFFSET_HSG := flt 0 0;
  RESOLVER_DIRECTION_MOT := CInt 1;
  RESOLVER_DIRECTION_HSG := CInt 2;
  CUR_SENSOR_RANGE_HSG := CInt 400;
  HVBATT_SENSOR_RANGE := dbl 1000 0;
  HVBATT_SENSOR_RANGE_TYP := dbl 1000 0;
  LVBATT_SENSOR_RANGE := dbl 20 0;
  LVBATT_SENSOR_RANGE_OFFSET := dbl 0 0;
  LVBATT_SENSOR_RANGE_TYP := dbl 20 0;
  BSWCFGRDC_MOT_UNITRIG_DELAY := CInt 0;
  BSWCFGRDC_HSG_UNITRIG_DELAY := CInt 0
|}.

Definition resolved_three_targets : Resolved :=
  Eval vm_compute in
    match @resolve codes three_targets ctx with
    | Ok r => r
    | Failed _ => mkResolved [] []
    end.

End Reference.

(** * Properties *)

(** ** Results *)

Lemma both_Ok_inv {A B} (ra : result A) (rb : result B) (p : A * B) :
  ra <&> rb = Ok p -> ra = Ok (fst p) /\ rb = Ok (snd p).
Proof.
  destruct ra, rb; simpl; intros H; inversion H; subst; auto.
Qed.

Lemma errors_both {A B} (ra : result A) (rb : result B) :
  errors (ra <&> rb) = errors ra ++ errors rb.
Proof.
  destruct ra, rb; reflexivity.
Qed.

Lemma errors_rmap {A B} (f : A -> B) (r : result A) :
  errors (rmap f r) = errors r.
Proof.
  destruct r; reflexivity.
Qed.

Lemma rmap_Ok_inv {A B} (f : A -> B) (r : result A) (b : B) :
  rmap f r = Ok b -> exists a, r = Ok a /\ b = f a.
Proof.
  destruct r; simpl; intros H; inversion H; eauto.
Qed.

(** ** Decimal constants *)

(** The powers of ten of the constants are exact: up to 10^9 in binary32 and
    up to 10^8 in binary64 (the constants of the tables need no more). *)
Lemma powers_of_ten_are_exact :
  Forall (fun k => (SF2Q (f32_of_Z (10 ^ k)) == inject_Z (10 ^ k))%Q)
         [0; 1; 2; 3; 4; 5; 6; 7; 8; 9]
  /\ Forall (fun k => (SF2Q (f64_of_Z (10 ^ k)) == inject_Z (10 ^ k))%Q)
            [0; 1; 2; 3; 4; 5; 6; 7; 8].
Proof.
  split; repeat (apply Forall_cons; [vm_compute; reflexivity|]); apply Forall_nil.
Qed.

(** ** Arrays *)

Lemma pad_length {A} (n : nat) (zero : A) (l : list A) :
  List.length (pad n zero l) = n.
Proof.
  unfold pad.
  rewrite length_app, length_firstn, repeat_length.
  lia.
Qed.

Lemma pad_nth_error {A} (n : nat) (zero : A) (l : list A) (i : nat) :
  (List.length l <= n)%nat -> (i < List.length l)%nat ->
  nth_error (pad n zero l) i = nth_error l i.
Proof.
  intros Hn Hi. unfold pad.
  rewrite firstn_all2 by exact Hn.
  apply nth_error_app1. exact Hi.
Qed.

Lemma excess_false {A} (n : nat) (l : list A) :
  excess n l = false -> (List.length l <= n)%nat.
Proof.
  unfold excess. intros H. apply Nat.ltb_ge in H. exact H.
Qed.

Section Tables.

Context {ext : ExternMacros}.

(** ** Tables *)

Lemma lookup_bind (name : string) (ds : list Decl) :
  lookup name (map bind ds) = option_map binding_of (find_decl name ds).
Proof.
  induction ds as [|d ds IH]; simpl; [reflexivity|].
  destruct (String.eqb name (d_name d)); simpl; auto.
Qed.

Lemma eval_decls_Ok (ds : list Decl) (t : Table) :
  eval_decls ds = Ok t ->
  t = map bind ds /\ Forall (fun d => check_decl d = []) ds.
Proof.
  revert t. induction ds as [|d ds IH]; simpl; intros t H.
  - inversion H. split; [reflexivity | constructor].
  - apply rmap_Ok_inv in H as [[b t'] [H ->]].
    apply both_Ok_inv in H as [Hd Hds]. simpl in *.
    unfold eval_decl in Hd.
    destruct (check_decl d) eqn:E; [|discriminate].
    inversion Hd; subst b.
    destruct (IH _ Hds) as [-> HF].
    split; [reflexivity | constructor; assumption].
Qed.

Lemma scalar_bind (name : string) (ds : list Decl) (c : bool) (ty : ctype) (e : cval) :
  find_decl name ds = Some (mkDecl c ty name (Single e)) ->
  scalar name (map bind ds) = Some (convert ty e).
Proof.
  intros H. unfold scalar. rewrite lookup_bind, H. reflexivity.
Qed.

Lemma entry_bind (name : string) (ds : list Decl) (c : bool) (ty : ctype)
  (mot hsg : cval) (t : Target) :
  (2 <= TOTAL_TARGET)%nat ->
  find_decl name ds = Some (mkDecl c ty name (PerTargetInit [mot; hsg])) ->
  entry name t (map bind ds) = Some (convert ty (per_target mot hsg t)).
Proof.
  intros Hn H. unfold entry. rewrite lookup_bind, H. simpl.
  unfold init_array. rewrite pad_nth_error.
  - destruct t; reflexivity.
  - simpl. exact Hn.
  - destruct t; simpl; lia.
Qed.

(** Every array over the targets has [TOTAL_TARGET] elements. *)
Lemma per_target_length (ds : list Decl) (n : string) (ty : ctype) (vs : list value) :
  In (n, PerTarget ty vs) (map bind ds) -> List.length vs = TOTAL_TARGET.
Proof.
  intros H. apply in_map_iff in H as [d [Hd _]].
  unfold bind, binding_of in Hd.
  destruct (d_init d); inversion Hd; subst.
  unfold init_array. apply pad_length.
Qed.

Lemma per_target_tab_length (ds : list Decl) (n : string) (ty : ctype)
  (rows : list (list value)) :
  In (n, PerTargetTab ty rows) (map bind ds) -> List.length rows = TOTAL_TARGET.
Proof.
  intros H. apply in_map_iff in H as [d [Hd _]].
  unfold bind, binding_of in Hd.
  destruct (d_init d); inversion Hd; subst.
  unfold init_rows. apply pad_length.
Qed.

End Tables.

Section Theory.

Context {codes : OptionCodes} {ext : ExternMacros}.

(** ** Inversion of a successful resolution *)

Lemma preprocess_Ok_inv (ctx : ResolutionContext) (sel : Selected) :
  preprocess ctx = Ok sel ->
  sel_PROJECT_NAME ctx = Ok (s_project sel)
  /\ sel_GATE_IC_TYPE ctx = Ok (s_gate sel)
  /\ sel_POWER_MODULE_TYPE ctx = Ok (s_power sel)
  /\ sel_MOT_CUR_SENSOR_TYPE ctx = Ok (s_sensor sel)
  /\ sel_ETPU_CALCULATION_TIME_OPTION ctx = Ok (s_etpu sel)
  /\ sel_PWM_UPDATETIME_AUTO_MODE ctx = Ok (s_auto sel)
  /\ sel_SA_2STAGE_PWM_MODE ctx = Ok (s_stage sel)
  /\ sel_SA_SQPWM_REGEN_DIS ctx = Ok (s_sqpwm sel)
  /\ sel_PWM_BURST_MODE ctx = Ok (s_burst sel)
  /\ sel_VAR_DTGS_OPTION ctx = Ok (s_dtgs sel).
Proof.
  unfold preprocess. intros H.
  apply rmap_Ok_inv in H as [p [H ->]].
  destruct p as [[[[[[[[[prj g] pm] s] e] a] st] sq] bu] dt].
  do 9 (apply both_Ok_inv in H as [H ?]).
  cbn [fst snd] in *. cbn [s_project s_gate s_power s_sensor s_etpu s_auto s_stage
                           s_sqpwm s_burst s_dtgs].
  tauto.
Qed.

Lemma resolve_Ok_inv (ctx : ResolutionContext) (r : Resolved) :
  resolve ctx = Ok r ->
  exists sel, preprocess ctx = Ok sel
    /\ project r = s_project sel
    /\ calibration r = map bind (declarations sel)
    /\ Forall (fun d => check_decl d = []) (declarations sel).
Proof.
  unfold resolve, rbind. intros H.
  destruct (preprocess ctx) as [sel|es]; [|discriminate].
  apply rmap_Ok_inv in H as [t [H ->]].
  apply eval_decls_Ok in H as [-> HF].
  exists sel. auto.
Qed.

(** A build that went through found room for both initialisers of the
    per-target arrays. *)
Lemma declarations_fit (sel : Selected) :
  Forall (fun d => check_decl d = []) (declarations sel) -> (2 <= TOTAL_TARGET)%nat.
Proof.
  intros HF. rewrite Forall_forall in HF.
  specialize (HF (cst_t FLOAT32 "BswCfgCal_Rsv_DefaultOffset"
                        [DEFAULT_OFFSET_MOT; DEFAULT_OFFSET_HSG])).
  assert (Hin : In (cst_t FLOAT32 "BswCfgCal_Rsv_DefaultOffset"
                          [DEFAULT_OFFSET_MOT; DEFAULT_OFFSET_HSG]) (declarations sel)).
  { unfold declarations. apply in_or_app; right. apply in_or_app; right.
    unfold CcCalBase_c. apply in_or_app; left. left; reflexivity. }
  specialize (HF Hin). unfold check_decl in HF. simpl in HF.
  apply app_eq_nil in HF as [_ HF].
  destruct (excess TOTAL_TARGET [DEFAULT_OFFSET_MOT; DEFAULT_OFFSET_HSG]) eqn:E;
    [discriminate|].
  apply excess_false in E. exact E.
Qed.

(** ** Diagnostics *)

Lemma preprocess_reports (ctx : ResolutionContext) (e : ConfigError) :
  In e (errors (sel_PROJECT_NAME ctx))
  \/ In e (errors (sel_GATE_IC_TYPE ctx))
  \/ In e (errors (sel_POWER_MODULE_TYPE ctx))
  \/ In e (errors (sel_MOT_CUR_SENSOR_TYPE ctx))
  \/ In e (errors (sel_ETPU_CALCULATION_TIME_OPTION ctx))
  \/ In e (errors (sel_PWM_UPDATETIME_AUTO_MODE ctx))
  \/ In e (errors (sel_SA_2STAGE_PWM_MODE ctx))
  \/ In e (errors (sel_SA_SQPWM_REGEN_DIS ctx))
  \/ In e (errors (sel_PWM_BURST_MODE ctx))
  \/ In e (errors (sel_VAR_DTGS_OPTION ctx)) ->
  In e (errors (preprocess ctx)).
Proof.
  unfold preprocess. rewrite errors_rmap, !errors_both, !in_app_iff. tauto.
Qed.

Lemma resolve_reports (ctx : ResolutionContext) (e : ConfigError) :
  In e (errors (preprocess ctx)) ->
  exists es, resolve ctx = Failed es /\ In e es.
Proof.
  unfold resolve, rbind.
  destruct (preprocess ctx) as [sel|es]; cbn [errors]; intros H.
  - destruct H.
  - exists es. auto.
Qed.

(** ** The guards of the chains, read as sets *)

(** Walks a chain whose selector matches none of the enumerators: every guard
    is decided; a guard that holds is the sentinel's or contradicts [H]. *)
Ltac walk_unmatched H :=
  unfold matched, selected, enumerated in H; cbn [In] in H;
  repeat match goal with
         | |- context [Z.eqb ?x ?y] =>
             destruct (Z.eqb_spec x y) as [E|E];
             [ first [ reflexivity
                     | exfalso; apply H; rewrite <- E; auto 20 ]
             | clear E ]
         end;
  try reflexivity.

Lemma sel_GATE_IC_TYPE_unmatched (ctx : ResolutionContext) :
  ~ matched GATE_IC_TYPE ctx ->
  sel_GATE_IC_TYPE ctx = Failed [UndefinedAxis GATE_IC_TYPE].
Proof.
  intros H. unfold sel_GATE_IC_TYPE. cbv zeta. walk_unmatched H.
Qed.

Lemma sel_POWER_MODULE_TYPE_unmatched (ctx : ResolutionContext) :
  ~ matched POWER_MODULE_TYPE ctx ->
  sel_POWER_MODULE_TYPE ctx = Failed [UndefinedAxis POWER_MODULE_TYPE].
Proof.
  intros H. unfold sel_POWER_MODULE_TYPE. cbv zeta. walk_unmatched H.
Qed.

Lemma sel_MOT_CUR_SENSOR_TYPE_unmatched (ctx : ResolutionContext) :
  ~ matched MOT_CUR_SENSOR_TYPE ctx ->
  sel_MOT_CUR_SENSOR_TYPE ctx = Failed [UndefinedAxis MOT_CUR_SENSOR_TYPE].
Proof.
  intros H. unfold sel_MOT_CUR_SENSOR_TYPE. cbv zeta. walk_unmatched H.
Qed.

Lemma sel_ETPU_CALCULATION_TIME_OPTION_unmatched (ctx : ResolutionContext) :
  ~ matched ETPU_CALCULATION_TIME_OPTION ctx ->
  sel_ETPU_CALCULATION_TIME_OPTION ctx = Failed [UndefinedAxis ETPU_CALCULATION_TIME_OPTION].
Proof.
  intros H. unfold sel_ETPU_CALCULATION_TIME_OPTION. cbv zeta. walk_unmatched H.
Qed.

Lemma sel_PWM_UPDATETIME_AUTO_MODE_unmatched (ctx : ResolutionContext) :
  ~ matched PWM_UPDATETIME_AUTO_MODE ctx ->
  sel_PWM_UPDATETIME_AUTO_MODE ctx = Failed [UndefinedAxis PWM_UPDATETIME_AUTO_MODE].
Proof.
  intros H. unfold sel_PWM_UPDATETIME_AUTO_MODE. cbv zeta. walk_unmatched H.
Qed.

Lemma sel_SA_2STAGE_PWM_MODE_unmatched (ctx : ResolutionContext) :
  ~ matched SA_2STAGE_PWM_MODE ctx ->
  sel_SA_2STAGE_PWM_MODE ctx = Failed [UndefinedAxis SA_2STAGE_PWM_MODE].
Proof.
  intros H. unfold sel_SA_2STAGE_PWM_MODE. cbv zeta. walk_unmatched H.
Qed.

Lemma sel_SA_SQPWM_REGEN_DIS_unmatched (ctx : ResolutionContext) :
  ~ matched SA_SQPWM_REGEN_DIS ctx ->
  sel_SA_SQPWM_REGEN_DIS ctx = Failed [UndefinedAxis SA_SQPWM_REGEN_DIS].
Proof.
  intros H. unfold sel_SA_SQPWM_REGEN_DIS. cbv zeta. walk_unmatched H.
Qed.

Lemma sel_PWM_BURST_MODE_unmatched (ctx : ResolutionContext) :
  ~ matched PWM_BURST_MODE ctx ->
  sel_PWM_BURST_MODE ctx = Failed [UndefinedAxis PWM_BURST_MODE].
Proof.
  intros H. unfold sel_PWM_BURST_MODE. cbv zeta. walk_unmatched H.
Qed.

Lemma sel_VAR_DTGS_OPTION_unmatched (ctx : ResolutionContext) :
  ~ matched VAR_DTGS_OPTION ctx ->
  sel_VAR_DTGS_OPTION ctx = Failed [UndefinedAxis VAR_DTGS_OPTION].
Proof.
  intros H. unfold sel_VAR_DTGS_OPTION. cbv zeta. walk_unmatched H.
Qed.

(** The chains of the project header. *)

Lemma sel_MARKET_VERSION_unmatched (ctx : ResolutionContext) (base na others : Defines) :
  ~ matched MARKET_VERSION ctx ->
  in_phase ctx base na others = Failed [UndefinedAxis MARKET_VERSION].
Proof.
  intros H. unfold in_phase, sel_MARKET_VERSION. cbv zeta. walk_unmatched H.
Qed.

Lemma sel_DEVELOPMENT_PHASE_unmatched (ctx : ResolutionContext)
  (tcar proto master pilot_1 pilot_2 m sop rc : result Defines) :
  ~ matched DEVELOPMENT_PHASE ctx ->
  sel_DEVELOPMENT_PHASE ctx tcar proto master pilot_1 pilot_2 m sop rc
  = Failed [UndefinedAxis DEVELOPMENT_PHASE].
Proof.
  intros H. unfold sel_DEVELOPMENT_PHASE. cbv zeta. walk_unmatched H.
Qed.

(** A matched phase takes one of the eight bodies. *)
Lemma sel_DEVELOPMENT_PHASE_matched (ctx : ResolutionContext)
  (tcar proto master pilot_1 pilot_2 m sop rc : result Defines) :
  matched DEVELOPMENT_PHASE ctx ->
  In (sel_DEVELOPMENT_PHASE ctx tcar proto master pilot_1 pilot_2 m sop rc)
     [tcar; proto; master; pilot_1; pilot_2; m; sop; rc].
Proof.
  intros H. unfold sel_DEVELOPMENT_PHASE. cbv zeta.
  unfold matched, selected, enumerated in H. cbn [In] in *.
  repeat match goal with
         | |- context [Z.eqb ?x ?y] =>
             destruct (Z.eqb_spec x y) as [?|?]; [ auto 20 | ]
         end.
  exfalso. intuition congruence.
Qed.

Lemma sel_PERFORMANCE_TYPE_unmatched (ctx : ResolutionContext) (inner : result Defines) :
  ~ matched PERFORMANCE_TYPE ctx ->
  sel_PERFORMANCE_TYPE ctx inner = Failed [UndefinedAxis PERFORMANCE_TYPE].
Proof.
  intros H. unfold sel_PERFORMANCE_TYPE. cbv zeta. walk_unmatched H.
Qed.

Lemma sel_PERFORMANCE_TYPE_matched (ctx : ResolutionContext) (inner : result Defines) :
  matched PERFORMANCE_TYPE ctx ->
  sel_PERFORMANCE_TYPE ctx inner = inner.
Proof.
  intros H. unfold sel_PERFORMANCE_TYPE. cbv zeta.
  unfold matched, selected, enumerated in H. cbn [In] in H.
  repeat match goal with
         | |- context [Z.eqb ?x ?y] =>
             destruct (Z.eqb_spec x y) as [?|?]; [ reflexivity | ]
         end.
  exfalso. intuition congruence.
Qed.

Lemma sel_PROJECT_NAME_unmatched (ctx : ResolutionContext) :
  ~ matched PROJECT_NAME ctx ->
  sel_PROJECT_NAME ctx = Ok [].
Proof.
  intros H. unfold sel_PROJECT_NAME. cbv zeta.
  unfold matched, selected, enumerated in H. cbn [In] in H.
  destruct (Z.eqb_spec (pp (_PROJECT_NAME ctx)) _MV_RWD_PROJ) as [E|E];
    [exfalso; apply H; auto|].
  destruct (Z.eqb_spec (pp (_PROJECT_NAME ctx)) _ME_RWD_PROJ) as [E'|E'];
    [exfalso; apply H; auto|].
  reflexivity.
Qed.

(** Under a matched project the header is the performance chain around the
    phase chain of that project. *)
Lemma sel_PROJECT_NAME_matched (ctx : ResolutionContext) (P : result Defines -> Prop) :
  matched PROJECT_NAME ctx ->
  (forall tcar proto master pilot_1 pilot_2 m sop rc,
      Forall (fun body => exists base na others, body = in_phase ctx base na others)
             [tcar; proto; master; pilot_1; pilot_2; m; sop; rc] ->
      P (sel_PERFORMANCE_TYPE ctx
           (sel_DEVELOPMENT_PHASE ctx tcar proto master pilot_1 pilot_2 m sop rc))) ->
  P (sel_PROJECT_NAME ctx).
Proof.
  intros H HP. unfold sel_PROJECT_NAME. cbv zeta.
  unfold matched, selected, enumerated in H. cbn [In] in H.
  destruct (Z.eqb_spec (pp (_PROJECT_NAME ctx)) _MV_RWD_PROJ) as [E|E].
  - apply HP. repeat constructor; eauto.
  - destruct (Z.eqb_spec (pp (_PROJECT_NAME ctx)) _ME_RWD_PROJ) as [E'|E'].
    + apply HP. repeat constructor; eauto.
    + exfalso. intuition congruence.
Qed.

Lemma sel_PROJECT_NAME_inner_unmatched (a : Axis) (ctx : ResolutionContext) :
  In a [PERFORMANCE_TYPE; DEVELOPMENT_PHASE; MARKET_VERSION] ->
  examined a ctx -> ~ matched a ctx ->
  sel_PROJECT_NAME ctx = Failed [UndefinedAxis a].
Proof.
  intros Ha Hex Hun.
  destruct Ha as [<-|[<-|[<-|[]]]]; cbn [examined] in Hex.
  - apply sel_PROJECT_NAME_matched; [exact Hex|].
    intros. apply sel_PERFORMANCE_TYPE_unmatched; exact Hun.
  - destruct Hex as [Hprj Hperf].
    apply sel_PROJECT_NAME_matched; [exact Hprj|].
    intros. rewrite sel_PERFORMANCE_TYPE_matched by exact Hperf.
    apply sel_DEVELOPMENT_PHASE_unmatched; exact Hun.
  - destruct Hex as [Hprj [Hperf Hphase]].
    apply sel_PROJECT_NAME_matched; [exact Hprj|].
    intros tcar proto master pilot_1 pilot_2 m sop rc HF.
    rewrite sel_PERFORMANCE_TYPE_matched by exact Hperf.
    pose proof (sel_DEVELOPMENT_PHASE_matched ctx tcar proto master pilot_1 pilot_2
                  m sop rc Hphase) as Hin.
    rewrite Forall_forall in HF.
    destruct (HF _ Hin) as [base [na [others ->]]].
    apply sel_MARKET_VERSION_unmatched; exact Hun.
Qed.

(** The chains outside the project header, by switch. *)
Lemma outer_chain_unmatched (a : Axis) (ctx : ResolutionContext) :
  ~ In a [PROJECT_NAME; PERFORMANCE_TYPE; DEVELOPMENT_PHASE; MARKET_VERSION] ->
  ~ matched a ctx ->
  In (UndefinedAxis a) (errors (preprocess ctx)).
Proof.
  intros Ha Hun. apply preprocess_reports.
  destruct a; try (exfalso; apply Ha; simpl; tauto).
  - rewrite (sel_GATE_IC_TYPE_unmatched ctx Hun). simpl; tauto.
  - rewrite (sel_POWER_MODULE_TYPE_unmatched ctx Hun). simpl; tauto.
  - rewrite (sel_MOT_CUR_SENSOR_TYPE_unmatched ctx Hun). simpl; tauto.
  - rewrite (sel_ETPU_CALCULATION_TIME_OPTION_unmatched ctx Hun). simpl; tauto.
  - rewrite (sel_PWM_UPDATETIME_AUTO_MODE_unmatched ctx Hun). simpl; tauto.
  - rewrite (sel_SA_2STAGE_PWM_MODE_unmatched ctx Hun). simpl; tauto.
  - rewrite (sel_SA_SQPWM_REGEN_DIS_unmatched ctx Hun). simpl; tauto.
  - rewrite (sel_PWM_BURST_MODE_unmatched ctx Hun). simpl; tauto.
  - rewrite (sel_VAR_DTGS_OPTION_unmatched ctx Hun). simpl; tauto.
Qed.

(** C1 (as amended).  For every build switch other than the project name, a
    value that matches none of the enumerated guards of its chain stops the
    build with [UndefinedAxis] naming that switch, provided the chain is
    examined at all (the performance, phase and market chains are nested and
    only examined under a matched project, performance type and phase).  A
    project name that matches neither guard is no error: the header then
    defines nothing and reports nothing. *)
Theorem undefined_axis_is_reported (a : Axis) (ctx : ResolutionContext) :
  ~ matched a ctx ->
  (a <> PROJECT_NAME -> examined a ctx ->
   exists es, resolve ctx = Failed es /\ In (UndefinedAxis a) es)
  /\ (a = PROJECT_NAME ->
      sel_PROJECT_NAME ctx = Ok []
      /\ forall r, resolve ctx = Ok r -> project r = []).
Proof.
  intros Hun. split.
  - intros Ha Hex. apply resolve_reports.
    assert (Hinner : forall b, In b [PERFORMANCE_TYPE; DEVELOPMENT_PHASE; MARKET_VERSION] ->
                           examined b ctx -> ~ matched b ctx ->
                           In (UndefinedAxis b) (errors (preprocess ctx))).
    { intros b Hb Hexb Hunb. apply preprocess_reports; left.
      rewrite (sel_PROJECT_NAME_inner_unmatched b ctx Hb Hexb Hunb).
      left; reflexivity. }
    destruct a;
      [ exfalso; apply Ha; reflexivity
      | apply Hinner; [ simpl; tauto | exact Hex | exact Hun ] ..
      | | | | | | | | | ];
      (apply outer_chain_unmatched;
       [ intros [H|[H|[H|[H|[]]]]]; discriminate H | exact Hun ]).
  - intros ->. pose proof (sel_PROJECT_NAME_unmatched ctx Hun) as Hprj.
    split; [exact Hprj|].
    intros r Hr. apply resolve_Ok_inv in Hr as [sel [Hpre [Hp _]]].
    apply preprocess_Ok_inv in Hpre as [Hs _].
    rewrite Hprj in Hs. inversion Hs. congruence.
Qed.

(** ** What a resolved table looks like *)

Lemma sel_SA_2STAGE_PWM_MODE_shape (ctx : ResolutionContext) (st : list Decl) :
  sel_SA_2STAGE_PWM_MODE ctx = Ok st ->
  exists flag, st = [ cst BOOL "TestCal_RSPWM_Enb" flag ].
Proof.
  unfold sel_SA_2STAGE_PWM_MODE. cbv zeta.
  repeat match goal with
         | |- context [Z.eqb ?x ?y] => destruct (Z.eqb x y)
         end; intros H; inversion H; eauto.
Qed.

Lemma sel_SA_SQPWM_REGEN_DIS_shape (ctx : ResolutionContext) (sq : list Decl) :
  sel_SA_SQPWM_REGEN_DIS ctx = Ok sq ->
  exists flag, sq = [ cst_t UINT8 "CcCal_SQPWM_Mode_Regen_Disable" [flag; flag] ].
Proof.
  unfold sel_SA_SQPWM_REGEN_DIS. cbv zeta.
  repeat match goal with
         | |- context [Z.eqb ?x ?y] => destruct (Z.eqb x y)
         end; intros H; inversion H; eauto.
Qed.

Lemma resolve_Ok_table (ctx : ResolutionContext) (r : Resolved) :
  resolve ctx = Ok r -> exists sel, TableOf ctx r sel.
Proof.
  intros H. apply resolve_Ok_inv in H as [sel [Hpre [_ [Ht HF]]]].
  apply preprocess_Ok_inv in Hpre
    as [_ [Hg [Hpm [Hs [_ [_ [Hst [Hsq _]]]]]]]].
  exists sel. constructor; auto.
  - eapply declarations_fit; eassumption.
  - eapply sel_SA_2STAGE_PWM_MODE_shape; eassumption.
  - eapply sel_SA_SQPWM_REGEN_DIS_shape; eassumption.
Qed.

Lemma entry_MOT (name : string) (ds : list Decl) (c : bool) (ty : ctype) (mot hsg : cval) :
  (2 <= TOTAL_TARGET)%nat ->
  find_decl name ds = Some (mkDecl c ty name (PerTargetInit [mot; hsg])) ->
  entry name MOT (map bind ds) = Some (convert ty mot).
Proof.
  intros Hn H. apply (entry_bind name ds c ty mot hsg MOT Hn H).
Qed.

Lemma entry_HSG (name : string) (ds : list Decl) (c : bool) (ty : ctype) (mot hsg : cval) :
  (2 <= TOTAL_TARGET)%nat ->
  find_decl name ds = Some (mkDecl c ty name (PerTargetInit [mot; hsg])) ->
  entry name HSG (map bind ds) = Some (convert ty hsg).
Proof.
  intros Hn H. apply (entry_bind name ds c ty mot hsg HSG Hn H).
Qed.

(** Reads a binding off the table of [T : TableOf ctx r sel]. *)
Ltac read_table T :=
  let Hst := fresh "Hst" in
  let Hsq := fresh "Hsq" in
  let fst_ := fresh "flag" in
  let fsq_ := fresh "flag" in
  destruct (t_stage _ _ _ T) as [fst_ Hst];
  destruct (t_sqpwm _ _ _ T) as [fsq_ Hsq];
  rewrite (t_table _ _ _ T);
  first [ eapply entry_MOT | eapply entry_HSG | eapply scalar_bind ];
  [ try exact (t_fit _ _ _ T) .. | unfold declarations; rewrite ?Hst, ?Hsq; reflexivity ].

(** ** Resolution as a function *)

(** C3.  Resolution is a function of the selections: two contexts in which
    every switch has the same value for the preprocessor resolve to the same
    outcome, table for table and diagnostic for diagnostic.  (The model has no
    state for resolution to change.) *)
Theorem resolve_depends_on_the_selections_only (ctx1 ctx2 : ResolutionContext) :
  (forall a, selected a ctx1 = selected a ctx2) ->
  resolve ctx1 = resolve ctx2.
Proof.
  intros H.
  pose proof (H PROJECT_NAME) as H1. pose proof (H PERFORMANCE_TYPE) as H2.
  pose proof (H DEVELOPMENT_PHASE) as H3. pose proof (H MARKET_VERSION) as H4.
  pose proof (H GATE_IC_TYPE) as H5. pose proof (H POWER_MODULE_TYPE) as H6.
  pose proof (H MOT_CUR_SENSOR_TYPE) as H7.
  pose proof (H ETPU_CALCULATION_TIME_OPTION) as H8.
  pose proof (H PWM_UPDATETIME_AUTO_MODE) as H9.
  pose proof (H SA_2STAGE_PWM_MODE) as H10. pose proof (H SA_SQPWM_REGEN_DIS) as H11.
  pose proof (H PWM_BURST_MODE) as H12. pose proof (H VAR_DTGS_OPTION) as H13.
  unfold selected in *.
  assert (Hpre : preprocess ctx1 = preprocess ctx2).
  { unfold preprocess, sel_PROJECT_NAME, sel_PERFORMANCE_TYPE, sel_DEVELOPMENT_PHASE,
      in_phase, sel_MARKET_VERSION, sel_GATE_IC_TYPE, sel_POWER_MODULE_TYPE,
      sel_MOT_CUR_SENSOR_TYPE, sel_ETPU_CALCULATION_TIME_OPTION,
      sel_PWM_UPDATETIME_AUTO_MODE, sel_SA_2STAGE_PWM_MODE, sel_SA_SQPWM_REGEN_DIS,
      sel_PWM_BURST_MODE, sel_VAR_DTGS_OPTION.
    cbv zeta.
    rewrite H1, H2, H3, H4, H5, H6, H7, H8, H9, H10, H11, H12, H13.
    reflexivity. }
  unfold resolve. rewrite Hpre. reflexivity.
Qed.

(** ** Derived bindings *)

(** What the table holds under these names, as the declarations give it. *)

Lemma read_dead_time (ctx : ResolutionContext) (r : Resolved) (sel : Selected)
  (T : TableOf ctx r sel) (inv : Inverter) (t : Target) :
  scalar (dead_time_binding inv t) (calibration r)
  = Some (convert UINT32 (CInt (BSWCFGPWM_DEADTIME (s_power sel) inv t))).
Proof.
  destruct inv, t; read_table T.
Qed.

Lemma read_TdeadComp (ctx : ResolutionContext) (r : Resolved) (sel : Selected)
  (T : TableOf ctx r sel) (inv : Inverter) (t : Target) :
  entry (TdeadComp_binding inv) t (calibration r)
  = Some (convert FLOAT32
            (mul (sub (CInt (BSWCFGPWM_DEADTIME (s_power sel) inv t)) (flt 100 0))
                 (flt 1 9))).
Proof.
  destruct inv, t; read_table T.
Qed.

Lemma read_IcompZCC (ctx : ResolutionContext) (r : Resolved) (sel : Selected)
  (T : TableOf ctx r sel) (inv : Inverter) (t : Target) :
  entry (IcompZCC_binding inv) t (calibration r)
  = Some (convert FLOAT32 (mul (CUR_SENSOR_RANGE (s_sensor sel) t) (flt 5 2))).
Proof.
  destruct inv, t; read_table T.
Qed.

Lemma read_INVIcompZCC (ctx : ResolutionContext) (r : Resolved) (sel : Selected)
  (T : TableOf ctx r sel) (inv : Inverter) (t : Target) :
  entry (INVIcompZCC_binding inv) t (calibration r)
  = Some (convert FLOAT32
            (div (flt 1 0) (mul (CUR_SENSOR_RANGE (s_sensor sel) t) (flt 5 2)))).
Proof.
  destruct inv, t; read_table T.
Qed.

Lemma read_Cur_ScaleFactor (ctx : ResolutionContext) (r : Resolved) (sel : Selected)
  (T : TableOf ctx r sel) (t : Target) :
  entry "CcCal_Cur_ScaleFactor" t (calibration r)
  = Some (convert FLOAT32 (CUR_SENSOR_SCALE (s_sensor sel) t)).
Proof.
  destruct t; read_table T.
Qed.

(** The branches of the power-module chain. *)
Lemma sel_POWER_MODULE_TYPE_cases (ctx : ResolutionContext) (pm : PowerModuleCfg) :
  sel_POWER_MODULE_TYPE ctx = Ok pm ->
  In pm [ mkPowerModule 2200 2200 2200 2200 2200;
          mkPowerModule 2500 2500 2500 2500 2500;
          mkPowerModule 4000 4000 4000 4000 4000;
          mkPowerModule 2000 2000 4000 2000 2000;
          mkPowerModule 2000 4000 4000 2000 2000;
          mkPowerModule 2000 4000 2000 2000 2000 ].
Proof.
  unfold sel_POWER_MODULE_TYPE. cbv zeta.
  repeat match goal with
         | |- context [Z.eqb ?x ?y] => destruct (Z.eqb x y)
         end; intros H; inversion H; simpl; tauto.
Qed.

Lemma TdeadComp_initialiser (deadtime : Z) :
  convert FLOAT32 (mul (sub (CInt deadtime) (flt 100 0)) (flt 1 9))
  = VFloat (dead_time_compensation deadtime).
Proof.
  unfold dead_time_compensation.
  cbv [convert mul sub arith flt as_float].
  replace (SFdiv 24 128 (f32_of_Z 100) (f32_of_Z (10 ^ 0)))
    with (f32_of_Z FIXED_OFFSET) by (vm_compute; reflexivity).
  reflexivity.
Qed.


(** ** Fixed-point gains *)

Lemma read_SWRDC_K1D (ctx : ResolutionContext) (r : Resolved) (sel : Selected)
  (T : TableOf ctx r sel) (t : Target) :
  entry "CcCal_SWRDC_GainUpdate_K1D" t (calibration r)
  = Some (convert SLONG (mul (dbl 64339817 8) (CInt 0x800000))).
Proof.
  destruct t; read_table T.
Qed.

Lemma read_SWRDC_K2D (ctx : ResolutionContext) (r : Resolved) (sel : Selected)
  (T : TableOf ctx r sel) (t : Target) :
  entry "CcCal_SWRDC_GainUpdate_K2D" t (calibration r)
  = Some (convert SLONG (mul (dbl 99471843 8) (CInt 0x800000))).
Proof.
  destruct t; read_table T.
Qed.

Lemma read_SWRDC_K1SCALE (ctx : ResolutionContext) (r : Resolved) (sel : Selected)
  (T : TableOf ctx r sel) (t : Target) :
  entry "CcCal_SWRDC_GainUpdate_K1SCALE" t (calibration r)
  = Some (convert SLONG (CInt 7)).
Proof.
  destruct t; read_table T.
Qed.

Lemma read_SWRDC_K2SCALE (ctx : ResolutionContext) (r : Resolved) (sel : Selected)
  (T : TableOf ctx r sel) (t : Target) :
  entry "CcCal_SWRDC_GainUpdate_K2SCALE" t (calibration r)
  = Some (convert SLONG (CInt 4)).
Proof.
  destruct t; read_table T.
Qed.

(** C5 (as amended).  The mantissas of the SWRDC gain update are the gain
    literals times 2^23 (the factor 0x800000 of the initialiser), the fraction
    discarded; read back at scale 23 they reproduce the literal within 2^-23.
    The scales bound beside them, 7 for K1 and 4 for K2, are not the scale of
    the mantissa. *)
Theorem swrdc_gain_mantissas_have_scale_23 (ctx : ResolutionContext) (r : Resolved) :
  resolve ctx = Ok r ->
  forall t,
    entry "CcCal_SWRDC_GainUpdate_K1D" t (calibration r) = Some (VInt 5397215)
    /\ entry "CcCal_SWRDC_GainUpdate_K1SCALE" t (calibration r) = Some (VInt 7)
    /\ entry "CcCal_SWRDC_GainUpdate_K2D" t (calibration r) = Some (VInt 8344302)
    /\ entry "CcCal_SWRDC_GainUpdate_K2SCALE" t (calibration r) = Some (VInt 4)
    /\ (Qabs (fixed_point_decode 5397215 23 - SWRDC_K1) <= 1 # 2 ^ 23)%Q
    /\ (Qabs (fixed_point_decode 8344302 23 - SWRDC_K2) <= 1 # 2 ^ 23)%Q.
Proof.
  intros Hr t. destruct (resolve_Ok_table ctx r Hr) as [sel T].
  rewrite (read_SWRDC_K1D ctx r sel T), (read_SWRDC_K1SCALE ctx r sel T),
    (read_SWRDC_K2D ctx r sel T), (read_SWRDC_K2SCALE ctx r sel T).
  repeat split; try (vm_compute; reflexivity);
    apply Qle_bool_imp_le; vm_compute; reflexivity.
Qed.

(** ** The power-module switch *)

Lemma sel_POWER_MODULE_TYPE_sentinel (ctx : ResolutionContext) :
  pp (_POWER_MODULE_TYPE ctx) = _UNDEFINED_OPTION ->
  sel_POWER_MODULE_TYPE ctx = Failed [UndefinedAxis POWER_MODULE_TYPE].
Proof.
  intros H. unfold sel_POWER_MODULE_TYPE. cbv zeta.
  rewrite H, Z.eqb_refl. reflexivity.
Qed.

(** C6.  A context that does not set the power-module switch, or sets it to
    the sentinel, does not resolve: the build stops with [UndefinedAxis]
    naming the switch, and no table (hence no dead-time constant) is produced.
    An unset switch reads as 0 in the chain; the statement is for headers in
    which 0 is the sentinel or at least no power-module enumerator. *)
Theorem missing_power_module_type_is_undefined (ctx : ResolutionContext) :
  (_POWER_MODULE_TYPE ctx = None
   /\ (_UNDEFINED_OPTION = 0 \/ ~ In 0 (enumerated POWER_MODULE_TYPE)))
  \/ _POWER_MODULE_TYPE ctx = Some _UNDEFINED_OPTION ->
  sel_POWER_MODULE_TYPE ctx = Failed [UndefinedAxis POWER_MODULE_TYPE]
  /\ exists es, resolve ctx = Failed es /\ In (UndefinedAxis POWER_MODULE_TYPE) es.
Proof.
  intros H.
  assert (Hsel : sel_POWER_MODULE_TYPE ctx = Failed [UndefinedAxis POWER_MODULE_TYPE]).
  { destruct H as [[Hnone [Hz|Hz]]|Hs].
    - apply sel_POWER_MODULE_TYPE_sentinel. rewrite Hnone, Hz. reflexivity.
    - apply sel_POWER_MODULE_TYPE_unmatched.
      unfold matched, selected. rewrite Hnone. exact Hz.
    - apply sel_POWER_MODULE_TYPE_sentinel. rewrite Hs. reflexivity. }
  split; [exact Hsel|].
  apply resolve_reports, preprocess_reports.
  right; right; left. rewrite Hsel. left; reflexivity.
Qed.

(** ** The gate-IC switch *)

Lemma read_gate (ctx : ResolutionContext) (r : Resolved) (sel : Selected)
  (T : TableOf ctx r sel) :
  let g := s_gate sel in
  scalar "BswCfgCal_Pwm_MotMinPulseWidth_INV1" (calibration r)
  = Some (convert UINT32 (CInt (BSWCFGPWM_MOT_INV1_MIN_WIDTH g)))
  /\ scalar "BswCfgCal_Pwm_MotMinPulseWidth_INV2" (calibration r)
     = Some (convert UINT32 (CInt (BSWCFGPWM_MOT_INV2_MIN_WIDTH g)))
  /\ scalar "BswCfgCal_Pwm_HsgMinPulseWidth_INV1" (calibration r)
     = Some (convert UINT32 (CInt (BSWCFGPWM_HSG_INV1_MIN_WIDTH g)))
  /\ scalar "BswCfgCal_Pwm_HsgMinPulseWidth_INV2" (calibration r)
     = Some (convert UINT32 (CInt (BSWCFGPWM_HSG_INV2_MIN_WIDTH g)))
  /\ scalar "BswCfgCal_Pwm_MotAsacEdgeOffset" (calibration r)
     = Some (convert UINT32 (CInt (BSWCFGPWM_MOT_ASAC_EDGE_OFFSET g)))
  /\ scalar "BswCfgCal_Pwm_HsgAsacEdgeOffset" (calibration r)
     = Some (convert UINT32 (CInt (BSWCFGPWM_HSG_ASAC_EDGE_OFFSET g))).
Proof.
  cbv zeta. repeat split; read_table T.
Qed.

(** C7.  A context that selects gate-IC type 7 resolves to the literals of
    that branch and of no other: a minimum pulse width of 300 ns for both
    inverters of the motor and of the starter-generator, and an edge offset of
    390 ns for both targets.  (Type 7 is taken to be told apart from the
    sentinel and from the types tested before it.) *)
Theorem gate_ic_type_7_binds_its_literals (ctx : ResolutionContext) :
  _GATE_IC_TYPE ctx = Some _GATE_IC_TYPE_7 ->
  ~ In _GATE_IC_TYPE_7
       [_UNDEFINED_OPTION; _GATE_IC_TYPE_1; _GATE_IC_TYPE_2; _GATE_IC_TYPE_3;
        _GATE_IC_TYPE_4; _GATE_IC_TYPE_5; _GATE_IC_TYPE_6] ->
  sel_GATE_IC_TYPE ctx = Ok (mkGateIc 300 300 390 300 300 390)
  /\ forall r, resolve ctx = Ok r ->
       scalar "BswCfgCal_Pwm_MotMinPulseWidth_INV1" (calibration r) = Some (VInt 300)
       /\ scalar "BswCfgCal_Pwm_MotMinPulseWidth_INV2" (calibration r) = Some (VInt 300)
       /\ scalar "BswCfgCal_Pwm_HsgMinPulseWidth_INV1" (calibration r) = Some (VInt 300)
       /\ scalar "BswCfgCal_Pwm_HsgMinPulseWidth_INV2" (calibration r) = Some (VInt 300)
       /\ scalar "BswCfgCal_Pwm_MotAsacEdgeOffset" (calibration r) = Some (VInt 390)
       /\ scalar "BswCfgCal_Pwm_HsgAsacEdgeOffset" (calibration r) = Some (VInt 390).
Proof.
  intros H7 Hdistinct.
  assert (Hsel : sel_GATE_IC_TYPE ctx = Ok (mkGateIc 300 300 390 300 300 390)).
  { unfold sel_GATE_IC_TYPE. cbv zeta. rewrite H7. cbn [pp In] in *.
    repeat match goal with
           | |- context [Z.eqb _GATE_IC_TYPE_7 ?y] =>
               destruct (Z.eqb_spec _GATE_IC_TYPE_7 y) as [E|E];
               [ first [ reflexivity | exfalso; apply Hdistinct; rewrite <- E; auto 20 ]
               | try (exfalso; apply E; reflexivity); clear E ]
           end. }
  split; [exact Hsel|].
  intros r Hr. destruct (resolve_Ok_table ctx r Hr) as [sel T].
  pose proof (read_gate ctx r sel T) as Hread. cbv zeta in Hread.
  pose proof (t_gate _ _ _ T) as Hg. rewrite Hsel in Hg. inversion Hg as [Hg'].
  rewrite <- Hg' in Hread. exact Hread.
Qed.

(** ** The current-sensor switch *)

(** C8.  When the current-sensor switch of the motor selects a range of
    400 A, the scale factor of the motor in the resolved table is the binary32
    number nearest to 0.24414 = 400 * 0.00061035: it differs from 0.24414 by
    less than half a unit in the last place (2^-27). *)
Theorem scale_factor_of_a_400A_sensor (ctx : ResolutionContext) (r : Resolved)
  (s : CurSensorCfg) :
  resolve ctx = Ok r ->
  sel_MOT_CUR_SENSOR_TYPE ctx = Ok s ->
  CUR_SENSOR_RANGE_MOT s = CInt 400 ->
  exists x,
    entry "CcCal_Cur_ScaleFactor" MOT (calibration r) = Some (VFloat x)
    /\ x = as_float (flt 24414 5)
    /\ (Qabs (SF2Q x - (24414 # 100000)) <= 1 # 2 ^ 27)%Q.
Proof.
  intros Hr Hs Hrange. destruct (resolve_Ok_table ctx r Hr) as [sel T].
  pose proof (t_sensor _ _ _ T) as Hs'. rewrite Hs in Hs'. inversion Hs' as [Hs''].
  exists (as_float (flt 24414 5)).
  rewrite (read_Cur_ScaleFactor ctx r sel T), <- Hs''.
  unfold CUR_SENSOR_SCALE, per_target, CUR_SENSOR_SCALE_MOT. rewrite Hrange.
  split; [vm_compute; reflexivity|]. split; [reflexivity|].
  apply Qle_bool_imp_le; vm_compute; reflexivity.
Qed.

(** ** The resolver trigger *)

Lemma read_Rdc (ctx : ResolutionContext) (r : Resolved) (sel : Selected)
  (T : TableOf ctx r sel) (t : Target) :
  scalar (Rdc_Period_binding t) (calibration r)
  = Some (convert UINT32 (CInt (BSWCFGRDC_PERIOD t)))
  /\ scalar (Rdc_StartOffset_binding t) (calibration r)
     = Some (convert FLOAT32 (CInt (BSWCFGRDC_START_OFFSET t)))
  /\ scalar (Rdc_UnitrigStartOffset_binding t) (calibration r)
     = Some (convert UINT32 (CInt (BSWCFGRDC_UNITRIG_START_OFFSET t))).
Proof.
  destruct t; repeat split; read_table T.
Qed.

(** C9.  For both targets the uni-trigger start offset of the resolver is
    500 periods plus the start offset: 33005 = 500 * 66 + 5 for the motor and
    33030 = 500 * 66 + 30 for the starter-generator, in the macros and in the
    bindings of every resolved table. *)
Theorem unitrig_start_offset_is_500_periods_plus_start
  (ctx : ResolutionContext) (r : Resolved) :
  resolve ctx = Ok r ->
  forall t, exists period start,
    scalar (Rdc_Period_binding t) (calibration r) = Some (VInt period)
    /\ scalar (Rdc_StartOffset_binding t) (calibration r) = Some (VFloat (f32_of_Z start))
    /\ scalar (Rdc_UnitrigStartOffset_binding t) (calibration r)
       = Some (VInt (500 * period + start))
    /\ period = BSWCFGRDC_PERIOD t
    /\ start = BSWCFGRDC_START_OFFSET t
    /\ BSWCFGRDC_UNITRIG_START_OFFSET t = 500 * period + start
    /\ (period, start, 500 * period + start)
       = per_target (66, 5, 33005) (66, 30, 33030) t.
Proof.
  intros Hr t. destruct (resolve_Ok_table ctx r Hr) as [sel T].
  destruct (read_Rdc ctx r sel T t) as [Hp [Hs Hu]].
  exists (BSWCFGRDC_PERIOD t), (BSWCFGRDC_START_OFFSET t).
  rewrite Hp, Hs, Hu.
  destruct t; repeat split; reflexivity.
Qed.

(** ** The zero-crossing current and its reciprocal *)

(** The branches of the current-sensor chain. *)
Lemma sel_MOT_CUR_SENSOR_TYPE_cases (ctx : ResolutionContext) (s : CurSensorCfg) :
  sel_MOT_CUR_SENSOR_TYPE ctx = Ok s ->
  In s [ mkCurSensor (CInt 400); mkCurSensor (CInt 500);
         mkCurSensor (dbl 5882353 4); mkCurSensor (dbl 3942829 4);
         mkCurSensor (CInt 700); mkCurSensor (CInt 850); mkCurSensor (CInt 1000);
         mkCurSensor (CInt 1300); mkCurSensor (CInt 1100); mkCurSensor (CInt 1500);
         mkCurSensor (dbl 8333333 4); mkCurSensor (dbl 9095043 4);
         mkCurSensor (dbl 6820567 4) ].
Proof.
  unfold sel_MOT_CUR_SENSOR_TYPE. cbv zeta.
  repeat match goal with
         | |- context [Z.eqb ?x ?y] => destruct (Z.eqb x y)
         end; intros H; inversion H; cbn [In]; tauto.
Qed.

(** C10 (as amended).  For each inverter and each target the two arrays hold
    the binary32 value of one expression, 5 % of the range of the current
    sensor, and the binary32 value of its reciprocal.  The two are inverse to
    one another up to rounding and not exactly: for the motor, with every
    sensor of the chain, their product is within 2^-23 of 1. *)
Theorem zcc_current_and_reciprocal (ctx : ResolutionContext) (r : Resolved) :
  resolve ctx = Ok r ->
  exists s,
    sel_MOT_CUR_SENSOR_TYPE ctx = Ok s
    /\ (forall inv t,
           entry (IcompZCC_binding inv) t (calibration r)
           = Some (VFloat (as_float (zcc_current s t)))
           /\ entry (INVIcompZCC_binding inv) t (calibration r)
              = Some (VFloat (as_float (div (flt 1 0) (zcc_current s t)))))
    /\ (Qabs (SF2Q (as_float (zcc_current s MOT))
              * SF2Q (as_float (div (flt 1 0) (zcc_current s MOT))) - 1)
        <= 1 # 2 ^ 23)%Q.
Proof.
  intros Hr. destruct (resolve_Ok_table ctx r Hr) as [sel T].
  exists (s_sensor sel). split; [exact (t_sensor _ _ _ T)|]. split.
  - intros inv t.
    rewrite (read_IcompZCC ctx r sel T), (read_INVIcompZCC ctx r sel T).
    split; reflexivity.
  - pose proof (sel_MOT_CUR_SENSOR_TYPE_cases ctx _ (t_sensor _ _ _ T)) as Hs.
    cbn [In] in Hs.
    repeat (destruct Hs as [<-|Hs];
            [apply Qle_bool_imp_le; vm_compute; reflexivity|]).
    destruct Hs.
Qed.

(** ** Chains that take a branch *)

Lemma matched_dec (a : Axis) (ctx : ResolutionContext) :
  {matched a ctx} + {~ matched a ctx}.
Proof.
  unfold matched. apply in_dec. exact Z.eq_dec.
Qed.

(** Walks a chain: at the sentinel and past the last guard the chain fails
    and takes no branch; at a guard that holds the branch is taken. *)
Ltac walk_chain :=
  cbv zeta;
  repeat match goal with
         | |- context [Z.eqb ?x ?y] =>
             destruct (Z.eqb_spec x y) as [?|?];
             [ first [ right; split;
                       [ intros [_ ?H]; apply H; [ reflexivity | assumption ]
                       | reflexivity ]
                     | left; split;
                       [ split;
                         [ unfold matched, selected, enumerated; cbn [In]; auto 30
                         | first [ intros _; assumption
                                 | intros ?H; cbv in H; discriminate H ] ]
                       | eexists; reflexivity ] ]
             | ]
         end;
  right; split;
  [ intros [?H _]; unfold matched, selected, enumerated in H; cbn [In] in H;
    intuition congruence
  | reflexivity ].

Lemma chain_GATE_IC_TYPE (ctx : ResolutionContext) :
  (accepted GATE_IC_TYPE ctx /\ exists g, sel_GATE_IC_TYPE ctx = Ok g)
  \/ (~ accepted GATE_IC_TYPE ctx
      /\ sel_GATE_IC_TYPE ctx = Failed [UndefinedAxis GATE_IC_TYPE]).
Proof.
  unfold sel_GATE_IC_TYPE. walk_chain.
Qed.

Lemma chain_POWER_MODULE_TYPE (ctx : ResolutionContext) :
  (accepted POWER_MODULE_TYPE ctx /\ exists pm, sel_POWER_MODULE_TYPE ctx = Ok pm)
  \/ (~ accepted POWER_MODULE_TYPE ctx
      /\ sel_POWER_MODULE_TYPE ctx = Failed [UndefinedAxis POWER_MODULE_TYPE]).
Proof.
  unfold sel_POWER_MODULE_TYPE. walk_chain.
Qed.

Lemma chain_MOT_CUR_SENSOR_TYPE (ctx : ResolutionContext) :
  (accepted MOT_CUR_SENSOR_TYPE ctx /\ exists s, sel_MOT_CUR_SENSOR_TYPE ctx = Ok s)
  \/ (~ accepted MOT_CUR_SENSOR_TYPE ctx
      /\ sel_MOT_CUR_SENSOR_TYPE ctx = Failed [UndefinedAxis MOT_CUR_SENSOR_TYPE]).
Proof.
  unfold sel_MOT_CUR_SENSOR_TYPE. walk_chain.
Qed.

Lemma chain_ETPU_CALCULATION_TIME_OPTION (ctx : ResolutionContext) :
  (accepted ETPU_CALCULATION_TIME_OPTION ctx /\ exists e, sel_ETPU_CALCULATION_TIME_OPTION ctx = Ok e)
  \/ (~ accepted ETPU_CALCULATION_TIME_OPTION ctx
      /\ sel_ETPU_CALCULATION_TIME_OPTION ctx = Failed [UndefinedAxis ETPU_CALCULATION_TIME_OPTION]).
Proof.
  unfold sel_ETPU_CALCULATION_TIME_OPTION. walk_chain.
Qed.

Lemma chain_PWM_UPDATETIME_AUTO_MODE (ctx : ResolutionContext) :
  (accepted PWM_UPDATETIME_AUTO_MODE ctx /\ exists m, sel_PWM_UPDATETIME_AUTO_MODE ctx = Ok m)
  \/ (~ accepted PWM_UPDATETIME_AUTO_MODE ctx
      /\ sel_PWM_UPDATETIME_AUTO_MODE ctx = Failed [UndefinedAxis PWM_UPDATETIME_AUTO_MODE]).
Proof.
  unfold sel_PWM_UPDATETIME_AUTO_MODE. walk_chain.
Qed.

Lemma chain_SA_2STAGE_PWM_MODE (ctx : ResolutionContext) :
  (accepted SA_2STAGE_PWM_MODE ctx /\ exists ds, sel_SA_2STAGE_PWM_MODE ctx = Ok ds)
  \/ (~ accepted SA_2STAGE_PWM_MODE ctx
      /\ sel_SA_2STAGE_PWM_MODE ctx = Failed [UndefinedAxis SA_2STAGE_PWM_MODE]).
Proof.
  unfold sel_SA_2STAGE_PWM_MODE. walk_chain.
Qed.

Lemma chain_SA_SQPWM_REGEN_DIS (ctx : ResolutionContext) :
  (accepted SA_SQPWM_REGEN_DIS ctx /\ exists ds, sel_SA_SQPWM_REGEN_DIS ctx = Ok ds)
  \/ (~ accepted SA_SQPWM_REGEN_DIS ctx
      /\ sel_SA_SQPWM_REGEN_DIS ctx = Failed [UndefinedAxis SA_SQPWM_REGEN_DIS]).
Proof.
  unfold sel_SA_SQPWM_REGEN_DIS. walk_chain.
Qed.

Lemma chain_PWM_BURST_MODE (ctx : ResolutionContext) :
  (accepted PWM_BURST_MODE ctx /\ exists ds, sel_PWM_BURST_MODE ctx = Ok ds)
  \/ (~ accepted PWM_BURST_MODE ctx
      /\ sel_PWM_BURST_MODE ctx = Failed [UndefinedAxis PWM_BURST_MODE]).
Proof.
  unfold sel_PWM_BURST_MODE. walk_chain.
Qed.

Lemma chain_VAR_DTGS_OPTION (ctx : ResolutionContext) :
  (accepted VAR_DTGS_OPTION ctx /\ exists ds, sel_VAR_DTGS_OPTION ctx = Ok ds)
  \/ (~ accepted VAR_DTGS_OPTION ctx
      /\ sel_VAR_DTGS_OPTION ctx = Failed [UndefinedAxis VAR_DTGS_OPTION]).
Proof.
  unfold sel_VAR_DTGS_OPTION. walk_chain.
Qed.


(** The project header. *)

Lemma in_phase_matched (ctx : ResolutionContext) (base na others : Defines) :
  matched MARKET_VERSION ctx ->
  exists market, In market [na; others] /\ in_phase ctx base na others = Ok (base ++ market).
Proof.
  intros H. unfold in_phase, sel_MARKET_VERSION. cbv zeta.
  unfold matched, selected, enumerated in H. cbn [In] in H.
  destruct (Z.eqb_spec (pp (_MARKET_VERSION ctx)) _NORTH_AMERICA_VERSION) as [?|?].
  - exists na. split; [left; reflexivity | reflexivity].
  - exists others. split; [right; left; reflexivity|].
    repeat match goal with
           | |- context [Z.eqb ?x ?y] =>
               destruct (Z.eqb_spec x y) as [?|?]; [ reflexivity | ]
           end.
    exfalso. intuition congruence.
Qed.

Lemma sel_PROJECT_NAME_bodies (ctx : ResolutionContext) :
  matched PROJECT_NAME ctx -> matched PERFORMANCE_TYPE ctx ->
  matched DEVELOPMENT_PHASE ctx ->
  exists base na others,
    In (base, na, others) project_bodies
    /\ sel_PROJECT_NAME ctx = in_phase ctx base na others.
Proof.
  intros Hprj Hperf Hphase. unfold sel_PROJECT_NAME. cbv zeta.
  unfold matched, selected, enumerated in Hprj, Hphase. cbn [In] in Hprj, Hphase.
  unfold project_bodies.
  destruct (Z.eqb_spec (pp (_PROJECT_NAME ctx)) _MV_RWD_PROJ) as [?|?];
    [| destruct (Z.eqb_spec (pp (_PROJECT_NAME ctx)) _ME_RWD_PROJ) as [?|?];
       [| exfalso; intuition congruence ] ];
    rewrite (sel_PERFORMANCE_TYPE_matched ctx _ Hperf);
    unfold sel_DEVELOPMENT_PHASE; cbv zeta;
    repeat match goal with
           | |- context [Z.eqb ?x ?y] =>
               destruct (Z.eqb_spec x y) as [?|?];
               [ do 3 eexists; split; [| reflexivity ]; cbn [In];
                 repeat first [ left; reflexivity | right ]
               | ]
           end;
    exfalso; intuition congruence.
Qed.

(** The header defines nothing under an unknown project, stops at the first
    nested chain that knows no branch, and otherwise is the body of the phase
    with the additions of the market. *)
Lemma chain_PROJECT_NAME (ctx : ResolutionContext) :
  (~ matched PROJECT_NAME ctx /\ sel_PROJECT_NAME ctx = Ok [])
  \/ (exists a, In a [PERFORMANCE_TYPE; DEVELOPMENT_PHASE; MARKET_VERSION]
        /\ examined a ctx /\ ~ matched a ctx
        /\ sel_PROJECT_NAME ctx = Failed [UndefinedAxis a])
  \/ (matched PROJECT_NAME ctx /\ matched PERFORMANCE_TYPE ctx
      /\ matched DEVELOPMENT_PHASE ctx /\ matched MARKET_VERSION ctx
      /\ exists base na others market,
          In (base, na, others) project_bodies /\ In market [na; others]
          /\ sel_PROJECT_NAME ctx = Ok (base ++ market)).
Proof.
  destruct (matched_dec PROJECT_NAME ctx) as [Hprj|Hprj];
    [| left; split; [exact Hprj | apply sel_PROJECT_NAME_unmatched; exact Hprj] ].
  right.
  destruct (matched_dec PERFORMANCE_TYPE ctx) as [Hperf|Hperf];
    [| left; exists PERFORMANCE_TYPE; repeat split; try assumption;
       [ simpl; tauto
       | apply sel_PROJECT_NAME_inner_unmatched; simpl; tauto ] ].
  destruct (matched_dec DEVELOPMENT_PHASE ctx) as [Hphase|Hphase];
    [| left; exists DEVELOPMENT_PHASE; repeat split; try assumption;
       [ simpl; tauto
       | apply sel_PROJECT_NAME_inner_unmatched; simpl; tauto ] ].
  destruct (matched_dec MARKET_VERSION ctx) as [Hmarket|Hmarket];
    [| left; exists MARKET_VERSION; repeat split; try assumption;
       [ simpl; tauto
       | apply sel_PROJECT_NAME_inner_unmatched; simpl; tauto ] ].
  right. repeat (split; [assumption|]).
  destruct (sel_PROJECT_NAME_bodies ctx Hprj Hperf Hphase) as [base [na [others [Hin Hsel]]]].
  destruct (in_phase_matched ctx base na others Hmarket) as [market [Hm Hok]].
  exists base, na, others, market. rewrite Hsel. auto.
Qed.

(** ** Diagnostics of the initialisers *)

Lemma eval_decls_errors (ds : list Decl) (e : ConfigError) :
  In e (errors (eval_decls ds)) ->
  exists n, e = ExcessInitializers n \/ e = NotConstant n.
Proof.
  induction ds as [|d ds IH]; cbn [eval_decls]; [intros []|].
  rewrite errors_rmap, errors_both, in_app_iff. intros [H|H]; [|auto].
  unfold eval_decl, check_decl in H.
  destruct (forallb is_const (constants_of (d_init d))), (too_many (d_init d));
    cbn in H; intuition (subst; eauto).
Qed.

Lemma eval_decls_complete (ds : list Decl) :
  Forall (fun d => check_decl d = []) ds -> eval_decls ds = Ok (map bind ds).
Proof.
  induction 1 as [|d ds Hd _ IH]; [reflexivity|].
  cbn [eval_decls map]. unfold eval_decl. rewrite Hd, IH. reflexivity.
Qed.

Lemma errors_preprocess (ctx : ResolutionContext) (e : ConfigError) :
  In e (errors (preprocess ctx)) <->
  In e (errors (sel_PROJECT_NAME ctx))
  \/ In e (errors (sel_GATE_IC_TYPE ctx))
  \/ In e (errors (sel_POWER_MODULE_TYPE ctx))
  \/ In e (errors (sel_MOT_CUR_SENSOR_TYPE ctx))
  \/ In e (errors (sel_ETPU_CALCULATION_TIME_OPTION ctx))
  \/ In e (errors (sel_PWM_UPDATETIME_AUTO_MODE ctx))
  \/ In e (errors (sel_SA_2STAGE_PWM_MODE ctx))
  \/ In e (errors (sel_SA_SQPWM_REGEN_DIS ctx))
  \/ In e (errors (sel_PWM_BURST_MODE ctx))
  \/ In e (errors (sel_VAR_DTGS_OPTION ctx)).
Proof.
  unfold preprocess. rewrite errors_rmap, !errors_both, !in_app_iff. tauto.
Qed.

Lemma errors_resolve (ctx : ResolutionContext) (a : Axis) :
  In (UndefinedAxis a) (errors (resolve ctx))
  <-> In (UndefinedAxis a) (errors (preprocess ctx)).
Proof.
  unfold resolve, rbind.
  destruct (preprocess ctx) as [sel|es]; cbn [errors]; [|tauto].
  rewrite errors_rmap. split; [|intros []].
  intros H. apply eval_decls_errors in H as [n [H|H]]; discriminate H.
Qed.

Lemma accepted_unguarded (a : Axis) (ctx : ResolutionContext) :
  guarded_by_sentinel a = false -> (accepted a ctx <-> matched a ctx).
Proof.
  unfold accepted. intros ->. intuition discriminate.
Qed.

(** X1.  The diagnostics [UndefinedAxis] of a build are exact: a switch is
    named exactly when its chain is examined and takes no branch, that is,
    when the switch is the sentinel its chain tests first or is none of the
    enumerators of the chain.  Every such chain is reported, not only the
    first one; the project name never is, and the initialisers raise no
    [UndefinedAxis]. *)
Theorem undefined_axis_diagnostics_are_exact (ctx : ResolutionContext) (a : Axis) :
  In (UndefinedAxis a) (errors (resolve ctx))
  <-> a <> PROJECT_NAME /\ examined a ctx /\ ~ accepted a ctx.
Proof.
  rewrite errors_resolve, errors_preprocess.
  pose proof (chain_PROJECT_NAME ctx) as Hprj.
  pose proof (chain_GATE_IC_TYPE ctx) as Hg.
  pose proof (chain_POWER_MODULE_TYPE ctx) as Hpm.
  pose proof (chain_MOT_CUR_SENSOR_TYPE ctx) as Hs.
  pose proof (chain_ETPU_CALCULATION_TIME_OPTION ctx) as He.
  pose proof (chain_PWM_UPDATETIME_AUTO_MODE ctx) as Ha.
  pose proof (chain_SA_2STAGE_PWM_MODE ctx) as Hst.
  pose proof (chain_SA_SQPWM_REGEN_DIS ctx) as Hsq.
  pose proof (chain_PWM_BURST_MODE ctx) as Hbu.
  pose proof (chain_VAR_DTGS_OPTION ctx) as Hdt.
  assert (Hchain : forall b (A : Type) (r : result A),
             (accepted b ctx /\ (exists x, r = Ok x))
             \/ (~ accepted b ctx /\ r = Failed [UndefinedAxis b]) ->
             (In (UndefinedAxis a) (errors r) <-> a = b /\ ~ accepted b ctx)).
  { intros b A r [[Hacc [x ->]]|[Hna ->]]; cbn [errors In].
    - split; [intros [] | intros [_ Hna]; exact (Hna Hacc)].
    - split; [ intros [H|[]]; inversion H; subst; split; [reflexivity | exact Hna]
             | intros [-> _]; left; reflexivity ]. }
  rewrite (Hchain _ _ _ Hg), (Hchain _ _ _ Hpm), (Hchain _ _ _ Hs), (Hchain _ _ _ He),
    (Hchain _ _ _ Ha), (Hchain _ _ _ Hst), (Hchain _ _ _ Hsq), (Hchain _ _ _ Hbu),
    (Hchain _ _ _ Hdt).
  clear Hg Hpm Hs He Ha Hst Hsq Hbu Hdt Hchain.
  assert (Hin : In (UndefinedAxis a) (errors (sel_PROJECT_NAME ctx))
                <-> In a [PERFORMANCE_TYPE; DEVELOPMENT_PHASE; MARKET_VERSION]
                    /\ examined a ctx /\ ~ matched a ctx).
  { destruct Hprj as [[Hun ->]|[[b [Hb [Hex [Hun ->]]]]|[H1 [H2 [H3 [H4 H]]]]]].
    - cbn [errors In]. split; [intros []|].
      intros [[<-|[<-|[<-|[]]]] [Hex _]]; cbn [examined] in Hex; tauto.
    - cbn [errors In]. split.
      + intros [H|[]]. inversion H; subst. auto.
      + intros [Ha [Hexa Huna]]. left. f_equal.
        destruct Hb as [<-|[<-|[<-|[]]]], Ha as [<-|[<-|[<-|[]]]];
          cbn [examined] in *; tauto.
    - destruct H as [base [na [others [market [_ [_ ->]]]]]].
      cbn [errors In]. split; [intros []|].
      intros [[<-|[<-|[<-|[]]]] [_ Hun]]; tauto. }
  rewrite Hin. clear Hin Hprj.
  destruct a; cbn [In examined];
    rewrite ?(accepted_unguarded PERFORMANCE_TYPE ctx eq_refl),
      ?(accepted_unguarded DEVELOPMENT_PHASE ctx eq_refl),
      ?(accepted_unguarded MARKET_VERSION ctx eq_refl);
    intuition (try discriminate; try congruence).
Qed.


(** ** The branches a selection is made of *)

Ltac in_list := cbn [In]; repeat first [ left; reflexivity | right ].

Ltac walk_branches :=
  cbv zeta;
  repeat match goal with
         | |- context [Z.eqb ?x ?y] => destruct (Z.eqb x y)
         end;
  intros H; inversion H.

Lemma preprocess_Branches (ctx : ResolutionContext) (sel : Selected) :
  preprocess ctx = Ok sel -> Branches sel.
Proof.
  intros H. apply preprocess_Ok_inv in H
    as [_ [Hg [Hpm [Hs [He [Ha [Hst [Hsq [Hbu Hdt]]]]]]]]].
  constructor.
  - revert Hg. unfold sel_GATE_IC_TYPE. walk_branches; cbn [In]; tauto.
  - exact (sel_POWER_MODULE_TYPE_cases ctx _ Hpm).
  - exact (sel_MOT_CUR_SENSOR_TYPE_cases ctx _ Hs).
  - revert He. unfold sel_ETPU_CALCULATION_TIME_OPTION. walk_branches; reflexivity.
  - revert Ha. unfold sel_PWM_UPDATETIME_AUTO_MODE.
    walk_branches; eexists; (split; [|reflexivity]); cbn [In]; tauto.
  - revert Hst. unfold sel_SA_2STAGE_PWM_MODE.
    walk_branches; eexists; (split; [|reflexivity]); cbn [In]; tauto.
  - revert Hsq. unfold sel_SA_SQPWM_REGEN_DIS.
    walk_branches; eexists; (split; [|reflexivity]); cbn [In]; tauto.
  - revert Hbu. unfold sel_PWM_BURST_MODE.
    walk_branches; do 2 eexists; (split; [|reflexivity]); cbn [In]; tauto.
  - revert Hdt. unfold sel_VAR_DTGS_OPTION.
    walk_branches; eexists; (split; [|reflexivity]); cbn [In]; tauto.
Qed.

(** ** Builds that go through *)

Lemma preprocess_valid (ctx : ResolutionContext) :
  (exists sel, preprocess ctx = Ok sel) <-> valid_context ctx.
Proof.
  pose proof (chain_PROJECT_NAME ctx) as Hprj.
  pose proof (chain_GATE_IC_TYPE ctx) as Hg.
  pose proof (chain_POWER_MODULE_TYPE ctx) as Hpm.
  pose proof (chain_MOT_CUR_SENSOR_TYPE ctx) as Hs.
  pose proof (chain_ETPU_CALCULATION_TIME_OPTION ctx) as He.
  pose proof (chain_PWM_UPDATETIME_AUTO_MODE ctx) as Ha.
  pose proof (chain_SA_2STAGE_PWM_MODE ctx) as Hst.
  pose proof (chain_SA_SQPWM_REGEN_DIS ctx) as Hsq.
  pose proof (chain_PWM_BURST_MODE ctx) as Hbu.
  pose proof (chain_VAR_DTGS_OPTION ctx) as Hdt.
  unfold valid_context, file_axes. split.
  - intros [sel H]. apply preprocess_Ok_inv in H
      as [Kprj [Kg [Kpm [Ks [Ke [Ka [Kst [Ksq [Kbu Kdt]]]]]]]]].
    split.
    + destruct Hprj as [[Hun _]|[[a [_ [_ [_ Hf]]]]|[_ [H2 [H3 [H4 _]]]]]].
      * intros Hm. destruct (Hun Hm).
      * rewrite Hf in Kprj. discriminate Kprj.
      * auto.
    + intros a [<-|[<-|[<-|[<-|[<-|[<-|[<-|[<-|[<-|[]]]]]]]]]];
        match goal with
        | K : ?sel_a ctx = Ok _, D : _ \/ (_ /\ ?sel_a ctx = Failed _) |- _ =>
            destruct D as [[D _]|[_ D]]; [ exact D | rewrite D in K; discriminate K ]
        end.
  - intros [Hv Hacc].
    assert (Kprj : exists prj, sel_PROJECT_NAME ctx = Ok prj).
    { destruct Hprj as [[_ Hok]|[[a [Ha' [Hex [Hun _]]]]|[_ [_ [_ [_ Hok]]]]]].
      - eauto.
      - exfalso. apply Hun.
        assert (Hp : matched PROJECT_NAME ctx)
          by (destruct Ha' as [<-|[<-|[<-|[]]]]; cbn [examined] in Hex;
              [ exact Hex | exact (proj1 Hex) | exact (proj1 Hex) ]).
        destruct (Hv Hp) as [H2 [H3 H4]].
        destruct Ha' as [<-|[<-|[<-|[]]]]; assumption.
      - destruct Hok as [base [na [others [market [_ [_ Hok]]]]]]. eauto. }
    destruct Hg as [[_ [g Kg]]|[Hn _]]; [| destruct Hn; apply Hacc; in_list ].
    destruct Hpm as [[_ [pm Kpm]]|[Hn _]]; [| destruct Hn; apply Hacc; in_list ].
    destruct Hs as [[_ [s Ks]]|[Hn _]]; [| destruct Hn; apply Hacc; in_list ].
    destruct He as [[_ [e Ke]]|[Hn _]]; [| destruct Hn; apply Hacc; in_list ].
    destruct Ha as [[_ [m Ka]]|[Hn _]]; [| destruct Hn; apply Hacc; in_list ].
    destruct Hst as [[_ [st Kst]]|[Hn _]]; [| destruct Hn; apply Hacc; in_list ].
    destruct Hsq as [[_ [sq Ksq]]|[Hn _]]; [| destruct Hn; apply Hacc; in_list ].
    destruct Hbu as [[_ [bu Kbu]]|[Hn _]]; [| destruct Hn; apply Hacc; in_list ].
    destruct Hdt as [[_ [dt Kdt]]|[Hn _]]; [| destruct Hn; apply Hacc; in_list ].
    destruct Kprj as [prj Kprj].
    exists (mkSelected prj g pm s e m st sq bu dt).
    unfold preprocess. rewrite Kprj, Kg, Kpm, Ks, Ke, Ka, Kst, Ksq, Kbu, Kdt.
    reflexivity.
Qed.


(** ** Initialisers that translate *)

Lemma is_const_mul (a b : cval) : is_const (mul a b) = is_const a && is_const b.
Proof.
  destruct a, b; reflexivity.
Qed.

Lemma is_const_sub (a b : cval) : is_const (sub a b) = is_const a && is_const b.
Proof.
  destruct a, b; reflexivity.
Qed.

Lemma is_const_neg (a : cval) : is_const (neg a) = is_const a.
Proof.
  destruct a; reflexivity.
Qed.

(** A division with a floating operand is a floating division: it is
    constant whenever its operands are. *)
Lemma is_const_div_flt (m k : Z) (b : cval) : is_const (div (flt m k) b) = is_const b.
Proof.
  destruct b; reflexivity.
Qed.

Lemma check_decl_nil (d : Decl) :
  check_decl d = []
  <-> forallb is_const (constants_of (d_init d)) = true /\ too_many (d_init d) = false.
Proof.
  unfold check_decl.
  destruct (forallb is_const (constants_of (d_init d))), (too_many (d_init d));
    cbn; intuition discriminate.
Qed.

Lemma check_scalar (c : bool) (ty : ctype) (n : string) (e : cval) :
  check_decl (mkDecl c ty n (Single e)) = [] <-> is_const e = true.
Proof.
  rewrite check_decl_nil. cbn. rewrite andb_true_r. intuition.
Qed.

Lemma excess_iff {A} (n : nat) (l : list A) :
  excess n l = false <-> (List.length l <= n)%nat.
Proof.
  unfold excess. apply Nat.ltb_ge.
Qed.

Lemma check_pair (c : bool) (ty : ctype) (n : string) (a b : cval) :
  check_decl (mkDecl c ty n (PerTargetInit [a; b])) = []
  <-> (2 <= TOTAL_TARGET)%nat /\ is_const a = true /\ is_const b = true.
Proof.
  rewrite check_decl_nil. cbn [d_init constants_of too_many forallb].
  rewrite excess_iff, andb_true_r, andb_true_iff. cbn [List.length]. tauto.
Qed.

(** The tables by target hold nine constants for each of the two targets. *)
Lemma check_target_rows (c : bool) (ty : ctype) (n : string) (m k : Z) :
  check_decl (mkDecl c ty n
                (PerTargetRows VARIABLE_FSW_TAB_OUT_SIZE
                   [repeat (flt m k) 9; repeat (flt m k) 9])) = []
  <-> (2 <= TOTAL_TARGET)%nat.
Proof.
  rewrite check_decl_nil. cbn [d_init constants_of too_many].
  replace (forallb is_const (List.concat [repeat (flt m k) 9; repeat (flt m k) 9]))
    with true by reflexivity.
  replace (existsb (excess VARIABLE_FSW_TAB_OUT_SIZE)
             [repeat (flt m k) 9; repeat (flt m k) 9]) with false by reflexivity.
  rewrite orb_false_r, excess_iff. cbn [List.length]. tauto.
Qed.

(** The gain table holds 19 rows of 11 constants. *)
Lemma check_hovm :
  check_decl (mkDecl true FLOAT32 "HSG_VAR_HOVMGAIN_TAB"
                (Rows VARIABLE_HOVM_TAB_ROW_SIZE VARIABLE_HOVM_TAB_COL_SIZE
                   (repeat hovm_row_upper 9 ++ repeat hovm_row_lower 10))) = []
  <-> (19 <= VARIABLE_HOVM_TAB_ROW_SIZE)%nat /\ (11 <= VARIABLE_HOVM_TAB_COL_SIZE)%nat.
Proof.
  rewrite check_decl_nil. cbn [d_init constants_of too_many].
  replace (forallb is_const
             (List.concat (repeat hovm_row_upper 9 ++ repeat hovm_row_lower 10)))
    with true by reflexivity.
  rewrite orb_false_iff, excess_iff.
  replace (List.length (repeat hovm_row_upper 9 ++ repeat hovm_row_lower 10))
    with 19%nat by reflexivity.
  assert (H : existsb (excess VARIABLE_HOVM_TAB_COL_SIZE)
                (repeat hovm_row_upper 9 ++ repeat hovm_row_lower 10)
              = excess VARIABLE_HOVM_TAB_COL_SIZE hovm_row_upper).
  { unfold excess. cbn [repeat app existsb].
    change (List.length hovm_row_upper) with 11%nat.
    change (List.length hovm_row_lower) with 11%nat.
    destruct (VARIABLE_HOVM_TAB_COL_SIZE <? 11)%nat; reflexivity. }
  rewrite H, excess_iff.
  replace (List.length hovm_row_upper) with 11%nat by reflexivity.
  tauto.
Qed.

(** The declaration at a position of a list all of whose declarations
    satisfy [H]. *)
Ltac pick H k K :=
  match type of H with
  | forall x, In x ?l -> _ =>
      match eval cbn [nth_error] in (nth_error l k) with
      | Some ?d => pose proof (H d (nth_error_In l k (eq_refl (Some d)))) as K
      end
  end.

Lemma sensor_range_is_const (s : CurSensorCfg) (l : list CurSensorCfg) :
  In s l -> Forall (fun s => is_const (CUR_SENSOR_RANGE_MOT s) = true) l ->
  is_const (CUR_SENSOR_RANGE_MOT s) = true.
Proof.
  intros Hin HF. rewrite Forall_forall in HF. auto.
Qed.

Lemma declarations_check (sel : Selected) :
  Branches sel ->
  Forall (fun d => check_decl d = []) (declarations sel) <-> headers_fit.
Proof.
  intros B.
  assert (Hs : is_const (CUR_SENSOR_RANGE_MOT (s_sensor sel)) = true).
  { apply (sensor_range_is_const _ _ (b_sensor _ B)).
    repeat (apply Forall_cons; [reflexivity|]). apply Forall_nil. }
  destruct B as [_ _ _ _ [fa [Hfa Ea]] [fst [Hfst Est]] [fsq [Hfsq Esq]]
                   [off [on [Hbu Ebu]]] [fd [Hfd Edt]]].
  destruct sel as [prj g pm s e m st sq bu dt].
  cbn [s_project s_gate s_power s_sensor s_etpu s_auto s_stage s_sqpwm s_burst s_dtgs] in *.
  subst m st sq bu dt.
  unfold headers_fit, extern_constants. rewrite !Forall_cons_iff. split.
  - intros HF.
    pose proof (declarations_fit _ HF) as Hfit.
    unfold declarations, BswCfgPwm_c, BswCfgRdc_c, CcCalBase_c, PwmBurst_decls in HF.
    apply Forall_app in HF as [HA HF]. apply Forall_app in HF as [HB HF].
    apply Forall_app in HF as [H1 HF]. apply Forall_app in HF as [_ HF].
    apply Forall_app in HF as [H2 HF]. apply Forall_app in HF as [_ HF].
    apply Forall_app in HF as [H3 _].
    rewrite Forall_forall in HA, HB, H1, H2, H3.
    pick HA 9%nat Kmode.
    pick HB 10%nat Kmot.
    pick HB 22%nat Khsg.
    pick H1 0%nat Koffset.
    pick H1 1%nat Kdir.
    pick H2 0%nat Kset.
    pick H3 1%nat Kclr.
    pick H3 18%nat KL1.
    pick H3 23%nat Khovm.
    pick H3 35%nat Kzcc.
    pick H3 42%nat Khv.
    pick H3 44%nat Klvo.
    pick H3 45%nat Klvs.
    clear HA HB H1 H2 H3. cbv beta in *.
    apply check_hovm in Khovm as [Hrow Hcol].
    apply check_pair in Koffset, Kdir, Kclr, Kzcc, Khv, Klvo, Klvs.
    apply check_scalar in Kmode, Kmot, Khsg, Kset, KL1.
    unfold observer_pole in KL1.
    repeat rewrite is_const_mul in KL1. repeat rewrite andb_true_iff in KL1.
    repeat rewrite is_const_mul in Kzcc. repeat rewrite andb_true_iff in Kzcc.
    unfold BSWCFGPWM_MOT_PWMMAC_MODE in Kmode.
    repeat split; try assumption; try tauto; apply Forall_nil.
  - intros [Hfit [Hrow [Hcol [K1 [K2 [K3 [K4 [K5 [K6 [K7 [K8 [K9 [K10 [K11 [K12 [K13
             [K14 _]]]]]]]]]]]]]]]]].
    assert (Kfa : is_const fa = true) by (destruct Hfa as [<-|[<-|[]]]; assumption).
    assert (Kfst : is_const fst = true) by (destruct Hfst as [<-|[<-|[]]]; assumption).
    assert (Kfsq : is_const fsq = true) by (destruct Hfsq as [<-|[<-|[]]]; assumption).
    assert (Kfd : is_const fd = true) by (destruct Hfd as [<-|[<-|[]]]; assumption).
    assert (Koff : is_const off = true)
      by (destruct Hbu as [H|[H|[]]]; inversion H; reflexivity).
    assert (Kon : is_const on = true)
      by (destruct Hbu as [H|[H|[]]]; inversion H; reflexivity).
    clear Hfa Hfst Hfsq Hfd Hbu.
    unfold declarations, BswCfgPwm_c, BswCfgRdc_c, CcCalBase_c, PwmBurst_decls.
    unfold BSWCFGPWM_MOT_PWMMAC_MODE, BSWCFGPWM_HSG_PWMMAC_MODE, observer_pole,
      CUR_SENSOR_SCALE_MOT, CUR_SENSOR_SCALE_HSG, CUR_SENSOR_OFFSET_MOT,
      CUR_SENSOR_OFFSET_HSG, HVBATT_SENSOR_OFFSET.
    repeat (apply Forall_app; split);
      repeat (apply Forall_cons;
              [ first [ apply check_scalar
                      | apply check_pair; split; [ exact Hfit | split ]
                      | apply check_target_rows; exact Hfit
                      | apply check_hovm; split; assumption ];
                repeat first [ assumption
                             | exact eq_refl
                             | rewrite is_const_mul; apply andb_true_intro; split
                             | rewrite is_const_sub; apply andb_true_intro; split
                             | rewrite is_const_neg
                             | rewrite is_const_div_flt ]
              |]);
      apply Forall_nil.
Qed.

(** X2.  Under headers that fit, a build goes through exactly on a valid
    context.  Valid: every chain outside the project header takes a branch,
    and under a known project so do the performance, phase and market chains
    (an unknown project needs none of them).  Fitting: there are at least
    two targets, the gain table has room for its 19 rows of 11 gains, and the
    macros of the absent headers are constant expressions (no integer
    division by zero in the scales of the voltage sensors), so that no
    initialiser draws a diagnostic. *)
Theorem builds_go_through_exactly_on_valid_contexts (ctx : ResolutionContext) :
  headers_fit ->
  ((exists r, resolve ctx = Ok r) <-> valid_context ctx).
Proof.
  intros Hfit. rewrite <- preprocess_valid. split.
  - intros [r Hr]. apply resolve_Ok_inv in Hr as [sel [Hpre _]]. eauto.
  - intros [sel Hpre].
    apply (declarations_check sel (preprocess_Branches ctx sel Hpre)) in Hfit.
    exists (mkResolved (s_project sel) (map bind (declarations sel))).
    unfold resolve, rbind. rewrite Hpre, (eval_decls_complete _ Hfit). reflexivity.
Qed.

(** ** Definitions against declarations *)

Lemma firstn_Forall {A} (P : A -> Prop) (n : nat) (l : list A) :
  Forall P l -> Forall P (firstn n l).
Proof.
  intros H. revert n. induction H as [|x l Hx _ IH]; intros [|n]; cbn [firstn];
    constructor; auto.
Qed.

Lemma pad_Forall {A} (P : A -> Prop) (n : nat) (zero : A) (l : list A) :
  P zero -> Forall P l -> Forall P (pad n zero l).
Proof.
  intros Hz Hl. unfold pad. apply Forall_app. split.
  - apply firstn_Forall. exact Hl.
  - apply Forall_forall. intros x Hx. apply repeat_spec in Hx. subst. exact Hz.
Qed.

Lemma init_rows_conform (ty : ctype) (n cols : nat) (rows : list (list cval)) :
  List.length (init_rows ty n cols rows) = n
  /\ Forall (fun row => List.length row = cols) (init_rows ty n cols rows).
Proof.
  unfold init_rows. split; [apply pad_length|].
  apply pad_Forall.
  - unfold init_array. apply pad_length.
  - apply Forall_forall. intros row Hrow. apply in_map_iff in Hrow as [r [<- _]].
    unfold init_array. apply pad_length.
Qed.

(** The binding of a definition has the type and the dimensions of its
    declarator. *)
Lemma binding_conforms (d : Decl) : conforms (signature d) (binding_of d).
Proof.
  unfold conforms, signature, binding_of, dimensions.
  destruct (d_init d); cbn [x_dims x_type].
  - reflexivity.
  - split; [reflexivity|]. unfold init_array. apply pad_length.
  - split; [reflexivity|]. apply init_rows_conform.
  - split; [reflexivity|]. apply init_rows_conform.
Qed.

Lemma bindings_conform (ds : list Decl) :
  Forall2 conforms (map signature ds) (map snd (map bind ds)).
Proof.
  induction ds as [|d ds IH]; cbn [map]; constructor; [|exact IH].
  apply binding_conforms.
Qed.

Lemma names_of_bindings (ds : list Decl) :
  map fst (map bind ds) = map d_name ds.
Proof.
  rewrite map_map. reflexivity.
Qed.

Lemma names_of_signatures (ds : list Decl) :
  map x_name (map signature ds) = map d_name ds.
Proof.
  rewrite map_map. reflexivity.
Qed.

(** The chains of [CcCalBase.h] take the branch the chains of [CcCalBase.c]
    take, and declare what that branch defines. *)
Lemma extern_SA_2STAGE_PWM_MODE_agrees (ctx : ResolutionContext) (st : list Decl) :
  sel_SA_2STAGE_PWM_MODE ctx = Ok st ->
  extern_SA_2STAGE_PWM_MODE ctx = Ok (map signature st).
Proof.
  unfold sel_SA_2STAGE_PWM_MODE, extern_SA_2STAGE_PWM_MODE.
  walk_branches; reflexivity.
Qed.

Lemma extern_SA_SQPWM_REGEN_DIS_agrees (ctx : ResolutionContext) (sq : list Decl) :
  sel_SA_SQPWM_REGEN_DIS ctx = Ok sq ->
  extern_SA_SQPWM_REGEN_DIS ctx = Ok (map signature sq).
Proof.
  unfold sel_SA_SQPWM_REGEN_DIS, extern_SA_SQPWM_REGEN_DIS.
  walk_branches; reflexivity.
Qed.

Lemma extern_PWM_BURST_MODE_agrees (ctx : ResolutionContext) (bu : list Decl) :
  sel_PWM_BURST_MODE ctx = Ok bu ->
  extern_PWM_BURST_MODE ctx = Ok (map signature bu).
Proof.
  unfold sel_PWM_BURST_MODE, extern_PWM_BURST_MODE.
  walk_branches; reflexivity.
Qed.

Lemma extern_VAR_DTGS_OPTION_agrees (ctx : ResolutionContext) (dt : list Decl) :
  sel_VAR_DTGS_OPTION ctx = Ok dt ->
  extern_VAR_DTGS_OPTION ctx = Ok (map signature dt).
Proof.
  unfold sel_VAR_DTGS_OPTION, extern_VAR_DTGS_OPTION.
  walk_branches; reflexivity.
Qed.

Lemma signatures_of_declarations (sel : Selected) :
  map signature (declarations sel)
  = BswCfgPwm_h ++ BswCfgRdc_h
    ++ CcCalBase_h (map signature (s_stage sel)) (map signature (s_sqpwm sel))
         (map signature (s_burst sel)) (map signature (s_dtgs sel)).
Proof.
  unfold declarations, CcCalBase_c, CcCalBase_h.
  rewrite !map_app. reflexivity.
Qed.

(** X3.  The definitions of the source files agree with the [extern]
    declarations of the headers: in every build that goes through, the
    headers declare, in their order, exactly what the three source files
    define, with the same [const], type, name and dimensions, under every
    branch of the chains of [CcCalBase.h]; and every binding of the table
    has the type and the dimensions of its declaration. *)
Theorem definitions_agree_with_their_declarations
  (ctx : ResolutionContext) (r : Resolved) :
  resolve ctx = Ok r ->
  exists sel xs,
    preprocess ctx = Ok sel
    /\ interface ctx = Ok xs
    /\ xs = map signature (declarations sel)
    /\ map x_name xs = map fst (calibration r)
    /\ Forall2 conforms xs (map snd (calibration r)).
Proof.
  intros Hr. apply resolve_Ok_inv in Hr as [sel [Hpre [_ [Ht _]]]].
  exists sel, (map signature (declarations sel)).
  split; [exact Hpre|].
  apply preprocess_Ok_inv in Hpre as [_ [_ [_ [_ [He [Ha [Hst [Hsq [Hbu Hdt]]]]]]]]].
  split; [|split; [reflexivity|split]].
  - unfold interface.
    rewrite He, Ha, (extern_SA_2STAGE_PWM_MODE_agrees ctx _ Hst),
      (extern_SA_SQPWM_REGEN_DIS_agrees ctx _ Hsq),
      (extern_PWM_BURST_MODE_agrees ctx _ Hbu),
      (extern_VAR_DTGS_OPTION_agrees ctx _ Hdt).
    cbn [both rmap]. rewrite signatures_of_declarations. reflexivity.
  - rewrite Ht, names_of_bindings, names_of_signatures. reflexivity.
  - rewrite Ht. apply bindings_conform.
Qed.


(** ** Names *)

Lemma mentions_In (l : list string) (n : string) : mentions l n = true <-> In n l.
Proof.
  unfold mentions. rewrite existsb_exists. split.
  - intros [x [Hx E]]. apply String.eqb_eq in E. subst. exact Hx.
  - intros H. exists n. split; [exact H | apply String.eqb_refl].
Qed.

Lemma distinct_NoDup (l : list string) : distinct l = true <-> NoDup l.
Proof.
  induction l as [|n l IH]; cbn [distinct].
  - split; [constructor | reflexivity].
  - rewrite andb_true_iff, negb_true_iff, IH. split.
    + intros [Hn Hl]. constructor; [|exact Hl].
      intros Hin. apply mentions_In in Hin. congruence.
    + intros H. inversion H as [|? ? Hn Hl]; subst. split; [|exact Hl].
      destruct (mentions l n) eqn:E; [|reflexivity].
      apply mentions_In in E. contradiction.
Qed.

Lemma lists_once_Permutation (names l : list string) :
  NoDup names -> lists_once names l = true -> NoDup l /\ Permutation l names.
Proof.
  unfold lists_once. rewrite !andb_true_iff, !forallb_forall.
  intros Hnames [[Hd Hl] Hn]. apply distinct_NoDup in Hd.
  split; [exact Hd|].
  apply NoDup_Permutation; [exact Hd | exact Hnames |].
  intros n. split; intros H.
  - apply mentions_In, Hl, H.
  - apply mentions_In, Hn, H.
Qed.

Lemma project_macros_NoDup : NoDup project_macros.
Proof.
  apply distinct_NoDup. vm_compute. reflexivity.
Qed.

(** Every phase of both projects, for either group of markets, defines the
    sixteen macros. *)
Lemma project_bodies_list_once :
  forallb (fun '(base, na, others) =>
             lists_once project_macros (map fst (base ++ na))
             && lists_once project_macros (map fst (base ++ others)))
          project_bodies = true.
Proof.
  vm_compute. reflexivity.
Qed.

(** X4.  Under a known project the header defines the same sixteen macros,
    each once, whatever the performance type, the phase and the market are
    (the ME project moves two of them into its market chain from the
    prototype phase on, so the order differs). *)
Theorem project_header_defines_each_macro_once (ctx : ResolutionContext) (r : Resolved) :
  resolve ctx = Ok r ->
  matched PROJECT_NAME ctx ->
  NoDup (map fst (project r)) /\ Permutation (map fst (project r)) project_macros.
Proof.
  intros Hr Hprj. apply resolve_Ok_inv in Hr as [sel [Hpre [Hp _]]].
  apply preprocess_Ok_inv in Hpre as [Hsel _]. rewrite <- Hp in Hsel.
  destruct (chain_PROJECT_NAME ctx)
    as [[Hun _]|[[a [_ [_ [_ Hf]]]]|[_ [_ [_ [_ H]]]]]].
  - destruct (Hun Hprj).
  - rewrite Hf in Hsel. discriminate Hsel.
  - destruct H as [base [na [others [market [Hin [Hm Hok]]]]]].
    rewrite Hok in Hsel. inversion Hsel as [Hproj].
    pose proof project_bodies_list_once as Hall.
    rewrite forallb_forall in Hall. specialize (Hall _ Hin). cbv beta iota in Hall.
    apply andb_true_iff in Hall as [Hna Hothers].
    apply (lists_once_Permutation _ _ project_macros_NoDup).
    destruct Hm as [<-|[<-|[]]]; assumption.
Qed.

Lemma lookup_In (t : Table) (n : string) (b : Binding) :
  NoDup (map fst t) -> (lookup n t = Some b <-> In (n, b) t).
Proof.
  induction t as [|[m c] t IH]; cbn [lookup map fst In].
  - intros _. split; [discriminate | intros []].
  - intros H. inversion H as [|? ? Hm Ht]; subst.
    destruct (String.eqb_spec n m) as [->|Hne].
    + split.
      * intros E. inversion E. left. reflexivity.
      * intros [E|Hin]; [inversion E; reflexivity|].
        exfalso. apply Hm. apply in_map_iff. exists (m, b). auto.
    + rewrite (IH Ht). split; [auto|].
      intros [E|Hin]; [inversion E; congruence | exact Hin].
Qed.

Lemma calibration_names_NoDup : NoDup calibration_names.
Proof.
  apply distinct_NoDup. vm_compute. reflexivity.
Qed.

Lemma names_of_declarations (sel : Selected) :
  Branches sel -> map d_name (declarations sel) = calibration_names.
Proof.
  intros [_ _ _ _ _ [fst [_ Est]] [fsq [_ Esq]] [off [on [_ Ebu]]] [fd [_ Edt]]].
  unfold declarations, CcCalBase_c. rewrite Est, Esq, Ebu, Edt. reflexivity.
Qed.

(** X5.  The table of a build that goes through binds the names the source
    files define, in the order of the files, and binds no name twice,
    whatever branches the chains take: looking a name up finds the one
    binding the table holds for it. *)
Theorem table_binds_each_declared_name_once (ctx : ResolutionContext) (r : Resolved) :
  resolve ctx = Ok r ->
  map fst (calibration r) = calibration_names
  /\ NoDup (map fst (calibration r))
  /\ forall n b, lookup n (calibration r) = Some b <-> In (n, b) (calibration r).
Proof.
  intros Hr. apply resolve_Ok_inv in Hr as [sel [Hpre [_ [Ht _]]]].
  assert (Hnames : map fst (calibration r) = calibration_names).
  { rewrite Ht, names_of_bindings.
    apply names_of_declarations, (preprocess_Branches ctx), Hpre. }
  split; [exact Hnames|].
  assert (Hnd : NoDup (map fst (calibration r)))
    by (rewrite Hnames; exact calibration_names_NoDup).
  split; [exact Hnd|].
  intros n b. apply lookup_In, Hnd.
Qed.

(** ** What a switch selects *)

Lemma lookup_same_outside (names : list string) (ds1 ds2 : list Decl) (n : string) :
  Forall2 (same_outside names) ds1 ds2 -> ~ In n names ->
  lookup n (map bind ds1) = lookup n (map bind ds2).
Proof.
  intros HF Hn. induction HF as [|d1 d2 ds1 ds2 [Hname Hsame] _ IH]; [reflexivity|].
  cbn [map lookup bind]. rewrite <- Hname.
  destruct (String.eqb_spec n (d_name d1)) as [->|_]; [|exact IH].
  rewrite (Hsame Hn). reflexivity.
Qed.

Lemma same_outside_refl (names : list string) (ds : list Decl) :
  Forall2 (same_outside names) ds ds.
Proof.
  induction ds; constructor; [split; auto | assumption].
Qed.

(** One step along two lists of declarations: the same declaration, or one
    of the names set apart. *)
Ltac same_step :=
  split; [ reflexivity
         | first [ intros _; reflexivity | intros K; exfalso; apply K; in_list ] ].

(** A chain reads its own switch only. *)
Lemma preprocess_agree (ctx1 ctx2 : ResolutionContext) (sel1 sel2 : Selected) :
  preprocess ctx1 = Ok sel1 -> preprocess ctx2 = Ok sel2 ->
  (selected PROJECT_NAME ctx1 = selected PROJECT_NAME ctx2 ->
   selected PERFORMANCE_TYPE ctx1 = selected PERFORMANCE_TYPE ctx2 ->
   selected DEVELOPMENT_PHASE ctx1 = selected DEVELOPMENT_PHASE ctx2 ->
   selected MARKET_VERSION ctx1 = selected MARKET_VERSION ctx2 ->
   s_project sel1 = s_project sel2)
  /\ (selected GATE_IC_TYPE ctx1 = selected GATE_IC_TYPE ctx2 -> s_gate sel1 = s_gate sel2)
  /\ (selected POWER_MODULE_TYPE ctx1 = selected POWER_MODULE_TYPE ctx2 ->
      s_power sel1 = s_power sel2)
  /\ (selected MOT_CUR_SENSOR_TYPE ctx1 = selected MOT_CUR_SENSOR_TYPE ctx2 ->
      s_sensor sel1 = s_sensor sel2)
  /\ (selected PWM_UPDATETIME_AUTO_MODE ctx1 = selected PWM_UPDATETIME_AUTO_MODE ctx2 ->
      s_auto sel1 = s_auto sel2)
  /\ (selected SA_2STAGE_PWM_MODE ctx1 = selected SA_2STAGE_PWM_MODE ctx2 ->
      s_stage sel1 = s_stage sel2)
  /\ (selected SA_SQPWM_REGEN_DIS ctx1 = selected SA_SQPWM_REGEN_DIS ctx2 ->
      s_sqpwm sel1 = s_sqpwm sel2)
  /\ (selected PWM_BURST_MODE ctx1 = selected PWM_BURST_MODE ctx2 ->
      s_burst sel1 = s_burst sel2)
  /\ (selected VAR_DTGS_OPTION ctx1 = selected VAR_DTGS_OPTION ctx2 ->
      s_dtgs sel1 = s_dtgs sel2).
Proof.
  intros H1 H2.
  apply preprocess_Ok_inv in H1 as [Aprj [Ag [Apm [As [_ [Aa [Ast [Asq [Abu Adt]]]]]]]]].
  apply preprocess_Ok_inv in H2 as [Bprj [Bg [Bpm [Bs [_ [Ba [Bst [Bsq [Bbu Bdt]]]]]]]]].
  unfold selected.
  repeat split.
  - intros E1 E2 E3 E4.
    assert (E : sel_PROJECT_NAME ctx1 = sel_PROJECT_NAME ctx2).
    { unfold sel_PROJECT_NAME, sel_PERFORMANCE_TYPE, sel_DEVELOPMENT_PHASE, in_phase,
        sel_MARKET_VERSION. cbv zeta. rewrite E1, E2, E3, E4. reflexivity. }
    congruence.
  - intros E. unfold sel_GATE_IC_TYPE in Ag, Bg. rewrite E in Ag. congruence.
  - intros E. unfold sel_POWER_MODULE_TYPE in Apm, Bpm. rewrite E in Apm. congruence.
  - intros E. unfold sel_MOT_CUR_SENSOR_TYPE in As, Bs. rewrite E in As. congruence.
  - intros E. unfold sel_PWM_UPDATETIME_AUTO_MODE in Aa, Ba. rewrite E in Aa. congruence.
  - intros E. unfold sel_SA_2STAGE_PWM_MODE in Ast, Bst. rewrite E in Ast. congruence.
  - intros E. unfold sel_SA_SQPWM_REGEN_DIS in Asq, Bsq. rewrite E in Asq. congruence.
  - intros E. unfold sel_PWM_BURST_MODE in Abu, Bbu. rewrite E in Abu. congruence.
  - intros E. unfold sel_VAR_DTGS_OPTION in Adt, Bdt. rewrite E in Adt. congruence.
Qed.

Lemma declarations_same_outside (a : Axis) (sel1 sel2 : Selected) :
  Branches sel1 -> Branches sel2 ->
  (a <> GATE_IC_TYPE -> s_gate sel1 = s_gate sel2) ->
  (a <> POWER_MODULE_TYPE -> s_power sel1 = s_power sel2) ->
  (a <> MOT_CUR_SENSOR_TYPE -> s_sensor sel1 = s_sensor sel2) ->
  (a <> PWM_UPDATETIME_AUTO_MODE -> s_auto sel1 = s_auto sel2) ->
  (a <> SA_2STAGE_PWM_MODE -> s_stage sel1 = s_stage sel2) ->
  (a <> SA_SQPWM_REGEN_DIS -> s_sqpwm sel1 = s_sqpwm sel2) ->
  (a <> PWM_BURST_MODE -> s_burst sel1 = s_burst sel2) ->
  (a <> VAR_DTGS_OPTION -> s_dtgs sel1 = s_dtgs sel2) ->
  Forall2 (same_outside (bindings_of_switch a)) (declarations sel1) (declarations sel2).
Proof.
  intros B1 B2 Hg Hpm Hs Ha Hst Hsq Hbu Hdt.
  pose proof (b_etpu _ B1) as He1. pose proof (b_etpu _ B2) as He2.
  destruct B1 as [_ _ _ _ _ [f1 [_ Est1]] [q1 [_ Esq1]] [off1 [on1 [_ Ebu1]]] [d1 [_ Edt1]]].
  destruct B2 as [_ _ _ _ _ [f2 [_ Est2]] [q2 [_ Esq2]] [off2 [on2 [_ Ebu2]]] [d2 [_ Edt2]]].
  destruct sel1 as [prj1 g1 pm1 s1 e1 m1 st1 sq1 bu1 dt1].
  destruct sel2 as [prj2 g2 pm2 s2 e2 m2 st2 sq2 bu2 dt2].
  cbn [s_project s_gate s_power s_sensor s_etpu s_auto s_stage s_sqpwm s_burst s_dtgs] in *.
  subst e1 e2 st1 st2 sq1 sq2 bu1 bu2 dt1 dt2.
  destruct a;
    try (rewrite (Hg ltac:(discriminate))); try (rewrite (Hpm ltac:(discriminate)));
    try (rewrite (Hs ltac:(discriminate))); try (rewrite (Ha ltac:(discriminate)));
    try (injection (Hst ltac:(discriminate)) as ->);
    try (injection (Hsq ltac:(discriminate)) as ->);
    try (injection (Hbu ltac:(discriminate)) as -> ->);
    try (injection (Hdt ltac:(discriminate)) as ->);
    clear Hg Hpm Hs Ha Hst Hsq Hbu Hdt;
    try apply same_outside_refl.
  all: unfold declarations, BswCfgPwm_c, BswCfgRdc_c, CcCalBase_c, PwmBurst_decls,
         same_outside, bindings_of_switch.
  all: repeat (apply Forall2_app);
       first [ apply same_outside_refl
             | repeat (apply Forall2_cons; [ same_step |]); apply Forall2_nil ].
Qed.


(** X6.  A switch changes only the constants of its own chain: two builds
    that go through and differ in one switch at most bind every name outside
    [bindings_of_switch] of that switch to the same value, and define the
    same project macros unless the switch is one of the four of the project
    header.  In particular the eTPU option and the four switches of the
    project header change no constant at all. *)
Theorem a_switch_changes_only_its_own_bindings
  (a : Axis) (ctx1 ctx2 : ResolutionContext) (r1 r2 : Resolved) :
  (forall b, b <> a -> selected b ctx1 = selected b ctx2) ->
  resolve ctx1 = Ok r1 -> resolve ctx2 = Ok r2 ->
  (forall n, ~ In n (bindings_of_switch a) ->
             lookup n (calibration r1) = lookup n (calibration r2))
  /\ (~ In a [PROJECT_NAME; PERFORMANCE_TYPE; DEVELOPMENT_PHASE; MARKET_VERSION] ->
      project r1 = project r2).
Proof.
  intros H Hr1 Hr2.
  apply resolve_Ok_inv in Hr1 as [sel1 [Hpre1 [Hp1 [Ht1 _]]]].
  apply resolve_Ok_inv in Hr2 as [sel2 [Hpre2 [Hp2 [Ht2 _]]]].
  destruct (preprocess_agree ctx1 ctx2 sel1 sel2 Hpre1 Hpre2)
    as [Kprj [Kg [Kpm [Ks [Ka [Kst [Ksq [Kbu Kdt]]]]]]]].
  split.
  - intros n Hn. rewrite Ht1, Ht2.
    apply (lookup_same_outside (bindings_of_switch a)); [|exact Hn].
    apply declarations_same_outside;
      [ exact (preprocess_Branches ctx1 sel1 Hpre1)
      | exact (preprocess_Branches ctx2 sel2 Hpre2)
      | intros Ha; auto .. ].
  - intros Ha. rewrite Hp1, Hp2.
    apply Kprj; apply H; intros <-; apply Ha; simpl; tauto.
Qed.

(** ** The market in the T-car phase *)

(** A phase whose market chain adds the same in both branches. *)
Lemma in_phase_same (ctx : ResolutionContext) (base market defs : Defines) :
  in_phase ctx base market market = Ok defs -> defs = base ++ market.
Proof.
  unfold in_phase, sel_MARKET_VERSION. cbv zeta.
  repeat match goal with
         | |- context [if ?b then _ else _] => destruct b
         end; cbn [rmap]; intros H; inversion H; reflexivity.
Qed.

Lemma declarations_of_components (sel1 sel2 : Selected) :
  s_gate sel1 = s_gate sel2 -> s_power sel1 = s_power sel2 ->
  s_sensor sel1 = s_sensor sel2 -> s_etpu sel1 = s_etpu sel2 ->
  s_auto sel1 = s_auto sel2 -> s_stage sel1 = s_stage sel2 ->
  s_sqpwm sel1 = s_sqpwm sel2 -> s_burst sel1 = s_burst sel2 ->
  s_dtgs sel1 = s_dtgs sel2 ->
  declarations sel1 = declarations sel2.
Proof.
  unfold declarations. intros -> -> -> -> -> -> -> -> ->. reflexivity.
Qed.

(** X7.  In the T-car phase the market has no effect: for both projects the
    two branches of the market chain define the same macro, so two builds
    that differ in the market only produce the same macros and the same
    table. *)
Theorem the_market_has_no_effect_in_the_t_car_phase
  (ctx1 ctx2 : ResolutionContext) (r1 r2 : Resolved) :
  (forall b, b <> MARKET_VERSION -> selected b ctx1 = selected b ctx2) ->
  selected DEVELOPMENT_PHASE ctx1 = _TCAR_VERSION ->
  resolve ctx1 = Ok r1 -> resolve ctx2 = Ok r2 ->
  r1 = r2.
Proof.
  intros H Htcar Hr1 Hr2.
  apply resolve_Ok_inv in Hr1 as [sel1 [Hpre1 [Hp1 [Ht1 _]]]].
  apply resolve_Ok_inv in Hr2 as [sel2 [Hpre2 [Hp2 [Ht2 _]]]].
  destruct (preprocess_agree ctx1 ctx2 sel1 sel2 Hpre1 Hpre2)
    as [_ [Kg [Kpm [Ks [Ka [Kst [Ksq [Kbu Kdt]]]]]]]].
  pose proof (b_etpu _ (preprocess_Branches ctx1 sel1 Hpre1)) as Ke1.
  pose proof (b_etpu _ (preprocess_Branches ctx2 sel2 Hpre2)) as Ke2.
  assert (Hd : declarations sel1 = declarations sel2).
  { apply declarations_of_components;
      first [ congruence | (apply Kg + apply Kpm + apply Ks + apply Ka + apply Kst
                            + apply Ksq + apply Kbu + apply Kdt);
                           apply H; discriminate ]. }
  assert (Hprj : s_project sel1 = s_project sel2).
  { apply preprocess_Ok_inv in Hpre1 as [A _].
    apply preprocess_Ok_inv in Hpre2 as [B _].
    pose proof (H PROJECT_NAME ltac:(discriminate)) as E1.
    pose proof (H PERFORMANCE_TYPE ltac:(discriminate)) as E2.
    pose proof (H DEVELOPMENT_PHASE ltac:(discriminate)) as E3.
    rewrite E3 in Htcar.
    unfold selected in E1, E2, E3, Htcar.
    unfold sel_PROJECT_NAME, sel_PERFORMANCE_TYPE, sel_DEVELOPMENT_PHASE in A, B.
    cbv zeta in A, B.
    rewrite E1, E2, E3, Htcar, Z.eqb_refl in A. rewrite Htcar, Z.eqb_refl in B.
    repeat match type of A with
           | context [if ?b then _ else _] => destruct b
           end;
      first [ discriminate A
            | apply in_phase_same in A; apply in_phase_same in B; congruence
            | congruence ]. }
  destruct r1 as [p1 c1], r2 as [p2 c2]. cbn [project calibration] in *.
  congruence.
Qed.

(** ** The constants of the PWM *)

Lemma resolve_Ok_branches (ctx : ResolutionContext) (r : Resolved) :
  resolve ctx = Ok r ->
  exists sel, preprocess ctx = Ok sel /\ TableOf ctx r sel /\ Branches sel.
Proof.
  intros H. apply resolve_Ok_inv in H as [sel [Hpre [_ [Ht HF]]]].
  exists sel. split; [exact Hpre|]. split; [|exact (preprocess_Branches ctx sel Hpre)].
  apply preprocess_Ok_inv in Hpre
    as [_ [Hg [Hpm [Hs [_ [_ [Hst [Hsq _]]]]]]]].
  constructor; auto.
  - eapply declarations_fit; eassumption.
  - eapply sel_SA_2STAGE_PWM_MODE_shape; eassumption.
  - eapply sel_SA_SQPWM_REGEN_DIS_shape; eassumption.
Qed.

(** Reads a binding off the table of [T : TableOf ctx r sel], the branches of
    the four chains of [CcCalBase.c] written out by the equations given. *)
Ltac read_with T Est Esq Ebu Edt :=
  rewrite (t_table _ _ _ T);
  first [ eapply entry_MOT | eapply entry_HSG | eapply scalar_bind ];
  [ try exact (t_fit _ _ _ T) ..
  | unfold declarations; rewrite Est, Esq, Ebu, Edt; reflexivity ].

Lemma read_update_time (ctx : ResolutionContext) (r : Resolved) (sel : Selected)
  (T : TableOf ctx r sel) (B : Branches sel) (inv : Inverter) (t : Target) :
  scalar (update_time_binding inv t) (calibration r)
  = Some (convert UINT32 (CInt (BSWCFGPWM_UPDATE_TIME (s_etpu sel) inv t)))
  /\ scalar (update_time_variable inv t) (calibration r)
     = Some (convert UINT32 (CInt (BSWCFGPWM_UPDATE_TIME (s_etpu sel) inv t))).
Proof.
  destruct B as [_ _ _ _ _ [fst [_ Est]] [fsq [_ Esq]] [off [on [_ Ebu]]] [fd [_ Edt]]].
  destruct inv, t; split; read_with T Est Esq Ebu Edt.
Qed.

Lemma read_pwm (ctx : ResolutionContext) (r : Resolved) (sel : Selected)
  (T : TableOf ctx r sel) (B : Branches sel) (t : Target) :
  scalar (start_time_binding t) (calibration r)
  = Some (convert UINT32 (CInt (BSWCFGPWM_START t)))
  /\ scalar (period_binding t) (calibration r)
     = Some (convert UINT32 (CInt (BSWCFGPWM_PERIOD t)))
  /\ scalar (edge_offset_binding t) (calibration r)
     = Some (convert UINT32 (CInt (BSWCFGPWM_ASAC_EDGE_OFFSET (s_gate sel) t)))
  /\ forall inv,
      scalar (min_width_binding inv t) (calibration r)
      = Some (convert UINT32 (CInt (BSWCFGPWM_MIN_WIDTH (s_gate sel) inv t))).
Proof.
  destruct B as [_ _ _ _ _ [fst [_ Est]] [fsq [_ Esq]] [off [on [_ Ebu]]] [fd [_ Edt]]].
  destruct t; repeat split; try (intros [|]); read_with T Est Esq Ebu Edt.
Qed.

Lemma read_dead_time_multi (ctx : ResolutionContext) (r : Resolved) (sel : Selected)
  (T : TableOf ctx r sel) (B : Branches sel) :
  scalar "BswCfgCal_Pwm_MotDeadTime_Multi" (calibration r)
  = Some (convert UINT32 (CInt (BSWCFGPWM_MOT_DEADTIME_MULTI (s_power sel)))).
Proof.
  destruct B as [_ _ _ _ _ [fst [_ Est]] [fsq [_ Esq]] [off [on [_ Ebu]]] [fd [_ Edt]]].
  read_with T Est Esq Ebu Edt.
Qed.

Lemma read_VarDTGS (ctx : ResolutionContext) (r : Resolved) (sel : Selected)
  (T : TableOf ctx r sel) (B : Branches sel)
  (q : Quantity) (l : Level) (b : Bound) (s : Side) (t : Target) :
  entry (VarDTGS_binding q l b s) t (calibration r)
  = Some (convert FLOAT32 (VarDTGS_threshold q l b s t)).
Proof.
  destruct B as [_ _ _ _ _ [fst [_ Est]] [fsq [_ Esq]] [off [on [_ Ebu]]] [fd [_ Edt]]].
  destruct q, l, b, s, t; read_with T Est Esq Ebu Edt.
Qed.

Lemma read_burst (ctx : ResolutionContext) (r : Resolved) (sel : Selected)
  (T : TableOf ctx r sel) (B : Branches sel) :
  exists off on,
    In (off, on) [ (flt 1 0, flt 2 0); (flt 0 0, flt 0 0) ]
    /\ (forall w b t,
           entry (burst_binding w b) t (calibration r)
           = Some (convert FLOAT32 (burst_threshold off on w b t)))
    /\ forall t, entry "CcCal_PwmOff_WaitTime" t (calibration r)
                 = Some (convert UINT32 (CInt 100)).
Proof.
  destruct (b_stage _ B) as [fst [_ Est]].
  destruct (b_sqpwm _ B) as [fsq [_ Esq]].
  destruct (b_burst _ B) as [off [on [Hin Ebu]]].
  destruct (b_dtgs _ B) as [fd [_ Edt]].
  exists off, on. split; [exact Hin|].
  split; [intros w b t; destruct w, b, t | intros [|]];
    rewrite (t_table _ _ _ T);
    first [ eapply entry_MOT | eapply entry_HSG ];
    try exact (t_fit _ _ _ T);
    unfold declarations; rewrite Est, Esq, Ebu, Edt; reflexivity.
Qed.


(** ** The update times *)

(** X8.  Both branches of the eTPU chain bind the same update times: in
    every build that goes through the update time is 3800 for the first and
    3000 for the second inverter of either target, and the four variables
    declared without [const] start at the values of the constants beside
    them. *)
Theorem update_time_variables_start_at_the_calibrated_times
  (ctx : ResolutionContext) (r : Resolved) :
  resolve ctx = Ok r ->
  forall inv t,
    scalar (update_time_binding inv t) (calibration r)
    = Some (VInt match inv with INV1 => 3800 | INV2 => 3000 end)
    /\ scalar (update_time_variable inv t) (calibration r)
       = scalar (update_time_binding inv t) (calibration r).
Proof.
  intros Hr inv t. destruct (resolve_Ok_branches ctx r Hr) as [sel [_ [T B]]].
  destruct (read_update_time ctx r sel T B inv t) as [Hc Hv].
  rewrite Hv, Hc, (b_etpu _ B). destruct inv, t; split; reflexivity.
Qed.

(** ** Dead times *)

(** X9.  Whatever power module is selected, the dead times lie between 2000
    and 4000 ns; the starter-generator has one dead time for both inverters,
    that of the first inverter of the motor, which is the shortest of the
    dead times of the motor.  Every dead time exceeds the fixed offset, so
    every dead-time compensation is positive, and shorter than its dead
    time. *)
Theorem dead_times_are_ordered_and_bounded (ctx : ResolutionContext) (r : Resolved) :
  resolve ctx = Ok r ->
  exists mot1 mot2 multi hsg,
    scalar (dead_time_binding INV1 MOT) (calibration r) = Some (VInt mot1)
    /\ scalar (dead_time_binding INV2 MOT) (calibration r) = Some (VInt mot2)
    /\ scalar "BswCfgCal_Pwm_MotDeadTime_Multi" (calibration r) = Some (VInt multi)
    /\ (forall inv, scalar (dead_time_binding inv HSG) (calibration r) = Some (VInt hsg))
    /\ hsg = mot1
    /\ 2000 <= mot1 <= mot2 /\ mot2 <= 4000 /\ mot1 <= multi <= 4000
    /\ forall inv t, exists deadtime x,
         scalar (dead_time_binding inv t) (calibration r) = Some (VInt deadtime)
         /\ entry (TdeadComp_binding inv) t (calibration r) = Some (VFloat x)
         /\ (0 < SF2Q x)%Q /\ (SF2Q x < ns deadtime)%Q.
Proof.
  intros Hr. destruct (resolve_Ok_branches ctx r Hr) as [sel [_ [T B]]].
  exists (BSWCFGPWM_MOT_INV1_DEADTIME (s_power sel)),
    (BSWCFGPWM_MOT_INV2_DEADTIME (s_power sel)),
    (BSWCFGPWM_MOT_DEADTIME_MULTI (s_power sel)),
    (BSWCFGPWM_HSG_INV1_DEADTIME (s_power sel)).
  rewrite !(read_dead_time ctx r sel T), (read_dead_time_multi ctx r sel T B).
  pose proof (b_power _ B) as Hpm. cbn [In] in Hpm.
  assert (Hread : forall inv t, exists deadtime x,
             scalar (dead_time_binding inv t) (calibration r) = Some (VInt deadtime)
             /\ entry (TdeadComp_binding inv) t (calibration r) = Some (VFloat x)
             /\ (0 < SF2Q x)%Q /\ (SF2Q x < ns deadtime)%Q).
  { intros inv t. exists (BSWCFGPWM_DEADTIME (s_power sel) inv t).
    exists (dead_time_compensation (BSWCFGPWM_DEADTIME (s_power sel) inv t)).
    rewrite (read_dead_time ctx r sel T), (read_TdeadComp ctx r sel T),
      TdeadComp_initialiser.
    destruct Hpm as [<-|[<-|[<-|[<-|[<-|[<-|[]]]]]]]; destruct inv, t;
      (split; [reflexivity|]); (split; [reflexivity|]);
      split; vm_compute; reflexivity. }
  assert (Hhsg : forall inv,
             scalar (dead_time_binding inv HSG) (calibration r)
             = Some (convert UINT32 (CInt (BSWCFGPWM_DEADTIME (s_power sel) inv HSG))))
    by (intros inv; apply (read_dead_time ctx r sel T)).
  destruct Hpm as [E|[E|[E|[E|[E|[E|[]]]]]]]; rewrite <- E in *;
    cbn [BSWCFGPWM_MOT_INV1_DEADTIME BSWCFGPWM_MOT_INV2_DEADTIME
         BSWCFGPWM_MOT_DEADTIME_MULTI BSWCFGPWM_HSG_INV1_DEADTIME];
    (repeat split; try lia; try reflexivity; try exact Hread);
    intros [|]; rewrite Hhsg; reflexivity.
Qed.

(** ** Minimum pulses and sampling edges *)

(** X10.  Whatever gate IC is selected, both inverters of a target have the
    same minimum pulse width, and neither the minimum pulse width nor the
    edge offset of the starter-generator exceeds that of the motor; the
    minimum pulse width is at most 4000 ns and the edge offset at most
    3000 ns. *)
Theorem starter_generator_limits_do_not_exceed_the_motor_s
  (ctx : ResolutionContext) (r : Resolved) :
  resolve ctx = Ok r ->
  exists width_mot width_hsg edge_mot edge_hsg,
    (forall inv, scalar (min_width_binding inv MOT) (calibration r)
                 = Some (VInt width_mot))
    /\ (forall inv, scalar (min_width_binding inv HSG) (calibration r)
                    = Some (VInt width_hsg))
    /\ scalar (edge_offset_binding MOT) (calibration r) = Some (VInt edge_mot)
    /\ scalar (edge_offset_binding HSG) (calibration r) = Some (VInt edge_hsg)
    /\ 1 <= width_hsg <= width_mot /\ width_mot <= 4000
    /\ 0 <= edge_hsg <= edge_mot /\ edge_mot <= 3000.
Proof.
  intros Hr. destruct (resolve_Ok_branches ctx r Hr) as [sel [_ [T B]]].
  destruct (read_pwm ctx r sel T B MOT) as [_ [_ [Hem Hwm]]].
  destruct (read_pwm ctx r sel T B HSG) as [_ [_ [Heh Hwh]]].
  exists (BSWCFGPWM_MOT_INV1_MIN_WIDTH (s_gate sel)),
    (BSWCFGPWM_HSG_INV1_MIN_WIDTH (s_gate sel)),
    (BSWCFGPWM_MOT_ASAC_EDGE_OFFSET (s_gate sel)),
    (BSWCFGPWM_HSG_ASAC_EDGE_OFFSET (s_gate sel)).
  rewrite Hem, Heh.
  pose proof (b_gate _ B) as Hg. cbn [In] in Hg.
  destruct Hg as [E|[E|[E|[E|[E|[E|[E|[]]]]]]]]; rewrite <- E in *;
    (split; [intros [|]; rewrite Hwm; reflexivity|]);
    (split; [intros [|]; rewrite Hwh; reflexivity|]);
    cbn; repeat split; try lia; reflexivity.
Qed.

(** X11.  For every combination of gate IC and power module the PWM timing
    is feasible: the period is twice the start time, and a minimum pulse with
    its two dead times is shorter than the start time (half the period), for
    each inverter of each target. *)
Theorem minimum_pulse_and_dead_times_fit_half_a_period
  (ctx : ResolutionContext) (r : Resolved) :
  resolve ctx = Ok r ->
  forall inv t, exists start period deadtime width,
    scalar (start_time_binding t) (calibration r) = Some (VInt start)
    /\ scalar (period_binding t) (calibration r) = Some (VInt period)
    /\ scalar (dead_time_binding inv t) (calibration r) = Some (VInt deadtime)
    /\ scalar (min_width_binding inv t) (calibration r) = Some (VInt width)
    /\ period = 2 * start
    /\ width + 2 * deadtime < start.
Proof.
  intros Hr inv t. destruct (resolve_Ok_branches ctx r Hr) as [sel [_ [T B]]].
  destruct (read_pwm ctx r sel T B t) as [Hs [Hp [_ Hw]]].
  exists (BSWCFGPWM_START t), (BSWCFGPWM_PERIOD t),
    (BSWCFGPWM_DEADTIME (s_power sel) inv t), (BSWCFGPWM_MIN_WIDTH (s_gate sel) inv t).
  rewrite Hs, Hp, Hw, (read_dead_time ctx r sel T).
  pose proof (b_gate _ B) as Hg. pose proof (b_power _ B) as Hpm. cbn [In] in Hg, Hpm.
  destruct Hg as [<-|[<-|[<-|[<-|[<-|[<-|[<-|[]]]]]]]];
    destruct Hpm as [<-|[<-|[<-|[<-|[<-|[<-|[]]]]]]];
    destruct inv, t; repeat split; reflexivity.
Qed.

(** ** Thresholds *)

(** X12.  In both branches of the burst chain the torque thresholds are
    ordered: the lower thresholds are 0, the threshold that switches the PWM
    off is at most the one that switches it on again, which is at most 2;
    those of the starter-generator are 0, and the waiting time is 100 for
    both targets. *)
Theorem burst_thresholds_are_ordered (ctx : ResolutionContext) (r : Resolved) :
  resolve ctx = Ok r ->
  forall t, exists off_min off_max on_min on_max,
    entry (burst_binding PwmOff Min) t (calibration r) = Some (VFloat off_min)
    /\ entry (burst_binding PwmOff Max) t (calibration r) = Some (VFloat off_max)
    /\ entry (burst_binding PwmOn Min) t (calibration r) = Some (VFloat on_min)
    /\ entry (burst_binding PwmOn Max) t (calibration r) = Some (VFloat on_max)
    /\ entry "CcCal_PwmOff_WaitTime" t (calibration r) = Some (VInt 100)
    /\ (SF2Q off_min == 0)%Q /\ (SF2Q on_min == 0)%Q
    /\ (0 <= SF2Q off_max)%Q /\ (SF2Q off_max <= SF2Q on_max)%Q
    /\ (SF2Q on_max <= 2)%Q
    /\ (t = HSG -> (SF2Q on_max == 0)%Q).
Proof.
  intros Hr t. destruct (resolve_Ok_branches ctx r Hr) as [sel [_ [T B]]].
  destruct (read_burst ctx r sel T B) as [off [on [Hin [Hread Hwait]]]].
  exists (as_float (burst_threshold off on PwmOff Min t)),
    (as_float (burst_threshold off on PwmOff Max t)),
    (as_float (burst_threshold off on PwmOn Min t)),
    (as_float (burst_threshold off on PwmOn Max t)).
  rewrite !Hread, Hwait.
  destruct Hin as [E|[E|[]]]; inversion E; subst off on; destruct t;
    repeat (split; [ first [ reflexivity
                           | apply Qle_bool_imp_le; vm_compute; reflexivity
                           | vm_compute; reflexivity ] |]);
    first [ intros _; vm_compute; reflexivity | intros E'; discriminate E' ].
Qed.

(** X13.  The bands of the variable dead-time gain scheduling are nested:
    for torque and speed, at each of the three levels and for each target,
    the band that is left ([HysOut]) encloses the band that is entered
    ([HysIn]). *)
Theorem var_dtgs_bands_are_nested (ctx : ResolutionContext) (r : Resolved) :
  resolve ctx = Ok r ->
  forall q l t, exists min_out min_in max_in max_out,
    entry (VarDTGS_binding q l Min HysOut) t (calibration r) = Some (VFloat min_out)
    /\ entry (VarDTGS_binding q l Min HysIn) t (calibration r) = Some (VFloat min_in)
    /\ entry (VarDTGS_binding q l Max HysIn) t (calibration r) = Some (VFloat max_in)
    /\ entry (VarDTGS_binding q l Max HysOut) t (calibration r) = Some (VFloat max_out)
    /\ (SF2Q min_out <= SF2Q min_in)%Q
    /\ (SF2Q min_in <= SF2Q max_in)%Q
    /\ (SF2Q max_in <= SF2Q max_out)%Q.
Proof.
  intros Hr q l t. destruct (resolve_Ok_branches ctx r Hr) as [sel [_ [T B]]].
  exists (as_float (VarDTGS_threshold q l Min HysOut t)),
    (as_float (VarDTGS_threshold q l Min HysIn t)),
    (as_float (VarDTGS_threshold q l Max HysIn t)),
    (as_float (VarDTGS_threshold q l Max HysOut t)).
  rewrite !(read_VarDTGS ctx r sel T B).
  repeat (split; [reflexivity|]).
  destruct q, l, t; repeat split; apply Qle_bool_imp_le; vm_compute; reflexivity.
Qed.

(** ** Arrays over the targets *)

Lemma pad_nth_error_zero {A} (n : nat) (zero : A) (l : list A) (i : nat) :
  (List.length l <= i)%nat -> (i < n)%nat -> nth_error (pad n zero l) i = Some zero.
Proof.
  intros Hl Hi. unfold pad.
  rewrite nth_error_app2; rewrite length_firstn; [|lia].
  rewrite Nat.min_r by lia.
  apply nth_error_repeat. lia.
Qed.

Lemma pad_two {A} (n : nat) (zero first second : A) :
  (2 <= n)%nat ->
  pad n zero [first; second] = first :: second :: repeat zero (n - 2).
Proof.
  intros Hn. unfold pad. cbn [List.length].
  destruct n as [|[|k]]; [lia | lia |].
  cbn [firstn app]. rewrite firstn_nil. reflexivity.
Qed.

Lemma init_array_nil (ty : ctype) (n : nat) :
  init_array ty n [] = repeat (convert ty (CInt 0)) n.
Proof.
  unfold init_array, pad. cbn [map List.length].
  rewrite firstn_nil, Nat.sub_0_r. reflexivity.
Qed.

Lemma init_array_full (ty : ctype) (n : nat) (es : list cval) :
  List.length es = n -> init_array ty n es = map (convert ty) es.
Proof.
  intros <-. unfold init_array, pad.
  rewrite length_map, Nat.sub_diag, app_nil_r.
  apply firstn_all2. rewrite length_map. apply Nat.le_refl.
Qed.

(** Every array over the targets is written with two initialisers, and every
    table over the targets with two rows that fill their columns. *)
Lemma declarations_have_two_initialisers (sel : Selected) :
  Branches sel ->
  Forall (fun d => match d_init d with
                   | PerTargetInit es => List.length es = 2%nat
                   | PerTargetRows cols rows =>
                       List.length rows = 2%nat
                       /\ Forall (fun row => List.length row = cols) rows
                   | _ => True
                   end)
         (declarations sel).
Proof.
  intros [_ _ _ _ _ [fst [_ Est]] [fsq [_ Esq]] [off [on [_ Ebu]]] [fd [_ Edt]]].
  unfold declarations, BswCfgPwm_c, BswCfgRdc_c, CcCalBase_c.
  rewrite Est, Esq, Ebu, Edt. unfold PwmBurst_decls.
  repeat (apply Forall_app; split);
    repeat (apply Forall_cons;
            [ solve [ exact I
                    | exact eq_refl
                    | split;
                      [ reflexivity
                      | repeat (apply Forall_cons; [reflexivity|]); apply Forall_nil ] ]
            |]);
    apply Forall_nil.
Qed.

Lemma table_names_NoDup (ctx : ResolutionContext) (r : Resolved) (sel : Selected) :
  TableOf ctx r sel -> Branches sel -> NoDup (map fst (calibration r)).
Proof.
  intros T B.
  rewrite (t_table _ _ _ T), names_of_bindings, (names_of_declarations sel B).
  exact calibration_names_NoDup.
Qed.

(** The arrays of a table, read back to the declarations they come from: the
    initialisers of the motor and of the starter-generator, in this order,
    and zeros of the type of the array for the further targets. *)
Lemma arrays_over_targets (ctx : ResolutionContext) (r : Resolved) (sel : Selected) :
  (2 <= TOTAL_TARGET)%nat ->
  TableOf ctx r sel ->
  Branches sel ->
  forall n ty vs,
    In (n, PerTarget ty vs) (calibration r) ->
    exists c mot hsg,
      In (mkDecl c ty n (PerTargetInit [mot; hsg])) (declarations sel)
      /\ vs = convert ty mot :: convert ty hsg
                :: repeat (convert ty (CInt 0)) (TOTAL_TARGET - 2)
      /\ forall t, entry n t (calibration r) = Some (convert ty (per_target mot hsg t)).
Proof.
  intros Hfit T B n ty vs Hin.
  assert (Hl : lookup n (calibration r) = Some (PerTarget ty vs)).
  { apply lookup_In; [exact (table_names_NoDup ctx r sel T B) | exact Hin]. }
  rewrite (t_table _ _ _ T) in Hin.
  apply in_map_iff in Hin as [d [Hd Hin]].
  pose proof (declarations_have_two_initialisers sel B) as HF.
  rewrite Forall_forall in HF. specialize (HF d Hin).
  destruct d as [c ty' n' init]. unfold bind, binding_of in Hd.
  cbn [d_init d_name d_type] in Hd, HF.
  destruct init as [e|es|cols rows|nrows ncols rows]; inversion Hd; subst.
  destruct es as [|mot [|hsg [|x es]]]; try discriminate HF.
  exists c, mot, hsg. split; [exact Hin|].
  assert (Hvs : init_array ty TOTAL_TARGET [mot; hsg]
                = convert ty mot :: convert ty hsg
                    :: repeat (convert ty (CInt 0)) (TOTAL_TARGET - 2)).
  { unfold init_array. cbn [map]. apply pad_two. exact Hfit. }
  split; [exact Hvs|].
  intros t. unfold entry. rewrite Hl, Hvs. destruct t; reflexivity.
Qed.

(** The same for the tables: the row of the motor and the row of the
    starter-generator, each as wide as the table, and rows of zeros for the
    further targets. *)
Lemma tables_over_targets (ctx : ResolutionContext) (r : Resolved) (sel : Selected) :
  (2 <= TOTAL_TARGET)%nat ->
  TableOf ctx r sel ->
  Branches sel ->
  forall n ty rows,
    In (n, PerTargetTab ty rows) (calibration r) ->
    exists c cols mot hsg,
      In (mkDecl c ty n (PerTargetRows cols [mot; hsg])) (declarations sel)
      /\ List.length mot = cols
      /\ List.length hsg = cols
      /\ rows = map (convert ty) mot :: map (convert ty) hsg
                  :: repeat (repeat (convert ty (CInt 0)) cols) (TOTAL_TARGET - 2)
      /\ forall t,
          row n t (calibration r) = Some (map (convert ty) (per_target mot hsg t)).
Proof.
  intros Hfit T B n ty rows Hin.
  assert (Hl : lookup n (calibration r) = Some (PerTargetTab ty rows)).
  { apply lookup_In; [exact (table_names_NoDup ctx r sel T B) | exact Hin]. }
  rewrite (t_table _ _ _ T) in Hin.
  apply in_map_iff in Hin as [d [Hd Hin]].
  pose proof (declarations_have_two_initialisers sel B) as HF.
  rewrite Forall_forall in HF. specialize (HF d Hin).
  destruct d as [c ty' n' init]. unfold bind, binding_of in Hd.
  cbn [d_init d_name d_type] in Hd, HF.
  destruct init as [e|es|cols rs|nrows ncols rs]; inversion Hd; subst.
  destruct HF as [Hlen Hcols].
  destruct rs as [|mot [|hsg [|x rs]]]; try discriminate Hlen.
  apply Forall_cons_iff in Hcols as [Hmot Hcols].
  apply Forall_cons_iff in Hcols as [Hhsg _].
  exists c, cols, mot, hsg.
  split; [exact Hin|]. split; [exact Hmot|]. split; [exact Hhsg|].
  assert (Hrows : init_rows ty TOTAL_TARGET cols [mot; hsg]
                  = map (convert ty) mot :: map (convert ty) hsg
                      :: repeat (repeat (convert ty (CInt 0)) cols) (TOTAL_TARGET - 2)).
  { unfold init_rows. cbn [map].
    rewrite (init_array_full ty cols mot Hmot), (init_array_full ty cols hsg Hhsg),
      init_array_nil.
    apply pad_two. exact Hfit. }
  split; [exact Hrows|].
  intros t. unfold row. rewrite Hl, Hrows. destruct t; reflexivity.
Qed.

(** The arrays and the tables over the targets that a build defines. *)
Lemma declarations_over_targets (sel : Selected) :
  Branches sel ->
  List.length (filter over_targets (map bind (declarations sel))) = 73%nat
  /\ List.length (filter table_over_targets (map bind (declarations sel))) = 2%nat.
Proof.
  intros [_ _ _ _ _ [fst [_ Est]] [fsq [_ Esq]] [off [on [_ Ebu]]] [fd [_ Edt]]].
  unfold declarations, BswCfgPwm_c, BswCfgRdc_c, CcCalBase_c.
  rewrite Est, Esq, Ebu, Edt. unfold PwmBurst_decls.
  split; reflexivity.
Qed.

(** C2.  With the two targets of the specification ([TOTAL_TARGET] is 2),
    every array over the targets of every resolved table has exactly one entry
    per target, the entry of the motor first and the entry of the
    starter-generator second.  Each of the 73 arrays is written with exactly
    two initialisers and holds the value of the first at the motor and of the
    second at the starter-generator; each of the 2 tables is written with
    exactly two full rows and holds the first at the motor and the second at
    the starter-generator.  Wherever the initialisers name their target, the
    one named after the motor comes first. *)
Theorem per_target_arrays_have_one_entry_per_target
  (ctx : ResolutionContext) (r : Resolved) :
  TOTAL_TARGET = List.length targets ->
  resolve ctx = Ok r ->
  (forall n ty vs,
      In (n, PerTarget ty vs) (calibration r) -> List.length vs = List.length targets)
  /\ (forall n ty rows,
         In (n, PerTargetTab ty rows) (calibration r) ->
         List.length rows = List.length targets)
  /\ (exists pm s,
         sel_POWER_MODULE_TYPE ctx = Ok pm
         /\ sel_MOT_CUR_SENSOR_TYPE ctx = Ok s
         /\ Forall (fun '(n, ty, f) =>
                      forall t, entry n t (calibration r) = Some (convert ty (f t)))
                   (target_named pm s))
  /\ exists sel,
      preprocess ctx = Ok sel
      /\ (forall n ty vs,
             In (n, PerTarget ty vs) (calibration r) ->
             exists c mot hsg,
               In (mkDecl c ty n (PerTargetInit [mot; hsg])) (declarations sel)
               /\ vs = [convert ty mot; convert ty hsg]
               /\ forall t,
                   entry n t (calibration r) = Some (convert ty (per_target mot hsg t)))
      /\ (forall n ty rows,
             In (n, PerTargetTab ty rows) (calibration r) ->
             exists c cols mot hsg,
               In (mkDecl c ty n (PerTargetRows cols [mot; hsg])) (declarations sel)
               /\ List.length mot = cols
               /\ List.length hsg = cols
               /\ rows = [map (convert ty) mot; map (convert ty) hsg]
               /\ forall t,
                   row n t (calibration r)
                   = Some (map (convert ty) (per_target mot hsg t)))
      /\ List.length (filter over_targets (calibration r)) = 73%nat
      /\ List.length (filter table_over_targets (calibration r)) = 2%nat.
Proof.
  intros Hn Hr. destruct (resolve_Ok_branches ctx r Hr) as [sel [Hpre [T B]]].
  assert (Hz : (TOTAL_TARGET - 2 = 0)%nat) by (rewrite Hn; reflexivity).
  assert (Hfit : (2 <= TOTAL_TARGET)%nat) by (rewrite Hn; apply Nat.le_refl).
  split; [|split; [|split]].
  - intros n ty vs Hin. rewrite (t_table _ _ _ T) in Hin.
    rewrite <- Hn. eapply per_target_length; eassumption.
  - intros n ty rows Hin. rewrite (t_table _ _ _ T) in Hin.
    rewrite <- Hn. eapply per_target_tab_length; eassumption.
  - exists (s_power sel), (s_sensor sel).
    split; [exact (t_power _ _ _ T)|]. split; [exact (t_sensor _ _ _ T)|].
    unfold target_named.
    repeat (apply Forall_cons; [intros [|]; read_table T|]).
    apply Forall_nil.
  - exists sel. split; [exact Hpre|]. split; [|split].
    + intros n ty vs Hin.
      destruct (arrays_over_targets ctx r sel Hfit T B n ty vs Hin)
        as [c [mot [hsg [Hd [Hvs He]]]]].
      rewrite Hz in Hvs. exists c, mot, hsg. auto.
    + intros n ty rows Hin.
      destruct (tables_over_targets ctx r sel Hfit T B n ty rows Hin)
        as [c [cols [mot [hsg [Hd [Hm [Hh [Hrows He]]]]]]]].
      rewrite Hz in Hrows. exists c, cols, mot, hsg. auto.
    + rewrite (t_table _ _ _ T). exact (declarations_over_targets sel B).
Qed.

(** X14.  Every array over the targets is written with exactly two
    initialisers and every table over the targets with exactly two full rows.
    Where the absent header declares at least two targets, an array of a
    build that goes through holds the value of the first initialiser at the
    motor and of the second at the starter-generator, followed by zeros of
    its type for the further targets; a table holds its two rows, followed
    by rows of zeros. *)
Theorem targets_without_initialiser_are_zero (ctx : ResolutionContext) (r : Resolved) :
  (2 <= TOTAL_TARGET)%nat ->
  resolve ctx = Ok r ->
  exists sel,
    preprocess ctx = Ok sel
    /\ (forall n ty vs,
           In (n, PerTarget ty vs) (calibration r) ->
           exists c mot hsg,
             In (mkDecl c ty n (PerTargetInit [mot; hsg])) (declarations sel)
             /\ vs = convert ty mot :: convert ty hsg
                       :: repeat (convert ty (CInt 0)) (TOTAL_TARGET - 2)
             /\ forall t,
                 entry n t (calibration r) = Some (convert ty (per_target mot hsg t)))
    /\ (forall n ty rows,
           In (n, PerTargetTab ty rows) (calibration r) ->
           exists c cols mot hsg,
             In (mkDecl c ty n (PerTargetRows cols [mot; hsg])) (declarations sel)
             /\ List.length mot = cols
             /\ List.length hsg = cols
             /\ rows = map (convert ty) mot :: map (convert ty) hsg
                         :: repeat (repeat (convert ty (CInt 0)) cols) (TOTAL_TARGET - 2)
             /\ forall t,
                 row n t (calibration r)
                 = Some (map (convert ty) (per_target mot hsg t)))
    /\ List.length (filter over_targets (calibration r)) = 73%nat
    /\ List.length (filter table_over_targets (calibration r)) = 2%nat.
Proof.
  intros Hfit Hr. destruct (resolve_Ok_branches ctx r Hr) as [sel [Hpre [T B]]].
  exists sel. split; [exact Hpre|]. split; [|split].
  - exact (arrays_over_targets ctx r sel Hfit T B).
  - exact (tables_over_targets ctx r sel Hfit T B).
  - rewrite (t_table _ _ _ T). exact (declarations_over_targets sel B).
Qed.

End Theory.

(** * The theorems at the reference configuration *)

Import Reference.

(** The reference context resolves, to the table [resolved]. *)
Lemma resolve_ctx : resolve ctx = Ok resolved.
Proof.
  vm_compute. reflexivity.
Qed.

(** C1, the claim as stated fails: the project name 99 matches neither guard
    of the project chain, the performance type is not set at all, and the
    build goes through, without a diagnostic and with an empty set of project
    macros. *)
Lemma unknown_project_name_resolves :
  exists r,
    ~ matched PROJECT_NAME ctx_unknown_project
    /\ ~ matched PERFORMANCE_TYPE ctx_unknown_project
    /\ resolve ctx_unknown_project = Ok r
    /\ project r = []
    /\ errors (resolve ctx_unknown_project) = [].
Proof.
  eexists.
  split; [intros H; vm_compute in H; intuition discriminate|].
  split; [intros H; vm_compute in H; intuition discriminate|].
  split; [vm_compute; reflexivity|].
  split; reflexivity.
Qed.

(** C1 (as amended) at a context whose gate IC no guard knows. *)
Lemma undefined_axis_is_reported_witness :
  ~ matched GATE_IC_TYPE ctx_unknown_gate
  /\ exists es, resolve ctx_unknown_gate = Failed es /\ In (UndefinedAxis GATE_IC_TYPE) es.
Proof.
  assert (H : ~ matched GATE_IC_TYPE ctx_unknown_gate).
  { intros H. vm_compute in H. intuition discriminate. }
  split; [exact H|].
  apply (proj1 (undefined_axis_is_reported GATE_IC_TYPE ctx_unknown_gate H)).
  - discriminate.
  - exact I.
Defined.

(** C2 at the reference context. *)
Lemma per_target_arrays_have_one_entry_per_target_witness :
  TOTAL_TARGET = List.length targets
  /\ resolve ctx = Ok resolved
  /\ (forall n ty vs,
         In (n, PerTarget ty vs) (calibration resolved) ->
         List.length vs = List.length targets)
  /\ (forall n ty rows,
         In (n, PerTargetTab ty rows) (calibration resolved) ->
         List.length rows = List.length targets)
  /\ (exists pm s,
         sel_POWER_MODULE_TYPE ctx = Ok pm
         /\ sel_MOT_CUR_SENSOR_TYPE ctx = Ok s
         /\ Forall (fun '(n, ty, f) =>
                      forall t, entry n t (calibration resolved) = Some (convert ty (f t)))
                   (target_named pm s))
  /\ exists sel,
      preprocess ctx = Ok sel
      /\ (forall n ty vs,
             In (n, PerTarget ty vs) (calibration resolved) ->
             exists c mot hsg,
               In (mkDecl c ty n (PerTargetInit [mot; hsg])) (declarations sel)
               /\ vs = [convert ty mot; convert ty hsg]
               /\ forall t,
                   entry n t (calibration resolved)
                   = Some (convert ty (per_target mot hsg t)))
      /\ (forall n ty rows,
             In (n, PerTargetTab ty rows) (calibration resolved) ->
             exists c cols mot hsg,
               In (mkDecl c ty n (PerTargetRows cols [mot; hsg])) (declarations sel)
               /\ List.length mot = cols
               /\ List.length hsg = cols
               /\ rows = [map (convert ty) mot; map (convert ty) hsg]
               /\ forall t,
                   row n t (calibration resolved)
                   = Some (map (convert ty) (per_target mot hsg t)))
      /\ List.length (filter over_targets (calibration resolved)) = 73%nat
      /\ List.length (filter table_over_targets (calibration resolved)) = 2%nat.
Proof.
  assert (Hn : TOTAL_TARGET = List.length targets) by reflexivity.
  exact (conj Hn (conj resolve_ctx
           (per_target_arrays_have_one_entry_per_target ctx resolved Hn resolve_ctx))).
Defined.

(** C3 at two contexts that differ and select the same: the project name is
    unset in one and 0 in the other. *)
Lemma resolve_depends_on_the_selections_only_witness :
  (forall a, selected a ctx_no_project = selected a ctx_project_0)
  /\ resolve ctx_no_project = resolve ctx_project_0.
Proof.
  assert (H : forall a, selected a ctx_no_project = selected a ctx_project_0).
  { intros a. destruct a; reflexivity. }
  exact (conj H (resolve_depends_on_the_selections_only ctx_no_project ctx_project_0 H)).
Defined.


(** C5, the claim as stated fails: read back at the scale bound beside it
    (7), the mantissa of K1 is 42165.7..., not the gain 0.64339817. *)
Lemma swrdc_mantissa_is_not_at_its_scale :
  entry "CcCal_SWRDC_GainUpdate_K1D" MOT (calibration resolved) = Some (VInt 5397215)
  /\ entry "CcCal_SWRDC_GainUpdate_K1SCALE" MOT (calibration resolved) = Some (VInt 7)
  /\ (1 # 2 ^ 7 < Qabs (fixed_point_decode 5397215 7 - SWRDC_K1))%Q
  /\ (42165 < fixed_point_decode 5397215 7)%Q.
Proof.
  repeat split; vm_compute; reflexivity.
Qed.

(** C5 (as amended) at the reference context. *)
Lemma swrdc_gain_mantissas_have_scale_23_witness :
  resolve ctx = Ok resolved
  /\ forall t,
      entry "CcCal_SWRDC_GainUpdate_K1D" t (calibration resolved) = Some (VInt 5397215)
      /\ entry "CcCal_SWRDC_GainUpdate_K1SCALE" t (calibration resolved) = Some (VInt 7)
      /\ entry "CcCal_SWRDC_GainUpdate_K2D" t (calibration resolved) = Some (VInt 8344302)
      /\ entry "CcCal_SWRDC_GainUpdate_K2SCALE" t (calibration resolved) = Some (VInt 4)
      /\ (Qabs (fixed_point_decode 5397215 23 - SWRDC_K1) <= 1 # 2 ^ 23)%Q
      /\ (Qabs (fixed_point_decode 8344302 23 - SWRDC_K2) <= 1 # 2 ^ 23)%Q.
Proof.
  exact (conj resolve_ctx (swrdc_gain_mantissas_have_scale_23 ctx resolved resolve_ctx)).
Defined.

(** C6 at a context that does not set the power-module switch. *)
Lemma missing_power_module_type_is_undefined_witness :
  ((_POWER_MODULE_TYPE ctx_no_power_module = None
    /\ (_UNDEFINED_OPTION = 0 \/ ~ In 0 (enumerated POWER_MODULE_TYPE)))
   \/ _POWER_MODULE_TYPE ctx_no_power_module = Some _UNDEFINED_OPTION)
  /\ sel_POWER_MODULE_TYPE ctx_no_power_module = Failed [UndefinedAxis POWER_MODULE_TYPE]
  /\ exists es, resolve ctx_no_power_module = Failed es
                /\ In (UndefinedAxis POWER_MODULE_TYPE) es.
Proof.
  assert (H : (_POWER_MODULE_TYPE ctx_no_power_module = None
               /\ (_UNDEFINED_OPTION = 0 \/ ~ In 0 (enumerated POWER_MODULE_TYPE)))
              \/ _POWER_MODULE_TYPE ctx_no_power_module = Some _UNDEFINED_OPTION).
  { left. split; [reflexivity | left; reflexivity]. }
  exact (conj H (missing_power_module_type_is_undefined ctx_no_power_module H)).
Defined.

(** C7 at the reference context, whose gate IC is type 7. *)
Lemma gate_ic_type_7_binds_its_literals_witness :
  _GATE_IC_TYPE ctx = Some _GATE_IC_TYPE_7
  /\ ~ In _GATE_IC_TYPE_7
          [_UNDEFINED_OPTION; _GATE_IC_TYPE_1; _GATE_IC_TYPE_2; _GATE_IC_TYPE_3;
           _GATE_IC_TYPE_4; _GATE_IC_TYPE_5; _GATE_IC_TYPE_6]
  /\ sel_GATE_IC_TYPE ctx = Ok (mkGateIc 300 300 390 300 300 390)
  /\ scalar "BswCfgCal_Pwm_MotMinPulseWidth_INV1" (calibration resolved) = Some (VInt 300)
  /\ scalar "BswCfgCal_Pwm_MotMinPulseWidth_INV2" (calibration resolved) = Some (VInt 300)
  /\ scalar "BswCfgCal_Pwm_HsgMinPulseWidth_INV1" (calibration resolved) = Some (VInt 300)
  /\ scalar "BswCfgCal_Pwm_HsgMinPulseWidth_INV2" (calibration resolved) = Some (VInt 300)
  /\ scalar "BswCfgCal_Pwm_MotAsacEdgeOffset" (calibration resolved) = Some (VInt 390)
  /\ scalar "BswCfgCal_Pwm_HsgAsacEdgeOffset" (calibration resolved) = Some (VInt 390).
Proof.
  assert (H7 : _GATE_IC_TYPE ctx = Some _GATE_IC_TYPE_7) by reflexivity.
  assert (Hd : ~ In _GATE_IC_TYPE_7
                    [_UNDEFINED_OPTION; _GATE_IC_TYPE_1; _GATE_IC_TYPE_2; _GATE_IC_TYPE_3;
                     _GATE_IC_TYPE_4; _GATE_IC_TYPE_5; _GATE_IC_TYPE_6]).
  { intros H. vm_compute in H. intuition discriminate. }
  destruct (gate_ic_type_7_binds_its_literals ctx H7 Hd) as [Hsel Htbl].
  exact (conj H7 (conj Hd (conj Hsel (Htbl resolved resolve_ctx)))).
Defined.

(** C8 at the reference context, whose current sensor is the 400 A Hall
    sensor. *)
Lemma scale_factor_of_a_400A_sensor_witness :
  resolve ctx = Ok resolved
  /\ sel_MOT_CUR_SENSOR_TYPE ctx = Ok (mkCurSensor (CInt 400))
  /\ CUR_SENSOR_RANGE_MOT (mkCurSensor (CInt 400)) = CInt 400
  /\ exists x,
      entry "CcCal_Cur_ScaleFactor" MOT (calibration resolved) = Some (VFloat x)
      /\ x = as_float (flt 24414 5)
      /\ (Qabs (SF2Q x - (24414 # 100000)) <= 1 # 2 ^ 27)%Q.
Proof.
  assert (Hs : sel_MOT_CUR_SENSOR_TYPE ctx = Ok (mkCurSensor (CInt 400)))
    by reflexivity.
  assert (Hr : CUR_SENSOR_RANGE_MOT (mkCurSensor (CInt 400)) = CInt 400)
    by reflexivity.
  exact (conj resolve_ctx (conj Hs (conj Hr
           (scale_factor_of_a_400A_sensor ctx resolved _ resolve_ctx Hs Hr)))).
Defined.

(** C9 at the reference context. *)
Lemma unitrig_start_offset_is_500_periods_plus_start_witness :
  resolve ctx = Ok resolved
  /\ forall t, exists period start,
      scalar (Rdc_Period_binding t) (calibration resolved) = Some (VInt period)
      /\ scalar (Rdc_StartOffset_binding t) (calibration resolved)
         = Some (VFloat (f32_of_Z start))
      /\ scalar (Rdc_UnitrigStartOffset_binding t) (calibration resolved)
         = Some (VInt (500 * period + start))
      /\ period = BSWCFGRDC_PERIOD t
      /\ start = BSWCFGRDC_START_OFFSET t
      /\ BSWCFGRDC_UNITRIG_START_OFFSET t = 500 * period + start
      /\ (period, start, 500 * period + start)
         = per_target (66, 5, 33005) (66, 30, 33030) t.
Proof.
  exact (conj resolve_ctx
           (unitrig_start_offset_is_500_periods_plus_start ctx resolved resolve_ctx)).
Defined.

(** C10, the claim as stated fails: with the 1100 A Hall sensor the motor
    entries are 55 and the binary32 number nearest to 1/55; their product is
    less than 1, and rounds to the binary32 number below 1. *)
Lemma zcc_reciprocal_is_not_exact :
  exists r a b,
    resolve ctx_1100A = Ok r
    /\ entry "CcCal_DeadTimeComp_IcompZCC_INV1" MOT (calibration r) = Some (VFloat a)
    /\ entry "CcCal_DeadTimeComp_INVIcompZCC_INV1" MOT (calibration r) = Some (VFloat b)
    /\ a = f32_of_Z 55
    /\ (SF2Q a * SF2Q b < 1)%Q
    /\ SFeqb (SFmul 24 128 a b) (f32_of_Z 1) = false.
Proof.
  do 3 eexists.
  split; [vm_compute; reflexivity|].
  split; [vm_compute; reflexivity|].
  split; [vm_compute; reflexivity|].
  repeat split; vm_compute; reflexivity.
Qed.

(** C10 (as amended) at the reference context. *)
Lemma zcc_current_and_reciprocal_witness :
  resolve ctx = Ok resolved
  /\ exists s,
      sel_MOT_CUR_SENSOR_TYPE ctx = Ok s
      /\ (forall inv t,
             entry (IcompZCC_binding inv) t (calibration resolved)
             = Some (VFloat (as_float (zcc_current s t)))
             /\ entry (INVIcompZCC_binding inv) t (calibration resolved)
                = Some (VFloat (as_float (div (flt 1 0) (zcc_current s t)))))
      /\ (Qabs (SF2Q (as_float (zcc_current s MOT))
                * SF2Q (as_float (div (flt 1 0) (zcc_current s MOT))) - 1)
          <= 1 # 2 ^ 23)%Q.
Proof.
  exact (conj resolve_ctx (zcc_current_and_reciprocal ctx resolved resolve_ctx)).
Defined.

(** ** Further contexts *)

Lemma resolve_ctx_gate_1 : resolve ctx_gate_1 = Ok resolved_gate_1.
Proof.
  vm_compute. reflexivity.
Qed.

Lemma resolve_ctx_north_america : resolve ctx_north_america = Ok resolved_north_america.
Proof.
  vm_compute. reflexivity.
Qed.

Lemma resolve_ctx_ME_PROTO : resolve ctx_ME_PROTO = Ok resolved_ME_PROTO.
Proof.
  vm_compute. reflexivity.
Qed.

Lemma resolve_three_targets : @resolve codes three_targets ctx = Ok resolved_three_targets.
Proof.
  vm_compute. reflexivity.
Qed.

(** X2 at the reference headers and the reference context. *)
Lemma builds_go_through_exactly_on_valid_contexts_witness :
  headers_fit /\ ((exists r, resolve ctx = Ok r) <-> valid_context ctx).
Proof.
  assert (Hfit : headers_fit).
  { unfold headers_fit, extern_constants.
    repeat (split; [cbn; lia|]).
    repeat (apply Forall_cons; [reflexivity|]). apply Forall_nil. }
  exact (conj Hfit (builds_go_through_exactly_on_valid_contexts ctx Hfit)).
Defined.

(** X3 at the reference context. *)
Lemma definitions_agree_with_their_declarations_witness :
  resolve ctx = Ok resolved
  /\ exists sel xs,
      preprocess ctx = Ok sel
      /\ interface ctx = Ok xs
      /\ xs = map signature (declarations sel)
      /\ map x_name xs = map fst (calibration resolved)
      /\ Forall2 conforms xs (map snd (calibration resolved)).
Proof.
  exact (conj resolve_ctx (definitions_agree_with_their_declarations ctx resolved resolve_ctx)).
Defined.

(** X4 at the ME project in its prototype phase, where the market chain
    defines three of the macros. *)
Lemma project_header_defines_each_macro_once_witness :
  resolve ctx_ME_PROTO = Ok resolved_ME_PROTO
  /\ matched PROJECT_NAME ctx_ME_PROTO
  /\ NoDup (map fst (project resolved_ME_PROTO))
  /\ Permutation (map fst (project resolved_ME_PROTO)) project_macros.
Proof.
  assert (H : matched PROJECT_NAME ctx_ME_PROTO) by (right; left; reflexivity).
  exact (conj resolve_ctx_ME_PROTO
           (conj H (project_header_defines_each_macro_once
                      ctx_ME_PROTO resolved_ME_PROTO resolve_ctx_ME_PROTO H))).
Defined.

(** X5 at the reference context. *)
Lemma table_binds_each_declared_name_once_witness :
  resolve ctx = Ok resolved
  /\ map fst (calibration resolved) = calibration_names
  /\ NoDup (map fst (calibration resolved))
  /\ forall n b, lookup n (calibration resolved) = Some b <-> In (n, b) (calibration resolved).
Proof.
  exact (conj resolve_ctx (table_binds_each_declared_name_once ctx resolved resolve_ctx)).
Defined.

(** X6 at the reference build and the same build with gate IC 1. *)
Lemma a_switch_changes_only_its_own_bindings_witness :
  (forall b, b <> GATE_IC_TYPE -> selected b ctx = selected b ctx_gate_1)
  /\ resolve ctx = Ok resolved
  /\ resolve ctx_gate_1 = Ok resolved_gate_1
  /\ (forall n, ~ In n (bindings_of_switch GATE_IC_TYPE) ->
                lookup n (calibration resolved) = lookup n (calibration resolved_gate_1))
  /\ (~ In GATE_IC_TYPE [PROJECT_NAME; PERFORMANCE_TYPE; DEVELOPMENT_PHASE; MARKET_VERSION] ->
      project resolved = project resolved_gate_1).
Proof.
  assert (H : forall b, b <> GATE_IC_TYPE -> selected b ctx = selected b ctx_gate_1).
  { intros b Hb. destruct b; try reflexivity. destruct (Hb eq_refl). }
  exact (conj H (conj resolve_ctx (conj resolve_ctx_gate_1
           (a_switch_changes_only_its_own_bindings GATE_IC_TYPE ctx ctx_gate_1
              resolved resolved_gate_1 H resolve_ctx resolve_ctx_gate_1)))).
Defined.

(** X7 at the reference build, which is for the domestic market, and the
    same build for North America. *)
Lemma the_market_has_no_effect_in_the_t_car_phase_witness :
  (forall b, b <> MARKET_VERSION -> selected b ctx = selected b ctx_north_america)
  /\ selected DEVELOPMENT_PHASE ctx = _TCAR_VERSION
  /\ selected MARKET_VERSION ctx <> selected MARKET_VERSION ctx_north_america
  /\ resolve ctx = Ok resolved
  /\ resolve ctx_north_america = Ok resolved_north_america
  /\ resolved = resolved_north_america.
Proof.
  assert (H : forall b, b <> MARKET_VERSION -> selected b ctx = selected b ctx_north_america).
  { intros b Hb. destruct b; try reflexivity. destruct (Hb eq_refl). }
  assert (Ht : selected DEVELOPMENT_PHASE ctx = _TCAR_VERSION) by reflexivity.
  assert (Hm : selected MARKET_VERSION ctx <> selected MARKET_VERSION ctx_north_america)
    by discriminate.
  exact (conj H (conj Ht (conj Hm (conj resolve_ctx (conj resolve_ctx_north_america
           (the_market_has_no_effect_in_the_t_car_phase ctx ctx_north_america
              resolved resolved_north_america H Ht resolve_ctx
              resolve_ctx_north_america)))))).
Defined.

(** X8 at the reference context. *)
Lemma update_time_variables_start_at_the_calibrated_times_witness :
  resolve ctx = Ok resolved
  /\ forall inv t,
      scalar (update_time_binding inv t) (calibration resolved)
      = Some (VInt match inv with INV1 => 3800 | INV2 => 3000 end)
      /\ scalar (update_time_variable inv t) (calibration resolved)
         = scalar (update_time_binding inv t) (calibration resolved).
Proof.
  exact (conj resolve_ctx
           (update_time_variables_start_at_the_calibrated_times ctx resolved resolve_ctx)).
Defined.

(** X9 at the reference context. *)
Lemma dead_times_are_ordered_and_bounded_witness :
  resolve ctx = Ok resolved
  /\ exists mot1 mot2 multi hsg,
      scalar (dead_time_binding INV1 MOT) (calibration resolved) = Some (VInt mot1)
      /\ scalar (dead_time_binding INV2 MOT) (calibration resolved) = Some (VInt mot2)
      /\ scalar "BswCfgCal_Pwm_MotDeadTime_Multi" (calibration resolved) = Some (VInt multi)
      /\ (forall inv,
             scalar (dead_time_binding inv HSG) (calibration resolved) = Some (VInt hsg))
      /\ hsg = mot1
      /\ 2000 <= mot1 <= mot2 /\ mot2 <= 4000 /\ mot1 <= multi <= 4000
      /\ forall inv t, exists deadtime x,
           scalar (dead_time_binding inv t) (calibration resolved) = Some (VInt deadtime)
           /\ entry (TdeadComp_binding inv) t (calibration resolved) = Some (VFloat x)
           /\ (0 < SF2Q x)%Q /\ (SF2Q x < ns deadtime)%Q.
Proof.
  exact (conj resolve_ctx (dead_times_are_ordered_and_bounded ctx resolved resolve_ctx)).
Defined.

(** X10 at the reference context. *)
Lemma starter_generator_limits_do_not_exceed_the_motor_s_witness :
  resolve ctx = Ok resolved
  /\ exists width_mot width_hsg edge_mot edge_hsg,
      (forall inv, scalar (min_width_binding inv MOT) (calibration resolved)
                   = Some (VInt width_mot))
      /\ (forall inv, scalar (min_width_binding inv HSG) (calibration resolved)
                      = Some (VInt width_hsg))
      /\ scalar (edge_offset_binding MOT) (calibration resolved) = Some (VInt edge_mot)
      /\ scalar (edge_offset_binding HSG) (calibration resolved) = Some (VInt edge_hsg)
      /\ 1 <= width_hsg <= width_mot /\ width_mot <= 4000
      /\ 0 <= edge_hsg <= edge_mot /\ edge_mot <= 3000.
Proof.
  exact (conj resolve_ctx
           (starter_generator_limits_do_not_exceed_the_motor_s ctx resolved resolve_ctx)).
Defined.

(** X11 at the reference context. *)
Lemma minimum_pulse_and_dead_times_fit_half_a_period_witness :
  resolve ctx = Ok resolved
  /\ forall inv t, exists start period deadtime width,
      scalar (start_time_binding t) (calibration resolved) = Some (VInt start)
      /\ scalar (period_binding t) (calibration resolved) = Some (VInt period)
      /\ scalar (dead_time_binding inv t) (calibration resolved) = Some (VInt deadtime)
      /\ scalar (min_width_binding inv t) (calibration resolved) = Some (VInt width)
      /\ period = 2 * start
      /\ width + 2 * deadtime < start.
Proof.
  exact (conj resolve_ctx
           (minimum_pulse_and_dead_times_fit_half_a_period ctx resolved resolve_ctx)).
Defined.

(** X12 at the reference context. *)
Lemma burst_thresholds_are_ordered_witness :
  resolve ctx = Ok resolved
  /\ forall t, exists off_min off_max on_min on_max,
      entry (burst_binding PwmOff Min) t (calibration resolved) = Some (VFloat off_min)
      /\ entry (burst_binding PwmOff Max) t (calibration resolved) = Some (VFloat off_max)
      /\ entry (burst_binding PwmOn Min) t (calibration resolved) = Some (VFloat on_min)
      /\ entry (burst_binding PwmOn Max) t (calibration resolved) = Some (VFloat on_max)
      /\ entry "CcCal_PwmOff_WaitTime" t (calibration resolved) = Some (VInt 100)
      /\ (SF2Q off_min == 0)%Q /\ (SF2Q on_min == 0)%Q
      /\ (0 <= SF2Q off_max)%Q /\ (SF2Q off_max <= SF2Q on_max)%Q
      /\ (SF2Q on_max <= 2)%Q
      /\ (t = HSG -> (SF2Q on_max == 0)%Q).
Proof.
  exact (conj resolve_ctx (burst_thresholds_are_ordered ctx resolved resolve_ctx)).
Defined.

(** X13 at the reference context. *)
Lemma var_dtgs_bands_are_nested_witness :
  resolve ctx = Ok resolved
  /\ forall q l t, exists min_out min_in max_in max_out,
      entry (VarDTGS_binding q l Min HysOut) t (calibration resolved) = Some (VFloat min_out)
      /\ entry (VarDTGS_binding q l Min HysIn) t (calibration resolved) = Some (VFloat min_in)
      /\ entry (VarDTGS_binding q l Max HysIn) t (calibration resolved) = Some (VFloat max_in)
      /\ entry (VarDTGS_binding q l Max HysOut) t (calibration resolved)
         = Some (VFloat max_out)
      /\ (SF2Q min_out <= SF2Q min_in)%Q
      /\ (SF2Q min_in <= SF2Q max_in)%Q
      /\ (SF2Q max_in <= SF2Q max_out)%Q.
Proof.
  exact (conj resolve_ctx (var_dtgs_bands_are_nested ctx resolved resolve_ctx)).
Defined.

(** X14 under headers that declare three targets: the third entry of every
    array is a zero and the third row of every table a row of zeros. *)
Lemma targets_without_initialiser_are_zero_witness :
  (2 <= @TOTAL_TARGET three_targets)%nat
  /\ @resolve codes three_targets ctx = Ok resolved_three_targets
  /\ (@TOTAL_TARGET three_targets - 2 = 1)%nat
  /\ exists sel,
      @preprocess codes three_targets ctx = Ok sel
      /\ (forall n ty vs,
             In (n, PerTarget ty vs) (calibration resolved_three_targets) ->
             exists c mot hsg,
               In (mkDecl c ty n (PerTargetInit [mot; hsg]))
                  (@declarations three_targets sel)
               /\ vs = convert ty mot :: convert ty hsg
                         :: repeat (convert ty (CInt 0)) (@TOTAL_TARGET three_targets - 2)
               /\ forall t,
                   entry n t (calibration resolved_three_targets)
                   = Some (convert ty (per_target mot hsg t)))
      /\ (forall n ty rows,
             In (n, PerTargetTab ty rows) (calibration resolved_three_targets) ->
             exists c cols mot hsg,
               In (mkDecl c ty n (PerTargetRows cols [mot; hsg]))
                  (@declarations three_targets sel)
               /\ List.length mot = cols
               /\ List.length hsg = cols
               /\ rows = map (convert ty) mot :: map (convert ty) hsg
                           :: repeat (repeat (convert ty (CInt 0)) cols)
                                (@TOTAL_TARGET three_targets - 2)
               /\ forall t,
                   row n t (calibration resolved_three_targets)
                   = Some (map (convert ty) (per_target mot hsg t)))
      /\ List.length (filter over_targets (calibration resolved_three_targets)) = 73%nat
      /\ List.length (filter table_over_targets (calibration resolved_three_targets))
         = 2%nat.
Proof.
  assert (Hfit : (2 <= @TOTAL_TARGET three_targets)%nat) by (cbn; lia).
  exact (conj Hfit
           (conj resolve_three_targets
              (conj eq_refl
                 (@targets_without_initialiser_are_zero codes three_targets ctx
                    resolved_three_targets Hfit resolve_three_targets)))).
Defined.
